(** * corpo-em-foco-ia: a shallow embedding of the business logic

    The development follows the four source files of the repository:

    - [Levels]: the XP/level table of the gamification section
      (src/components/onboarding/OnboardingChecklist.tsx);
    - [Progress]: the per-exercise completion map of the plan view
      (src/components/WorkoutPlanGenerator.tsx);
    - [Streak]: the streak computation of the streak card
      (src/components/WorkoutPlanGenerator.tsx, second part);
    - [Js], [Plan], [Generate], [Frontend]: the plan generator endpoint
      (supabase/functions/generate-workout-plan/index.ts) and the plan
      object the frontend builds from its answer;
    - [Cleanup]: the account cleanup endpoint
      (supabase/functions/cleanup-expired-accounts/index.ts).

    Further modules cover the rest of these files:

    - [StreakCard]: the badge and the message of the streak card;
    - [FrontendView]: how the frontend takes a field from an answer;
    - [CleanupView]: what the cleanup leaves of each user;
    - [JsText], [Form]: the form of the plan generator and the request it
      sends;
    - [PlanStore]: the stored plan and the rows of its progress;
    - [Onboarding]: the onboarding checklist;
    - [Gamification]: achievements, XP and the activity streak.

    Numbers are integers ([Z]); instants are milliseconds since the epoch. *)

From Stdlib Require Import ZArith List String Ascii Lia Bool DecimalString.
From Stdlib Require Import DecimalZ DecimalPos Sorting.Sorted.
From stdpp Require Import gmap strings list.
Import ListNotations.

Open Scope string_scope.
Open Scope Z_scope.

Set Warnings "-register-all".

(* ================================================================== *)
(** * Part I: the embedding *)
(* ================================================================== *)

(** ** XP levels (GamificationSection) *)

Module Levels.

(** [UserLevel]; the [icon] element is kept by the name of its component. *)
Record UserLevel := mkLevel {
  level : Z;
  title : string;
  xpRequired : Z;
  color : string;
  icon : string
}.

Definition levels : list UserLevel :=
  [ mkLevel 1 "Iniciante" 0 "bg-gray-100 text-gray-800" "User";
    mkLevel 2 "Guerreiro" 100 "bg-green-100 text-green-800" "Target";
    mkLevel 3 "Atleta" 300 "bg-blue-100 text-blue-800" "Dumbbell";
    mkLevel 4 "Veterano" 600 "bg-purple-100 text-purple-800" "Star";
    mkLevel 5 "Mestre" 1000 "bg-orange-100 text-orange-800" "Award";
    mkLevel 6 "Lenda" 1500 "bg-yellow-100 text-yellow-800" "Crown" ].

(** [levels[0]] *)
Definition level0 : UserLevel :=
  mkLevel 1 "Iniciante" 0 "bg-gray-100 text-gray-800" "User".

(** [[...levels].reverse().find(level => xp >= level.xpRequired) || levels[0]] *)
Definition getCurrentLevelData (xp : Z) : UserLevel :=
  match find (fun l => xpRequired l <=? xp) (rev levels) with
  | Some l => l
  | None => nth 0 levels level0
  end.

(** [levels.find(level => xp < level.xpRequired) || null] *)
Definition getNextLevel (xp : Z) : option UserLevel :=
  find (fun l => xp <? xpRequired l) levels.

End Levels.

(** ** Per-exercise completion (WorkoutPlanGenerator) *)

Module Progress.

(** What the component holds when a checkbox is clicked: the signed-in
    user ([user.id]), the title of the current plan ([workoutPlan?.title]),
    the [progressMap] state and the toasts shown so far. *)
Record Ui := mkUi {
  user : option string;
  planTitle : option string;
  progressMap : gmap string bool;
  toasts : list string
}.

(** The [plan_progress] table, keyed by the conflict target of the upsert
    ([user_id, plan_id, item_identifier]). *)
Definition Table := gmap (string * string * string) bool.

(** Outcome of [updateItemProgress]: it returns the data or throws. *)
Inductive Upsert := UpsertOk | UpsertThrows.

(** [progressMap.get(itemIdentifier) || false], the status a row displays
    and the one it passes to the handler. *)
Definition isCompleted (m : gmap string bool) (itemIdentifier : string) : bool :=
  default false (m !! itemIdentifier).

(** [!user || !currentPlanId]: an empty title is falsy. *)
Definition guard (ui : Ui) : option (string * string) :=
  match user ui, planTitle ui with
  | Some uid, Some t => if String.eqb t "" then None else Some (uid, t)
  | _, _ => None
  end.

Definition setProgressMap (f : gmap string bool -> gmap string bool) (ui : Ui) : Ui :=
  mkUi (user ui) (planTitle ui) (f (progressMap ui)) (toasts ui).

Definition toast (t : string) (ui : Ui) : Ui :=
  mkUi (user ui) (planTitle ui) (progressMap ui) (toasts ui ++ [t]).

(** The synchronous part of [handleProgressChange], up to the [await]:
    [None] when the guard returns early. *)
Definition optimistic (ui : Ui) (itemIdentifier : string) (currentStatus : bool)
  : option Ui :=
  match guard ui with
  | None => None
  | Some _ =>
      let newStatus := negb currentStatus in
      Some (setProgressMap (fun prevMap => <[itemIdentifier := newStatus]> prevMap) ui)
  end.

(** The continuation after the [await]: nothing more on success, the
    entry written back and a toast on failure. *)
Definition settle (ui : Ui) (itemIdentifier : string) (currentStatus : bool)
           (r : Upsert) : Ui :=
  match r with
  | UpsertOk => ui
  | UpsertThrows =>
      toast "Erro ao Salvar Progresso"
        (setProgressMap (fun prevMap => <[itemIdentifier := currentStatus]> prevMap) ui)
  end.

(** The effect of a successful upsert on the table. *)
Definition upsert (ui : Ui) (itemIdentifier : string) (currentStatus : bool)
           (r : Upsert) (tbl : Table) : Table :=
  match guard ui, r with
  | Some (uid, pid), UpsertOk => <[(uid, pid, itemIdentifier) := negb currentStatus]> tbl
  | _, _ => tbl
  end.

Definition handleProgressChange (ui : Ui) (tbl : Table) (itemIdentifier : string)
           (currentStatus : bool) (r : Upsert) : Ui * Table :=
  match optimistic ui itemIdentifier currentStatus with
  | None => (ui, tbl)
  | Some ui1 =>
      (settle ui1 itemIdentifier currentStatus r,
       upsert ui itemIdentifier currentStatus r tbl)
  end.

(** [onCheckedChange={() => handleProgressChange(itemIdentifier, isCompleted)}] *)
Definition onCheckedChange (ui : Ui) (tbl : Table) (itemIdentifier : string)
           (r : Upsert) : Ui * Table :=
  handleProgressChange ui tbl itemIdentifier
    (isCompleted (progressMap ui) itemIdentifier) r.

End Progress.

(** ** Workout streak (WorkoutStreak) *)

Module Streak.

Definition msPerDay : Z := 24 * 60 * 60 * 1000.

(** *** The [Date] methods the component uses

    [toDateString] prints the local calendar date as "Www Mmm DD YYYY";
    [new Date(s)] reads such a text back as local midnight. The local zone
    is a fixed offset [tz] (milliseconds east of UTC). *)

(** Year, month and day of a day number counted from 1970-01-01. *)
Definition civil_from_days (z : Z) : Z * Z * Z :=
  let z := z + 719468 in
  let era := z / 146097 in
  let doe := z - era * 146097 in
  let yoe := (doe - doe / 1460 + doe / 36524 - doe / 146096) / 365 in
  let doy := doe - (365 * yoe + yoe / 4 - yoe / 100) in
  let mp := (5 * doy + 2) / 153 in
  let d := doy - (153 * mp + 2) / 5 + 1 in
  let m := if mp <? 10 then mp + 3 else mp - 9 in
  let y := yoe + era * 400 + (if m <=? 2 then 1 else 0) in
  (y, m, d).

Definition days_from_civil (y m d : Z) : Z :=
  let y := if m <=? 2 then y - 1 else y in
  let era := y / 400 in
  let yoe := y - era * 400 in
  let doy := (153 * (if 2 <? m then m - 3 else m + 9) + 2) / 5 + d - 1 in
  let doe := yoe * 365 + yoe / 4 - yoe / 100 + doy in
  era * 146097 + doe - 719468.

Definition weekdayNames : list string :=
  ["Sun"; "Mon"; "Tue"; "Wed"; "Thu"; "Fri"; "Sat"].

Definition monthNames : list string :=
  ["Jan"; "Feb"; "Mar"; "Apr"; "May"; "Jun";
   "Jul"; "Aug"; "Sep"; "Oct"; "Nov"; "Dec"].

Definition decimal (n : Z) : string := NilZero.string_of_int (Z.to_int n).

Fixpoint zeros (k : nat) : string :=
  match k with O => "" | S k => "0" +:+ zeros k end.

(** [String(n).padStart(w, '0')] *)
Definition padStart (w : nat) (n : Z) : string :=
  let s := decimal n in zeros (w - String.length s) +:+ s.

(** The local day number of an instant. *)
Definition localDay (tz t : Z) : Z := (t + tz) / msPerDay.

Definition toDateString (tz t : Z) : string :=
  let day := localDay tz t in
  let '(y, m, d) := civil_from_days day in
  nth (Z.to_nat ((day + 4) mod 7)) weekdayNames "" +:+ " " +:+
  nth (Z.to_nat (m - 1)) monthNames "" +:+ " " +:+
  padStart 2 d +:+ " " +:+ padStart 4 y.

Definition digit (c : ascii) : option Z :=
  let n := Z.of_N (N_of_ascii c) in
  if (48 <=? n) && (n <=? 57) then Some (n - 48) else None.

Fixpoint number_from (acc : Z) (s : string) : option Z :=
  match s with
  | EmptyString => Some acc
  | String c r =>
      match digit c with
      | Some k => number_from (10 * acc + k) r
      | None => None
      end
  end.

Definition number (s : string) : option Z :=
  match s with EmptyString => None | _ => number_from 0 s end.

Fixpoint index_of (x : string) (l : list string) (i : Z) : option Z :=
  match l with
  | [] => None
  | y :: r => if String.eqb x y then Some i else index_of x r (i + 1)
  end.

(** [new Date(s).getTime()] for a text printed by [toDateString];
    [None] stands for the [NaN] of an invalid date. *)
Definition getTime (tz : Z) (s : string) : option Z :=
  match index_of (substring 4 3 s) monthNames 1,
        number (substring 8 2 s),
        number (substring 11 (String.length s - 11) s) with
  | Some m, Some d, Some y => Some (days_from_civil y m d * msPerDay - tz)
  | _, _, _ => None
  end.

(** *** Array helpers *)

(** [[...new Set(xs)]]: the first occurrence of each text, in order. *)
Fixpoint uniq (seen : list string) (xs : list string) : list string :=
  match xs with
  | [] => []
  | x :: r =>
      if existsb (String.eqb x) seen then uniq seen r
      else x :: uniq (x :: seen) r
  end.

(** [xs.sort()] with the default comparison: texts in code-unit order. *)
Fixpoint insert_sorted (x : string) (l : list string) : list string :=
  match l with
  | [] => [x]
  | y :: r => if String.leb x y then x :: l else y :: insert_sorted x r
  end.

Definition sort (l : list string) : list string :=
  fold_right insert_sorted [] l.

(** *** The component *)

Record PlanProgressItem := mkItem {
  user_id : string;
  plan_id : string;
  item_identifier : string;
  is_completed : bool;
  created_at : Z
}.

Record StreakData := mkStreak {
  currentStreak : Z;
  bestStreak : Z;
  totalWorkouts : Z;
  lastWorkoutDate : option Z
}.

(** [Math.floor((currentDate.getTime() - previousDate.getTime()) / (1000 * 60 * 60 * 24))] *)
Definition diffDays (tz : Z) (current previous : string) : option Z :=
  match getTime tz current, getTime tz previous with
  | Some c, Some p => Some ((c - p) / msPerDay)
  | _, _ => None
  end.

Definition is_one (d : option Z) : bool :=
  match d with Some 1 => true | _ => false end.

(** The loop [for (let i = dates.length - 2; i >= 0; i--)]; [k] is [i + 1]. *)
Fixpoint currentLoop (tz : Z) (dates : list string) (k : nat) (streak : Z) : Z :=
  match k with
  | O => streak
  | S i =>
      if is_one (diffDays tz (nth (S i) dates "") (nth i dates ""))
      then currentLoop tz dates i (streak + 1)
      else streak
  end.

Definition calculateCurrentStreak (tz now : Z) (dates : list string) : Z :=
  match dates with
  | [] => 0
  | _ =>
      let today := toDateString tz now in
      let yesterday := toDateString tz (now - 24 * 60 * 60 * 1000) in
      let lastWorkoutDate := nth (List.length dates - 1) dates "" in
      if negb (String.eqb lastWorkoutDate today)
         && negb (String.eqb lastWorkoutDate yesterday)
      then 0
      else currentLoop tz dates (List.length dates - 1) 1
  end.

(** The loop [for (let i = 1; i < dates.length; i++)]; [n] iterations are left. *)
Fixpoint bestLoop (tz : Z) (dates : list string) (i n : nat) (best cur : Z) : Z :=
  match n with
  | O => best
  | S n =>
      if is_one (diffDays tz (nth i dates "") (nth (i - 1) dates ""))
      then bestLoop tz dates (S i) n (Z.max best (cur + 1)) (cur + 1)
      else bestLoop tz dates (S i) n best 1
  end.

Definition calculateBestStreak (tz : Z) (dates : list string) : Z :=
  match dates with
  | [] => 0
  | _ => bestLoop tz dates 1 (List.length dates - 1) 1 1
  end.

(** [.order('created_at', { ascending: true })] *)
Fixpoint insert_by_time (x : PlanProgressItem) (l : list PlanProgressItem)
  : list PlanProgressItem :=
  match l with
  | [] => [x]
  | y :: r => if created_at x <=? created_at y then x :: l else y :: insert_by_time x r
  end.

(** The query of [fetchStreakData]: the completed rows of the user, oldest first. *)
Definition completedRows (table : list PlanProgressItem) (uid : string)
  : list PlanProgressItem :=
  fold_right insert_by_time []
    (List.filter (fun p => String.eqb (user_id p) uid && is_completed p) table).

(** [uniqueDates] of [fetchStreakData]. *)
Definition uniqueDates (tz : Z) (progressData : list PlanProgressItem) : list string :=
  sort (uniq [] (map (fun p => toDateString tz (created_at p)) progressData)).

(** The value [fetchStreakData] passes to [setStreakData]. *)
Definition fetchStreakData (tz now : Z) (table : list PlanProgressItem) (uid : string)
  : StreakData :=
  let progressData := completedRows table uid in
  match progressData with
  | [] => mkStreak 0 0 0 None
  | _ =>
      let dates := uniqueDates tz progressData in
      mkStreak (calculateCurrentStreak tz now dates)
               (calculateBestStreak tz dates)
               (Z.of_nat (List.length progressData))
               (option_map created_at (last progressData))
  end.

(** *** The streak as the words of the specification describe it

    Over the local day numbers of the completed rows: 0 unless the most
    recent day is today or yesterday, otherwise the length of the run of
    consecutive days that ends at the most recent day. *)

Definition workoutDays (tz : Z) (progressData : list PlanProgressItem) : list Z :=
  map (fun p => localDay tz (created_at p)) progressData.

Fixpoint runEndingAt (days : list Z) (d : Z) (fuel : nat) : Z :=
  match fuel with
  | O => 0
  | S fuel =>
      if existsb (Z.eqb d) days then 1 + runEndingAt days (d - 1) fuel else 0
  end.

Definition statedCurrentStreak (tz now : Z) (progressData : list PlanProgressItem) : Z :=
  match workoutDays tz progressData with
  | [] => 0
  | d :: ds =>
      let mostRecent := fold_right Z.max d ds in
      let today := localDay tz now in
      if negb (mostRecent =? today) && negb (mostRecent =? today - 1) then 0
      else runEndingAt (d :: ds) mostRecent (S (List.length ds))
  end.

End Streak.

(** ** JSON values and the JavaScript operators the code applies to them *)

Module Js.

(** A parsed JSON document; [undefined] is the [None] of [option JValue]. *)
Inductive JValue :=
| JNull
| JBool (b : bool)
| JNumber (n : Z)
| JString (s : string)
| JArray (items : list JValue)
| JObject (fields : list (string * JValue)).

(** [!!v] *)
Definition truthy (v : JValue) : bool :=
  match v with
  | JNull => false
  | JBool b => b
  | JNumber n => negb (n =? 0)
  | JString s => negb (String.eqb s "")
  | JArray _ | JObject _ => true
  end.

Definition truthy_opt (v : option JValue) : bool :=
  match v with Some x => truthy x | None => false end.

(** [a || b] with [a] possibly [undefined]. *)
Definition or_else (a : option JValue) (b : JValue) : JValue :=
  match a with
  | Some x => if truthy x then x else b
  | None => b
  end.

Fixpoint lookup (k : string) (fields : list (string * JValue)) : option JValue :=
  match fields with
  | [] => None
  | (k', v) :: r => if String.eqb k k' then Some v else lookup k r
  end.

(** [v.k] for a value that is not [null]: only objects carry the keys read here. *)
Definition get (v : JValue) (k : string) : option JValue :=
  match v with
  | JObject fields => lookup k fields
  | _ => None
  end.

(** [o.k = v] on an object: the key keeps its place, a new key goes last. *)
Fixpoint set (k : string) (v : JValue) (fields : list (string * JValue))
  : list (string * JValue) :=
  match fields with
  | [] => [(k, v)]
  | (k', v') :: r => if String.eqb k k' then (k, v) :: r else (k', v') :: set k v r
  end.

(** [v?.k]: [undefined] on [undefined] and [null]. *)
Definition opt_get (v : option JValue) (k : string) : option JValue :=
  match v with
  | None | Some JNull => None
  | Some x => get x k
  end.

(** [v?.[0]] *)
Definition opt_first (v : option JValue) : option JValue :=
  match v with
  | Some (JArray items) => nth_error items 0
  | Some (JObject fields) => lookup "0" fields
  | Some (JString (String c _)) => Some (JString (String c EmptyString))
  | _ => None
  end.

(** The white space [trim] removes, over the UTF-8 bytes of a text: the
    one-byte characters U+0009 to U+000D and U+0020, *)
Definition is_space (c : ascii) : bool :=
  let n := N_of_ascii c in
  ((9 <=? n) && (n <=? 13) || (n =? 32))%N.

(** the two-byte character U+00A0, *)
Definition is_space2 (c1 c2 : ascii) : bool :=
  ((N_of_ascii c1 =? 194) && (N_of_ascii c2 =? 160))%N.

(** and the three-byte characters U+1680, U+2000 to U+200A, U+2028,
    U+2029, U+202F, U+205F, U+3000 and U+FEFF. *)
Definition is_space3 (c1 c2 c3 : ascii) : bool :=
  let a := N_of_ascii c1 in
  let b := N_of_ascii c2 in
  let c := N_of_ascii c3 in
  ((a =? 225) && (b =? 154) && (c =? 128)
   || (a =? 226) && (b =? 128)
      && ((128 <=? c) && (c <=? 138) || (c =? 168) || (c =? 169) || (c =? 175))
   || (a =? 226) && (b =? 129) && (c =? 159)
   || (a =? 227) && (b =? 128) && (c =? 128)
   || (a =? 239) && (b =? 187) && (c =? 191))%N.

(** [s.trim() === ''] *)
Fixpoint blank (s : string) : bool :=
  match s with
  | EmptyString => true
  | String c1 r1 =>
      if is_space c1 then blank r1
      else
        match r1 with
        | EmptyString => false
        | String c2 r2 =>
            if is_space2 c1 c2 then blank r2
            else
              match r2 with
              | EmptyString => false
              | String c3 r3 => if is_space3 c1 c2 c3 then blank r3 else false
              end
        end
  end.

Definition upper (c : ascii) : ascii :=
  let n := N_of_ascii c in
  if ((97 <=? n) && (n <=? 122))%N then ascii_of_N (n - 32) else c.

(** [s.charAt(0).toUpperCase() + s.slice(1)] for a text whose first
    character, if any, is ASCII. *)
Definition capitalize (s : string) : string :=
  match s with
  | EmptyString => EmptyString
  | String c r => String (upper c) r
  end.

(** [`${n}`] for an integer. *)
Definition decimal (n : Z) : string := NilZero.string_of_int (Z.to_int n).

(** [`${s}`] for a text that may be [undefined]. *)
Definition text (s : option string) : string :=
  match s with Some x => x | None => "undefined" end.

(** The text an object literal used as a table holds under its own key
    [k], if it has that key. *)
Fixpoint assoc (k : string) (table : list (string * string)) : option string :=
  match table with
  | [] => None
  | (k', v) :: r => if String.eqb k k' then Some v else assoc k r
  end.

(** The functions every object literal inherits from [Object.prototype];
    under [__proto__] it inherits the prototype itself. *)
Definition inheritedMethods : list string :=
  [ "constructor"; "toString"; "toLocaleString"; "valueOf"; "hasOwnProperty";
    "isPrototypeOf"; "propertyIsEnumerable"; "__defineGetter__";
    "__defineSetter__"; "__lookupGetter__"; "__lookupSetter__" ].

(** [k] names a member every object literal inherits. *)
Definition inherited (k : string) : bool :=
  existsb (String.eqb k) inheritedMethods || String.eqb k "__proto__".

(** What [table[k]] reads from such a table. *)
Inductive Member :=
| Own (v : string)   (* the text of the table's own key *)
| Method             (* an inherited function *)
| Prototype          (* [Object.prototype], under [__proto__] *)
| Missing.           (* [undefined] *)

(** [table[k]] *)
Definition member (k : string) (table : list (string * string)) : Member :=
  match assoc k table with
  | Some v => Own v
  | None =>
      if existsb (String.eqb k) inheritedMethods then Method
      else if String.eqb k "__proto__" then Prototype
      else Missing
  end.

(** [s || d] for a text that may be [undefined]: the empty text is falsy. *)
Definition text_or (s : option string) (d : string) : string :=
  match s with
  | Some x => if String.eqb x "" then d else x
  | None => d
  end.

(** [n || d] for a number that may be [undefined]: zero is falsy. *)
Definition num_or (n : option Z) (d : Z) : Z :=
  match n with
  | Some x => if x =? 0 then d else x
  | None => d
  end.

End Js.

(** ** The fallback generator (generate-workout-plan) *)

Module Plan.
Import Js.

(** The [userProfile] object as the form sends it; every field may be
    missing. *)
Record UserProfile := mkProfile {
  age : option Z;
  gender : option string;
  weight : option Z;
  height : option Z;
  fitness_level : option string;
  fitness_goals : option (list string);
  available_days : option Z;
  session_duration : option Z;
  equipment : option string;
  limitations : option string
}.

Record Exercise := mkExercise {
  name : string;
  sets : Z;
  reps : string;
  rest : string;
  instructions : string
}.

Record WorkoutPlan := mkPlan {
  title : string;
  description : string;
  difficulty_level : string;
  duration_weeks : Z;
  source : string;
  exercises : list Exercise;
  nutrition_tips : list string
}.

(** [case a: case b: ... return r]: the labels that share a [return]. *)
Definition oneOf (s : string) (labels : list string) : bool :=
  existsb (String.eqb s) labels.

(** The [switch]; [None] is an [undefined] argument, which takes the
    [default] branch. *)
Definition mapFitnessLevelToDifficulty (fitnessLevel : option string) : string :=
  match fitnessLevel with
  | Some s =>
      if oneOf s ["sedentario"; "pouco_ativo"; "iniciante"] then "iniciante"
      else if oneOf s ["moderado"; "ativo"; "intermediario"] then "intermediario"
      else if oneOf s ["muito_ativo"; "avancado"] then "avancado"
      else "iniciante"
  | None => "iniciante"
  end.

Definition goalsDescription : list (string * string) :=
  [ ("perder_peso", "perda de peso e queima de gordura");
    ("ganhar_massa", "ganho de massa muscular");
    ("tonificar", "tonificação corporal");
    ("condicionamento", "melhora do condicionamento físico");
    ("forca", "aumento da força");
    ("flexibilidade", "melhora da flexibilidade");
    ("geral", "condicionamento geral");
    ("hipertrofia", "ganho de massa muscular e hipertrofia") ].

Definition weekNames : list string :=
  [ ""; "PRIMEIRA"; "SEGUNDA"; "TERCEIRA"; "QUARTA"; "QUINTA"; "SEXTA";
    "SÉTIMA"; "OITAVA"; "NONA"; "DÉCIMA"; "DÉCIMA PRIMEIRA"; "DÉCIMA SEGUNDA" ].

Definition dayLetters : list string :=
  [ ""; "A"; "B"; "C"; "D"; "E"; "F"; "G" ].

Definition exercisesByDay : list (string * list string) :=
  [ ("A", ["Agachamento Livre"; "Flexão de Braço"; "Prancha Isométrica"]);
    ("B", ["Afundo Alternado"; "Flexão Inclinada"; "Ponte Glútea"]);
    ("C", ["Agachamento Sumo"; "Flexão Diamante"; "Mountain Climber"]);
    ("D", ["Agachamento Búlgaro"; "Flexão Declinada"; "Prancha Lateral"]);
    ("E", ["Agachamento Jump"; "Flexão Hindu"; "Burpee Modificado"]) ].

Fixpoint exercisesFor (k : string) (table : list (string * list string))
  : option (list string) :=
  match table with
  | [] => None
  | (k', v) :: r => if String.eqb k k' then Some v else exercisesFor k r
  end.

(** [exercisesByDay[dayLetter] || exercisesByDay['A']] *)
Definition dayExercises (dayLetter : option string) : list string :=
  match exercisesFor (text dayLetter) exercisesByDay with
  | Some l => l
  | None => default [] (exercisesFor "A" exercisesByDay)
  end.

(** The entry pushed first for a workout. *)
Definition warmup (difficultyLevel : string) (week : nat) (dayLetter : option string)
  : Exercise :=
  let weekName := text (nth_error weekNames week) in
  mkExercise
    (weekName +:+ " SEMANA - Aquecimento (Treino " +:+ text dayLetter +:+ ")")
    1
    "8-10 minutos"
    "N/A"
    ("Aquecimento específico para Treino " +:+ text dayLetter +:+
     ": rotações articulares, mobilidade dinâmica e ativação cardiovascular. " +:+
     weekName +:+ " SEMANA: Preparação progressiva adequada ao nível " +:+
     difficultyLevel +:+ ".").

(** The entry pushed by the callback of [dayExercises.forEach]. *)
Definition mainExercise (difficultyLevel goalDesc : string) (week : nat)
           (dayLetter : option string) (exerciseName : string) (index : nat) : Exercise :=
  let weekName := text (nth_error weekNames week) in
  mkExercise
    (weekName +:+ " SEMANA - Treino " +:+ text dayLetter +:+ ": " +:+ exerciseName)
    (if (week <=? 4)%nat then 2 + Z.of_nat index else 3 + Z.of_nat index)
    (if (week <=? 4)%nat then "8-10" else "10-15")
    "60-90s"
    ("EXECUÇÃO TÉCNICA: Técnica biomecânica detalhada para " +:+ exerciseName +:+
     ". " +:+ weekName +:+ " SEMANA: Progressão adequada considerando " +:+ goalDesc +:+
     ". MÚSCULOS: Grupos musculares específicos trabalhados. ADAPTAÇÕES: Considerações para nível " +:+
     difficultyLevel +:+ ".").

(** [xs.forEach((x, index) => ...)] collecting what the callback pushes. *)
Fixpoint forEachIndexed {A B} (f : A -> nat -> B) (xs : list A) (index : nat) : list B :=
  match xs with
  | [] => []
  | x :: r => f x index :: forEachIndexed f r (S index)
  end.

(** What one pass of the inner loop body pushes. *)
Definition workout (difficultyLevel goalDesc : string) (week day : nat) : list Exercise :=
  let dayLetter := nth_error dayLetters day in
  warmup difficultyLevel week dayLetter ::
  forEachIndexed (mainExercise difficultyLevel goalDesc week dayLetter)
    (dayExercises dayLetter) 0.

(** [for (let day = 1; day <= availableDays; day++)] *)
Definition weekExercises (difficultyLevel goalDesc : string) (availableDays : Z)
           (week : nat) : list Exercise :=
  flat_map (workout difficultyLevel goalDesc week) (seq 1 (Z.to_nat availableDays)).

(** [for (let week = 1; week <= 12; week++)] *)
Definition allExercises (difficultyLevel goalDesc : string) (availableDays : Z)
  : list Exercise :=
  flat_map (weekExercises difficultyLevel goalDesc availableDays) (seq 1 12).

Definition nutritionTips : list string :=
  [ "PRIMEIRA E SEGUNDA SEMANA: Proteína pós-treino moderada (15-20g) para adaptação inicial";
    "TERCEIRA SEMANA: Aumento para 25-30g de proteína pós-treino para suporte à recuperação";
    "Hidratação progressiva: 35ml por kg de peso + 300ml extra na primeira semana, 500ml extra da segunda semana em diante";
    "Carboidratos pré-treino: começar com 20-30g na primeira semana, progredir para 30-50g";
    "Timing nutricional: manter consistência nos horários das refeições para regular o metabolismo";
    "Sono reparador: 7-9h por noite, especialmente importante nas primeiras semanas de adaptação";
    "Suplementação básica: considere apenas após a terceira semana, quando o corpo estiver adaptado" ].

(** [userProfile?.fitness_goals?.[0]] *)
Definition firstGoal (userProfile : option UserProfile) : option string :=
  match userProfile with
  | Some p => match fitness_goals p with Some l => nth_error l 0 | None => None end
  | None => None
  end.

(** [userProfile?.available_days || 3] *)
Definition availableDaysOf (userProfile : option UserProfile) : Z :=
  num_or (match userProfile with Some p => available_days p | None => None end) 3.

(** The three values the generator reads from its argument. *)
Definition relevant (userProfile : option UserProfile)
  : option string * option string * option Z :=
  (match userProfile with Some p => fitness_level p | None => None end,
   firstGoal userProfile,
   match userProfile with Some p => available_days p | None => None end).

(** The most entries an array holds: the [push] that would pass it throws
    a RangeError. *)
Definition maxLength : Z := 4294967295.

(** [goalsDescription[goals] || 'condicionamento geral'] when it is a
    text; [None] when [goals] names an inherited member, whose value is a
    function or an object. *)
Definition goalDescOf (goals : string) : option string :=
  match member goals goalsDescription with
  | Own v => Some (text_or (Some v) "condicionamento geral")
  | Missing => Some "condicionamento geral"
  | Method | Prototype => None
  end.

(** The object of the [return] statement, for a [goalDesc] that is a
    text. *)
Definition planOf (difficultyLevel goalDesc : string) (availableDays : Z) : WorkoutPlan :=
  mkPlan
    ("Plano Periodizado " +:+ capitalize difficultyLevel +:+ " - " +:+ capitalize goalDesc)
    ("Plano periodizado de 12 semanas específico para " +:+ goalDesc +:+
     " para nível " +:+ difficultyLevel +:+ ", com " +:+ decimal availableDays +:+
     " sessões semanais. Este treino foi desenvolvido considerando seu perfil e objetivos específicos.")
    difficultyLevel
    12
    "fallback"
    (allExercises difficultyLevel goalDesc availableDays)
    nutritionTips.

(** [createFallbackPlan]; [userProfile] is [None] for [null] and
    [undefined]. The result is [None] when the call throws: in the loops,
    once the list would pass [maxLength] entries, or in the [return]
    statement, where [goalDesc.charAt] is not a function when [goalDesc] is
    not a text. The memory of the runtime is taken to hold the list. *)
Definition createFallbackPlan (userProfile : option UserProfile) : option WorkoutPlan :=
  let level :=
    text_or (match userProfile with Some p => fitness_level p | None => None end)
            "iniciante" in
  let goals := text_or (firstGoal userProfile) "condicionamento geral" in
  let availableDays := availableDaysOf userProfile in
  let difficultyLevel := mapFitnessLevelToDifficulty (Some level) in
  if maxLength <? 48 * Z.max 0 availableDays then None
  else
    match goalDescOf goals with
    | Some goalDesc => Some (planOf difficultyLevel goalDesc availableDays)
    | None => None
    end.

(** [JSON.stringify] sees these objects; the body is kept as a document. *)
Definition exerciseJson (e : Exercise) : JValue :=
  JObject [ ("name", JString (name e)); ("sets", JNumber (sets e));
            ("reps", JString (reps e)); ("rest", JString (rest e));
            ("instructions", JString (instructions e)) ].

Definition planJson (p : WorkoutPlan) : JValue :=
  JObject [ ("title", JString (title p));
            ("description", JString (description p));
            ("difficulty_level", JString (difficulty_level p));
            ("duration_weeks", JNumber (duration_weeks p));
            ("source", JString (source p));
            ("exercises", JArray (map exerciseJson (exercises p)));
            ("nutrition_tips", JArray (map JString (nutrition_tips p))) ].

End Plan.

(** ** The endpoint (generate-workout-plan) *)

Module Generate.
Import Js Plan.

(** A request: its method and what [await req.json()] yields for
    [{ userProfile }]. The outer [None] is a body that cannot be read; the
    inner one a profile that is [null] or missing. *)
Record Request := mkRequest {
  method : string;
  json : option (option UserProfile)
}.

Record Response := mkResponse {
  status : Z;
  headers : list (string * string);
  body : option JValue
}.

Definition corsHeaders : list (string * string) :=
  [ ("Access-Control-Allow-Origin", "*");
    ("Access-Control-Allow-Headers",
     "authorization, x-client-info, apikey, content-type") ].

(** [new Response(JSON.stringify(v), { headers: {...} })]: the status is
    200 when none is given. *)
Definition jsonResponse (v : JValue) : Response :=
  mkResponse 200 (("Content-Type", "application/json") :: corsHeaders) (Some v).

(** What the call to the language-model service does. *)
Inductive Groq :=
| FetchRejects                                (* [fetch] throws *)
| NotOk (code : Z) (errorText : option string)
    (* [!response.ok]; no text when [response.text()] throws *)
| OkUnreadable                                (* [response.json()] throws *)
| OkData (data : JValue).                     (* the parsed answer *)

Definition goalsMap : list (string * string) :=
  [ ("perder_peso",
     "perder peso e queimar gordura corporal");
    ("ganhar_massa",
     "ganhar massa muscular e hipertrofia");
    ("tonificar",
     "tonificar o corpo e definir músculos");
    ("condicionamento",
     "melhorar condicionamento cardiovascular");
    ("forca",
     "aumentar força e potência muscular");
    ("flexibilidade",
     "melhorar flexibilidade e mobilidade");
    ("geral",
     "condicionamento físico geral");
    ("hipertrofia",
     "ganhar massa muscular e hipertrofia") ].

Definition equipmentMap : list (string * string) :=
  [ ("academia_completa",
     "academia completa com halteres, barras, máquinas de musculação, esteiras e equipamentos de cardio");
    ("casa_halteres",
     "treino em casa com halteres, barras, elásticos e equipamentos básicos");
    ("casa_basico",
     "treino em casa com equipamentos básicos limitados");
    ("peso_corporal",
     "exercícios usando apenas o peso corporal, sem equipamentos");
    ("parque",
     "exercícios ao ar livre em parques com barras e equipamentos públicos") ].

Definition limitationsMap : list (string * string) :=
  [ ("nenhuma",
     "nenhuma limitação física");
    ("joelho",
     "problemas no joelho - evitar impacto e sobrecarga");
    ("costas",
     "problemas nas costas - foco em fortalecimento do core");
    ("ombro",
     "problemas no ombro - evitar movimentos overhead");
    ("tornozelo",
     "problemas no tornozelo - exercícios de baixo impacto");
    ("cardiaco",
     "problemas cardíacos - intensidade moderada controlada");
    ("outros",
     "outras limitações físicas específicas") ].

Definition fitnessLevelMap : list (string * string) :=
  [ ("sedentario",
     "sedentário - iniciante absoluto sem experiência em exercícios");
    ("pouco_ativo",
     "pouco ativo - experiência limitada com exercícios");
    ("moderado",
     "moderadamente ativo - alguma experiência com treinos");
    ("ativo",
     "ativo - experiência regular com exercícios");
    ("muito_ativo",
     "muito ativo - experiência avançada em treinamento");
    ("avancado",
     "atlético avançado - alto nível de condicionamento");
    ("iniciante",
     "iniciante - pouca experiência em treinamento") ].

(** [table[k] || k || d] as [JSON.stringify] writes it for a key of an
    object: a text; nothing for an inherited function, whose key is left
    out; the empty object for [Object.prototype]. *)
Definition described (table : list (string * string)) (k : option string) (d : string)
  : option JValue :=
  match member (text k) table with
  | Own v => Some (JString (text_or (Some v) (text_or k d)))
  | Missing => Some (JString (text_or k d))
  | Method => None
  | Prototype => Some (JObject [])
  end.

(** A key of an object as [JSON.stringify] writes it. *)
Definition entry (k : string) (v : option JValue) : list (string * JValue) :=
  match v with
  | Some x => [(k, x)]
  | None => []
  end.

(** [!groqApiKey || groqApiKey.trim() === ''] *)
Definition keyMissing (groqApiKey : option string) : bool :=
  match groqApiKey with
  | None => true
  | Some k => blank k
  end.

Definition validLevels : list string := ["iniciante"; "intermediario"; "avancado"].

(** [validLevels.includes(v)] *)
Definition includesLevel (v : option JValue) : bool :=
  match v with
  | Some (JString s) => existsb (String.eqb s) validLevels
  | _ => false
  end.

(** [Array.isArray(v)] *)
Definition isArray (v : option JValue) : bool :=
  match v with Some (JArray _) => true | _ => false end.

(** The object stored under [generated_for]. *)
Definition generatedFor (p : UserProfile) : JValue :=
  let firstGoal := match fitness_goals p with Some l => nth_error l 0 | None => None end in
  JObject
    (entry "goals" (described goalsMap firstGoal "melhorar condicionamento geral")
     ++ entry "equipment" (described equipmentMap (equipment p) "equipamentos básicos")
     ++ entry "level" (described fitnessLevelMap (fitness_level p) "iniciante")
     ++ entry "limitations"
          (described limitationsMap (limitations p) "nenhuma limitação")
     ++ [ ("days", JNumber (num_or (available_days p) 3));
          ("duration", JNumber (num_or (session_duration p) 60)) ])%list.

(** The body of the inner [try] once [JSON.parse] has returned: the plan to
    answer with, or [None] when a statement throws. Only an object gets
    through: reading a property of [null] throws, the strict-mode
    assignment to a primitive throws, and an array has no [title]. *)
Definition acceptPlan (p : UserProfile) (parsed : JValue) : option JValue :=
  match parsed with
  | JObject fields =>
      let fields :=
        if negb (truthy_opt (lookup "difficulty_level" fields))
           || negb (includesLevel (lookup "difficulty_level" fields))
        then set "difficulty_level"
               (JString (mapFitnessLevelToDifficulty (fitness_level p))) fields
        else fields in
      if negb (truthy_opt (lookup "title" fields))
         || negb (truthy_opt (lookup "exercises" fields))
         || negb (isArray (lookup "exercises" fields))
      then None
      else Some (JObject (set "generated_for" (generatedFor p)
                           (set "source" (JString "groq_api") fields)))
  | _ => None
  end.

(** [data.choices?.[0]?.message?.content || ''] for [data] other than [null]. *)
Definition contentOf (data : JValue) : JValue :=
  or_else (opt_get (opt_get (opt_first (get data "choices")) "message") "content")
          (JString "").


(** A parsed answer without a [title] or without an [exercises] array. *)
Definition lacksShape (parsed : JValue) : bool :=
  negb (truthy_opt (get parsed "title")) || negb (isArray (get parsed "exercises")).

Section Handler.

(** [JSON.parse] applied to the content once it is trimmed and taken out
    of its code fence, if any; [None] when it throws. *)
Variable parseCleaned : string -> option JValue.

(** The outer [catch]: the answer that carries [createFallbackPlan(null)].
    An exception out of it would leave the handler without an answer of
    its own (status 500). *)
Definition catchAll : Response :=
  match createFallbackPlan None with
  | Some basicPlan => jsonResponse (planJson basicPlan)
  | None => mkResponse 500 [] None
  end.

(** The answer that carries [createFallbackPlan(userProfile)]; when that
    call throws, the outer [catch] answers. *)
Definition fallback (userProfile : option UserProfile) : Response :=
  match createFallbackPlan userProfile with
  | Some fallbackPlan => jsonResponse (planJson fallbackPlan)
  | None => catchAll
  end.

Definition handler (req : Request) (groqApiKey : option string) (groq : Groq)
  : Response :=
  if String.eqb (method req) "OPTIONS" then mkResponse 200 corsHeaders None
  else
    match json req with
    | None => catchAll
    | Some userProfile =>
        if keyMissing groqApiKey then fallback userProfile
        else
          match userProfile with
          | None => catchAll (* [userProfile.fitness_goals] throws *)
          | Some p =>
              match groq with
              | FetchRejects => catchAll
              | NotOk _ (Some _) => fallback userProfile
              | NotOk _ None => catchAll
              | OkUnreadable => catchAll
              | OkData JNull => catchAll (* [data.choices] throws *)
              | OkData data =>
                  match contentOf data with
                  | JString content =>
                      if blank content then fallback userProfile
                      else
                        match parseCleaned content with
                        | None => fallback userProfile
                        | Some parsed =>
                            match acceptPlan p parsed with
                            | Some workoutPlan => jsonResponse workoutPlan
                            | None => fallback userProfile
                            end
                        end
                  | _ => catchAll (* [content.trim] is not a function *)
                  end
              end
          end
    end.

(** The service is unavailable, case by case as the specification lists
    them: the key is missing or blank, the answer is not OK (and its text
    is read), its content is empty, or the content does not parse or lacks
    [title] or [exercises]. *)
Definition unavailable (groqApiKey : option string) (groq : Groq) : bool :=
  keyMissing groqApiKey
  || match groq with
     | NotOk _ errorText => match errorText with Some _ => true | None => false end
     | OkData JNull => false
     | OkData data =>
         match contentOf data with
         | JString content =>
             blank content
             || match parseCleaned content with
                | None => true
                | Some parsed => lacksShape parsed
                end
         | _ => false
         end
     | FetchRejects | OkUnreadable => false
     end.

End Handler.

End Generate.

(** ** The plan the frontend builds (generateWorkoutPlan) *)

Module Frontend.
Import Js.

(** The [plan] object; its fields hold what the answer held. *)
Record WorkoutPlan := mkPlan {
  title : JValue;
  description : JValue;
  difficulty_level : JValue;
  duration_weeks : JValue;
  exercises : JValue;
  nutrition_tips : JValue
}.

(** [supabase.functions.invoke]: the parsed body of a 2xx answer as
    [data], an error otherwise. *)
Definition invoke (r : Generate.Response) : option JValue * bool :=
  if (200 <=? Generate.status r) && (Generate.status r <? 300)
  then (Generate.body r, false)
  else (None, true).

(** From the two guards to the [plan] literal; [None] when a guard throws. *)
Definition buildPlan (data : option JValue) (functionError : bool) : option WorkoutPlan :=
  if functionError then None
  else
    match data with
    | Some (JObject fields) =>
        if negb (truthy_opt (lookup "title" fields))
           && negb (truthy_opt (lookup "exercises" fields))
        then None
        else Some (mkPlan
               (or_else (lookup "title" fields) (JString "Plano de Treino Personalizado"))
               (or_else (lookup "description" fields)
                        (JString "Plano gerado com base no seu perfil"))
               (or_else (lookup "difficulty_level" fields) (JString "iniciante"))
               (or_else (lookup "duration_weeks" fields) (JNumber 8))
               (or_else (lookup "exercises" fields) (JArray []))
               (or_else (lookup "nutrition_tips" fields) (JArray [])))
    | _ => None (* falsy, not an object, or an array without the two keys *)
    end.

(** The plan [generateWorkoutPlan] saves and then shows with
    [setWorkoutPlan]; [saved] tells whether [saveWorkoutPlan] returned it. *)
Definition generateWorkoutPlan (r : Generate.Response) (saved : bool)
  : option WorkoutPlan :=
  let '(data, functionError) := invoke r in
  match buildPlan data functionError with
  | Some plan => if saved then Some plan else None
  | None => None
  end.

End Frontend.

(** ** The account cleanup endpoint (cleanup-expired-accounts) *)

Module Cleanup.

Record AuthUser := mkUser {
  id : string;
  email : string;
  created_at : Z
}.

(** A row of [subscriptions]; [expires_at] may be [NULL]. *)
Record Subscription := mkSub {
  sub_id : Z;
  user_id : string;
  status : string;
  expires_at : option Z
}.

(** The store: the auth users, the subscriptions, and the rows of the
    other tables the handler clears, each kept as (table, owner). *)
Record Db := mkDb {
  auth_users : list AuthUser;
  subscriptions : list Subscription;
  owned : list (string * string)
}.

(** What the handler does not control: the relation the direct query
    reads ([None] when that query fails), and the failures of the calls. An
    error is kept by its [code]. A deletion of related rows can fail in two
    ways: the call throws ([deleteThrowsAt], by the position of the call),
    or it answers with an error ([deleteErrorAt], by the user and the
    position of the call, from 0), which the handler does not read. *)
Record World := mkWorld {
  directTable : option (list AuthUser);
  listUsersError : nat -> bool;
  activeQueryError : string -> option string;
  anyQueryError : string -> option string;
  deleteThrowsAt : string -> option nat;
  deleteAuthError : string -> bool;
  deleteErrorAt : string -> nat -> bool
}.

Inductive Response :=
| Preflight
| Cleaned (deletedCount checkedUsers totalUsers : Z)
| Failed.

Definition httpStatus (r : Response) : Z :=
  match r with
  | Preflight | Cleaned _ _ _ => 200
  | Failed => 500
  end.

(** [new Date(now.getTime() - 48 * 60 * 60 * 1000)] *)
Definition limitDate (now : Z) : Z := now - 48 * 60 * 60 * 1000.

(** [.lt('created_at', limitDate.toISOString())] *)
Definition directQuery (table : list AuthUser) (now : Z) : list AuthUser :=
  List.filter (fun u => created_at u <? limitDate now) table.

Definition perPage : nat := 1000.

(** [auth.admin.listUsers({ page, perPage })] *)
Definition listUsers (users : list AuthUser) (page : nat) : list AuthUser :=
  firstn perPage (skipn ((page - 1) * perPage) users).

Inductive Fetched :=
| OutOfFuel
| Thrown
| AllUsers (allUsers : list AuthUser).

(** The [while (true)] loop of the fallback path. *)
Fixpoint fetchPages (w : World) (users : list AuthUser) (fuel page : nat)
         (allUsers : list AuthUser) : Fetched :=
  match fuel with
  | O => OutOfFuel
  | S fuel =>
      if listUsersError w page then Thrown
      else
        let authUsers := listUsers users page in
        if (List.length authUsers =? 0)%nat then AllUsers allUsers
        else
          let allUsers := (allUsers ++ authUsers)%list in
          if (List.length authUsers <? perPage)%nat then AllUsers allUsers
          else fetchPages w users fuel (S page) allUsers
  end.

(** [allUsers.filter(user => new Date(user.created_at) < limitDate)] *)
Definition filteredUsers (allUsers : list AuthUser) (now : Z) : list AuthUser :=
  List.filter (fun user => created_at user <? limitDate now) allUsers.

(** [.maybeSingle()] of the PostgREST client: no row gives no data and no
    error, one row gives the row, several rows give no data and the error
    [PGRST116]; a failed call gives no data and its own error. *)
Definition maybeSingle {A} (failure : option string) (rows : list A)
  : option A * option string :=
  match failure with
  | Some code => (None, Some code)
  | None =>
      match rows with
      | [] => (None, None)
      | [r] => (Some r, None)
      | _ :: _ :: _ => (None, Some "PGRST116")
      end
  end.

(** [.eq('user_id', user.id).eq('status', 'active').gte('expires_at', now.toISOString())] *)
Definition activeRows (db : Db) (uid : string) (now : Z) : list Subscription :=
  List.filter (fun s =>
            String.eqb (user_id s) uid && String.eqb (status s) "active"
            && match expires_at s with Some e => now <=? e | None => false end)
         (subscriptions db).

(** [.eq('user_id', user.id).in('status', ['active', 'expired', 'cancelled'])] *)
Definition paidRows (db : Db) (uid : string) : list Subscription :=
  List.filter (fun s =>
            String.eqb (user_id s) uid
            && existsb (String.eqb (status s)) ["active"; "expired"; "cancelled"])
         (subscriptions db).

(** [activeSubError && activeSubError.code !== 'PGRST116'] *)
Definition blocking (error : option string) : bool :=
  match error with
  | Some code => negb (String.eqb code "PGRST116")
  | None => false
  end.

(** The two checks at the head of the loop body: [true] when control
    reaches the deletion block, [false] on each [continue]. *)
Definition reachesDeletion (w : World) (db : Db) (now : Z) (user : AuthUser) : bool :=
  let '(activeSubscription, activeSubError) :=
    maybeSingle (activeQueryError w (id user)) (activeRows db (id user) now) in
  if blocking activeSubError then false
  else
    match activeSubscription with
    | Some _ => false
    | None =>
        let '(anySubscription, anySubError) :=
          maybeSingle (anyQueryError w (id user)) (paidRows db (id user)) in
        if blocking anySubError then false
        else
          match anySubscription with
          | Some _ => false
          | None => true
          end
    end.

Definition deleteOwned (table uid : string) (db : Db) : Db :=
  mkDb (auth_users db) (subscriptions db)
       (List.filter (fun r => negb (String.eqb (fst r) table && String.eqb (snd r) uid))
               (owned db)).

Definition deleteSubscriptions (uid : string) (db : Db) : Db :=
  mkDb (auth_users db)
       (List.filter (fun s => negb (String.eqb (user_id s) uid)) (subscriptions db))
       (owned db).

(** [auth.admin.deleteUser(user.id)] when it succeeds. *)
Definition deleteUser (uid : string) (db : Db) : Db :=
  mkDb (List.filter (fun u => negb (String.eqb (id u) uid)) (auth_users db))
       (subscriptions db) (owned db).

(** The deletion at position [k]: it removes the rows, or removes nothing
    when it answers with an error. *)
Definition attempt (w : World) (uid : string) (k : nat) (op : Db -> Db) : Db -> Db :=
  if deleteErrorAt w uid k then (fun db => db) else op.

(** The eight deletions of related rows, in the order of the source. *)
Definition relatedDeletes (w : World) (uid : string) : list (Db -> Db) :=
  [ attempt w uid 0 (deleteOwned "ai_conversations" uid);
    attempt w uid 1 (deleteOwned "user_progress" uid);
    attempt w uid 2 (deleteOwned "user_workout_plans" uid);
    attempt w uid 3 (deleteOwned "workout_plans" uid);
    attempt w uid 4 (deleteOwned "user_profiles" uid);
    attempt w uid 5 (deleteOwned "plan_progress" uid);
    attempt w uid 6 (deleteSubscriptions uid);
    attempt w uid 7 (deleteOwned "profiles" uid) ].

Definition run (ops : list (Db -> Db)) (db : Db) : Db :=
  fold_left (fun d op => op d) ops db.

(** The deletion block: the store afterwards and whether [deletedCount]
    grows. A call that throws at position [k] leaves the first [k] done. *)
Definition deletionBlock (w : World) (db : Db) (user : AuthUser) : Db * bool :=
  let uid := id user in
  match deleteThrowsAt w uid with
  | Some k =>
      if (k <? 9)%nat
      then (run (firstn k (relatedDeletes w uid)) db, false)
      else if deleteAuthError w uid then (run (relatedDeletes w uid) db, false)
      else (deleteUser uid (run (relatedDeletes w uid) db), true)
  | None =>
      if deleteAuthError w uid then (run (relatedDeletes w uid) db, false)
      else (deleteUser uid (run (relatedDeletes w uid) db), true)
  end.

(** The state of the [for] loop: the store, [deletedCount], and the users
    that reached the deletion block so far. *)
Record Loop := mkLoop {
  db_of : Db;
  deletedCount_of : Z;
  reached : list AuthUser
}.

Definition loopBody (w : World) (now : Z) (st : Loop) (user : AuthUser) : Loop :=
  if reachesDeletion w (db_of st) now user then
    let '(db', counted) := deletionBlock w (db_of st) user in
    mkLoop db' (if counted then deletedCount_of st + 1 else deletedCount_of st)
           (reached st ++ [user])%list
  else st.

Definition checkUsers (w : World) (now : Z) (db : Db) (usersToCheck : list AuthUser)
  : Loop :=
  fold_left (loopBody w now) usersToCheck (mkLoop db 0 []).

(** [usersToCheck] and [totalUsersCount], or [None] when [authError] is
    thrown. The page loop gets one unit of fuel per user, plus one. *)
Definition usersToCheck (w : World) (db : Db) (now : Z)
  : option (list AuthUser * Z) :=
  match directTable w with
  | Some table =>
      let expiredUsers := directQuery table now in
      Some (expiredUsers, Z.of_nat (List.length expiredUsers))
  | None =>
      match fetchPages w (auth_users db) (S (List.length (auth_users db))) 1 [] with
      | AllUsers allUsers =>
          Some (filteredUsers allUsers now, Z.of_nat (List.length allUsers))
      | Thrown | OutOfFuel => None
      end
  end.

(** The handler: its answer and the final state of the loop. *)
Definition handler (w : World) (method : string) (now : Z) (db : Db)
  : Response * Loop :=
  if String.eqb method "OPTIONS" then (Preflight, mkLoop db 0 [])
  else
    match usersToCheck w db now with
    | None => (Failed, mkLoop db 0 [])
    | Some (users, totalUsersCount) =>
        let st := checkUsers w now db users in
        (Cleaned (deletedCount_of st) (Z.of_nat (List.length users)) totalUsersCount, st)
    end.

(** The store holds a paying row for the user: an active subscription
    that has not expired, or any row whose status is active, expired or
    cancelled. *)
Definition paid (db : Db) (uid : string) (now : Z) : bool :=
  negb (match activeRows db uid now with [] => true | _ => false end)
  || negb (match paidRows db uid with [] => true | _ => false end).

End Cleanup.

(** ** Concrete data used by the examples *)

Module Scenarios.

(** Noon of a day given by its number since 1970-01-01. *)
Definition noon (day : Z) : Z := day * Streak.msPerDay + 12 * 60 * 60 * 1000.

(** Two completed items of one user: Thursday 8 and Friday 9 January 2026
    (days 20461 and 20462), both at noon UTC. *)
Definition thursdayFriday : list Streak.PlanProgressItem :=
  [ Streak.mkItem "u" "Plano" "Treino A_0" true (noon 20461);
    Streak.mkItem "u" "Plano" "Treino B_4" true (noon 20462) ].

(** The same with Monday 5 and Tuesday 6 January 2026. *)
Definition mondayTuesday : list Streak.PlanProgressItem :=
  [ Streak.mkItem "u" "Plano" "Treino A_0" true (noon 20458);
    Streak.mkItem "u" "Plano" "Treino B_4" true (noon 20459) ].

(** A form filled in by a user who trains four days a week. *)
Definition profile : Plan.UserProfile :=
  Plan.mkProfile (Some 30) (Some "masculino") (Some 80) (Some 180) (Some "ativo")
                 (Some ["forca"]) (Some 4) (Some 45) (Some "parque") (Some "nenhuma").

(** An answer of the language model that declares eight weeks. *)
Definition eightWeeks : Js.JValue :=
  Js.JObject [ ("title", Js.JString "Plano de 8 semanas");
               ("difficulty_level", Js.JString "intermediario");
               ("duration_weeks", Js.JNumber 8);
               ("exercises", Js.JArray []) ].

(** The envelope of the service around a content text. *)
Definition completion (content : string) : Js.JValue :=
  Js.JObject
    [ ("choices",
       Js.JArray [ Js.JObject [ ("message",
                                 Js.JObject [ ("content", Js.JString content) ]) ] ]) ].

(** A parser that reads every content as [eightWeeks]. *)
Definition readsEightWeeks (content : string) : option Js.JValue := Some eightWeeks.

Definition msDay : Z := 24 * 60 * 60 * 1000.

(** A run in which no call fails and the direct query is refused, as it
    is for a relation the API does not expose. *)
Definition quiet : Cleanup.World :=
  Cleanup.mkWorld None (fun _ => false) (fun _ => None) (fun _ => None)
                  (fun _ => None) (fun _ => false) (fun _ _ => false).

(** The same with the direct query served from the given relation. *)
Definition direct (table : list Cleanup.AuthUser) : Cleanup.World :=
  Cleanup.mkWorld (Some table) (fun _ => false) (fun _ => None) (fun _ => None)
                  (fun _ => None) (fun _ => false) (fun _ _ => false).

Definition ana : Cleanup.AuthUser := Cleanup.mkUser "u1" "ana@example.com" 0.
Definition bia : Cleanup.AuthUser := Cleanup.mkUser "u2" "bia@example.com" 0.
Definition caio : Cleanup.AuthUser := Cleanup.mkUser "u3" "caio@example.com" 0.
Definition davi : Cleanup.AuthUser := Cleanup.mkUser "u4" "davi@example.com" (9 * msDay).

(** Ten days after the first three accounts were created: Ana has a
    running subscription, Bia paid for two periods that are both over,
    Caio never got past a pending payment, Davi signed up a day ago. *)
Definition store : Cleanup.Db :=
  Cleanup.mkDb
    [ ana; bia; caio; davi ]
    [ Cleanup.mkSub 1 "u1" "active" (Some (40 * msDay));
      Cleanup.mkSub 2 "u2" "expired" (Some (3 * msDay));
      Cleanup.mkSub 3 "u2" "expired" (Some (6 * msDay));
      Cleanup.mkSub 4 "u3" "pending" None ]
    [ ("profiles", "u1"); ("profiles", "u2"); ("plan_progress", "u2");
      ("profiles", "u3"); ("profiles", "u4") ].

End Scenarios.


(** ** The streak card: badge and message (WorkoutStreak) *)

Module StreakCard.
Import Streak.

(** The object [getStreakLevel] returns; the icon is kept by the name of
    its component. *)
Record StreakLevel := mkStreakLevel {
  level : string;
  color : string;
  icon : string
}.

Definition getStreakLevel (streak : Z) : StreakLevel :=
  if 30 <=? streak then mkStreakLevel "Lenda" "from-purple-500 to-pink-500" "Award"
  else if 21 <=? streak then mkStreakLevel "Mestre" "from-yellow-500 to-orange-500" "Trophy"
  else if 14 <=? streak then mkStreakLevel "Veterano" "from-blue-500 to-indigo-500" "Target"
  else if 7 <=? streak then mkStreakLevel "Campeão" "from-green-500 to-blue-500" "Zap"
  else if 3 <=? streak then mkStreakLevel "Iniciante" "from-orange-500 to-red-500" "Flame"
  else mkStreakLevel "Começando" "from-gray-400 to-gray-500" "Calendar".

Definition getMotivationalMessage (streak : Z) : string :=
  if streak =? 0 then "Comece hoje sua jornada! 💪"
  else if 30 <=? streak then "Você é uma inspiração! Continue assim! 🔥"
  else if 21 <=? streak then "Hábito formado! Você é imparável! ⚡"
  else if 14 <=? streak then "Duas semanas consecutivas! Incrível! 🚀"
  else if 7 <=? streak then "Uma semana inteira! Que disciplina! 🏆"
  else if 3 <=? streak then "Momentum crescendo! Continue! 💥"
  else "Bom começo! Mantenha o ritmo! 🎯".

(** The rank of a badge, lowest first. *)
Definition rank (l : StreakLevel) : Z :=
  if String.eqb (level l) "Lenda" then 5
  else if String.eqb (level l) "Mestre" then 4
  else if String.eqb (level l) "Veterano" then 3
  else if String.eqb (level l) "Campeão" then 2
  else if String.eqb (level l) "Iniciante" then 1
  else 0.

(** *** Reading the two loops

    [oneDayApart dates i] is the test both loops make on the entries [i] and
    [i - 1]; [runTo dates i] is the length of the run of such pairs that
    ends at entry [i]. *)
Definition oneDayApart (tz : Z) (dates : list string) (i : nat) : bool :=
  is_one (diffDays tz (nth i dates "") (nth (i - 1) dates "")).

Fixpoint runTo (tz : Z) (dates : list string) (i : nat) : Z :=
  match i with
  | O => 1
  | S j => if oneDayApart tz dates (S j) then runTo tz dates j + 1 else 1
  end.

(** The order of [sort()] without a comparison function. *)
Definition textOrder (a b : string) : Prop := String.leb a b = true.

(** The days from 1970-01-01 up to, not including, 2100-01-01. *)
Definition lastDay : Z := 47482.

(** Printing the date of day [d] and reading the text back gives the
    midnight of day [d]. *)
Definition readsBack (d : Z) : bool :=
  match getTime 0 (toDateString 0 (d * msPerDay)) with
  | Some t => t =? d * msPerDay
  | None => false
  end.

(** The same check on the [n] days from day [d] on. *)
Fixpoint readsBackFrom (d : Z) (n : nat) : bool :=
  match n with
  | O => true
  | S n => readsBack d && readsBackFrom (d + 1) n
  end.

End StreakCard.


(** ** The fields the frontend takes from an answer *)

Module FrontendView.
Import Js.

(** [v] is [answer.k || d]: the value the answer has under [k] when that
    is truthy, [d] otherwise. *)
Definition takenFrom (fields : list (string * JValue)) (k : string) (d v : JValue)
  : Prop :=
  (forall x, lookup k fields = Some x -> truthy x = true -> v = x) /\
  (truthy_opt (lookup k fields) = false -> v = d).

End FrontendView.

(** ** What a user owns in the store (cleanup-expired-accounts) *)

Module CleanupView.
Import Cleanup.

(** The tables the deletion block clears by owner, next to [subscriptions]. *)
Definition clearedTables : list string :=
  [ "ai_conversations"; "user_progress"; "user_workout_plans"; "workout_plans";
    "user_profiles"; "plan_progress"; "profiles" ].

Definition accountsOf (uid : string) (db : Db) : list AuthUser :=
  List.filter (fun u => String.eqb (id u) uid) (auth_users db).

Definition subscriptionsOf (uid : string) (db : Db) : list Subscription :=
  List.filter (fun s => String.eqb (user_id s) uid) (subscriptions db).

Definition ownedBy (uid : string) (db : Db) : list (string * string) :=
  List.filter (fun r => String.eqb (snd r) uid) (owned db).

(** The rows of [ownedBy] that sit in one of the cleared tables. *)
Definition clearedRowsOf (uid : string) (db : Db) : list (string * string) :=
  List.filter (fun r => existsb (String.eqb (fst r)) clearedTables) (ownedBy uid db).

(** The tables of the eight deletions, in the order of the source. *)
Definition relatedTables : list string :=
  [ "ai_conversations"; "user_progress"; "user_workout_plans"; "workout_plans";
    "user_profiles"; "plan_progress"; "subscriptions"; "profiles" ].

(** The rows of a user in one of the tables kept by owner. *)
Definition rowsIn (table uid : string) (db : Db) : list (string * string) :=
  List.filter (fun r => String.eqb (fst r) table && String.eqb (snd r) uid) (owned db).

(** No deletion of related rows answers with an error for the user. *)
Definition deletesRows (w : World) (uid : string) : Prop :=
  forall k, deleteErrorAt w uid k = false.

(** A run as [Scenarios.quiet] in which the deletion in [plan_progress]
    answers with an error for the user u2. *)
Definition refused : World :=
  mkWorld None (fun _ => false) (fun _ => None) (fun _ => None)
          (fun _ => None) (fun _ => false)
          (fun uid k => String.eqb uid "u2" && Nat.eqb k 5).

(** Every row of [db'] is a row of [db]. *)
Definition within (db' db : Db) : Prop :=
  (forall u, In u (auth_users db') -> In u (auth_users db)) /\
  (forall s, In s (subscriptions db') -> In s (subscriptions db)) /\
  (forall r, In r (owned db') -> In r (owned db)).

(** The three views of a user are the same in [db'] and in [db]. *)
Definition sameViews (uid : string) (db' db : Db) : Prop :=
  accountsOf uid db' = accountsOf uid db /\
  subscriptionsOf uid db' = subscriptionsOf uid db /\
  ownedBy uid db' = ownedBy uid db.

(** Nothing of the user is left: no account, no subscription, no row in a
    cleared table. *)
Definition gone (uid : string) (db : Db) : Prop :=
  accountsOf uid db = [] /\ subscriptionsOf uid db = [] /\ clearedRowsOf uid db = [].

End CleanupView.

(** ** Texts and numbers of the form (WorkoutPlanGenerator) *)

Module JsText.
Import Js.

(** The text without its leading white space. *)
Fixpoint trimStart (s : string) : string :=
  match s with
  | EmptyString => EmptyString
  | String c1 r1 =>
      if is_space c1 then trimStart r1
      else
        match r1 with
        | EmptyString => s
        | String c2 r2 =>
            if is_space2 c1 c2 then trimStart r2
            else
              match r2 with
              | EmptyString => s
              | String c3 r3 => if is_space3 c1 c2 c3 then trimStart r3 else s
              end
        end
  end.

(** The text cut where only white space follows. *)
Fixpoint trimEnd (s : string) : string :=
  match s with
  | EmptyString => EmptyString
  | String c r => if blank s then EmptyString else String c (trimEnd r)
  end.

(** [s.trim()] *)
Definition trim (s : string) : string := trimEnd (trimStart s).

Definition decimalDigit (c : ascii) : option Z :=
  let n := Z.of_N (N_of_ascii c) in
  if (48 <=? n) && (n <=? 57) then Some (n - 48) else None.

Definition hexDigit (c : ascii) : option Z :=
  let n := Z.of_N (N_of_ascii c) in
  if (48 <=? n) && (n <=? 57) then Some (n - 48)
  else if (97 <=? n) && (n <=? 102) then Some (n - 87)
  else if (65 <=? n) && (n <=? 70) then Some (n - 55)
  else None.

(** The value of the longest prefix of digits, [acc] being the value of
    the [seen] digits before it; [None] when there is no digit at all. *)
Fixpoint digitsValue (digit : ascii -> option Z) (radix : Z) (seen : bool) (acc : Z)
         (s : string) : option Z :=
  match s with
  | EmptyString => if seen then Some acc else None
  | String c r =>
      match digit c with
      | Some d => digitsValue digit radix true (radix * acc + d) r
      | None => if seen then Some acc else None
      end
  end.

(** The digits after the sign: in base 16 after a prefix [0x] or [0X]. *)
Definition unsignedValue (s : string) : option Z :=
  match s with
  | String "0" (String "x" r) | String "0" (String "X" r) => digitsValue hexDigit 16 false 0 r
  | _ => digitsValue decimalDigit 10 false 0 s
  end.

(** The integer [parseInt(s)] reads without a radix, before it is made a
    Number: the sign and the longest run of digits after the leading white
    space; [None] when there is no digit. *)
Definition mathInt (s : string) : option Z :=
  match trimStart s with
  | String "-" r => option_map Z.opp (unsignedValue r)
  | String "+" r => unsignedValue r
  | t => unsignedValue t
  end.

(** The Numbers [parseInt] can return: [NaN], a double that holds the
    integer [z] (0 also stands for -0), or an infinity. *)
Inductive Number := NaN | Num (z : Z) | Infinity (negative : bool).

(** The Number for the integer [x]: the nearest double, the one with the
    even significand of 53 bits when two are as near, and an infinity when
    that is 2^1024 or more. *)
Definition toNumber (x : Z) : Number :=
  let m := Z.abs x in
  let shift := Z.log2 m - 52 in
  if shift <=? 0 then Num x
  else
    let ulp := 2 ^ shift in
    let q := m / ulp in
    let r := m mod ulp in
    let q' := if (ulp <? 2 * r) || ((2 * r =? ulp) && Z.odd q) then q + 1 else q in
    if 2 ^ 1024 <=? q' * ulp then Infinity (x <? 0) else Num (Z.sgn x * (q' * ulp)).

(** [parseInt(s)] without a radix. *)
Definition parseInt (s : string) : Number :=
  match mathInt s with
  | Some x => toNumber x
  | None => NaN
  end.

(** [parseInt(s) || d]: [NaN] and 0 are falsy, an infinity is not. *)
Definition parseIntOr (s : string) (d : Z) : Number :=
  match parseInt s with
  | NaN => Num d
  | Num z => if z =? 0 then Num d else Num z
  | Infinity negative => Infinity negative
  end.

End JsText.

(** ** The form and the request it sends (WorkoutPlanGenerator) *)

Module Form.
Import Js JsText.

(** [formData]; the texts are empty until the user fills them. *)
Record FormData := mkForm {
  age : string;
  gender : string;
  weight : string;
  height : string;
  fitnessLevel : string;
  goals : list string;
  availableTime : string;
  availableDays : string;
  equipment : string;
  limitations : string
}.

(** The state the handlers of the form work on. *)
Record State := mkState {
  formData : FormData;
  otherGoalsText : string;
  otherLimitationsText : string
}.

(** The initial [formData]. *)
Definition emptyForm : FormData := mkForm "" "" "" "" "" [] "" "" "" "".

(** [{ ...prev, [field]: value }] for the text fields; another name adds
    a property that nothing reads. *)
Definition setField (field value : string) (f : FormData) : FormData :=
  if String.eqb field "age" then
    mkForm value (gender f) (weight f) (height f) (fitnessLevel f) (goals f)
           (availableTime f) (availableDays f) (equipment f) (limitations f)
  else if String.eqb field "gender" then
    mkForm (age f) value (weight f) (height f) (fitnessLevel f) (goals f)
           (availableTime f) (availableDays f) (equipment f) (limitations f)
  else if String.eqb field "weight" then
    mkForm (age f) (gender f) value (height f) (fitnessLevel f) (goals f)
           (availableTime f) (availableDays f) (equipment f) (limitations f)
  else if String.eqb field "height" then
    mkForm (age f) (gender f) (weight f) value (fitnessLevel f) (goals f)
           (availableTime f) (availableDays f) (equipment f) (limitations f)
  else if String.eqb field "fitnessLevel" then
    mkForm (age f) (gender f) (weight f) (height f) value (goals f)
           (availableTime f) (availableDays f) (equipment f) (limitations f)
  else if String.eqb field "availableTime" then
    mkForm (age f) (gender f) (weight f) (height f) (fitnessLevel f) (goals f)
           value (availableDays f) (equipment f) (limitations f)
  else if String.eqb field "availableDays" then
    mkForm (age f) (gender f) (weight f) (height f) (fitnessLevel f) (goals f)
           (availableTime f) value (equipment f) (limitations f)
  else if String.eqb field "equipment" then
    mkForm (age f) (gender f) (weight f) (height f) (fitnessLevel f) (goals f)
           (availableTime f) (availableDays f) value (limitations f)
  else if String.eqb field "limitations" then
    mkForm (age f) (gender f) (weight f) (height f) (fitnessLevel f) (goals f)
           (availableTime f) (availableDays f) (equipment f) value
  else f.

Definition setGoals (gs : list string) (f : FormData) : FormData :=
  mkForm (age f) (gender f) (weight f) (height f) (fitnessLevel f) gs
         (availableTime f) (availableDays f) (equipment f) (limitations f).

Definition handleInputChange (field value : string) (st : State) : State :=
  mkState (setField field value (formData st)) (otherGoalsText st) (otherLimitationsText st).

(** [currentGoals.filter(g => g !== goal)] *)
Definition without (goal : string) (gs : list string) : list string :=
  List.filter (fun g => negb (String.eqb g goal)) gs.

Definition handleGoalChange (goal : string) (checked : bool) (st : State) : State :=
  let currentGoals := goals (formData st) in
  if checked then
    mkState (setGoals (currentGoals ++ [goal])%list (formData st))
            (otherGoalsText st) (otherLimitationsText st)
  else
    mkState (setGoals (without goal currentGoals) (formData st))
            (if String.eqb goal "outros" then "" else otherGoalsText st)
            (otherLimitationsText st).

Definition handleSelectChange (field value : string) (st : State) : State :=
  mkState (setField field value (formData st))
          (otherGoalsText st)
          (if String.eqb field "limitations" && negb (String.eqb value "outros")
           then "" else otherLimitationsText st).

(** [goals.includes(g)] *)
Definition includes (g : string) (gs : list string) : bool :=
  existsb (String.eqb g) gs.

Definition requiredFields : list string :=
  ["age"; "gender"; "weight"; "height"; "fitnessLevel"; "goals"].

(** [!formData[field]] for a required field: an empty text is falsy, the
    array of goals never is. *)
Definition isMissing (f : FormData) (field : string) : bool :=
  if String.eqb field "age" then String.eqb (age f) ""
  else if String.eqb field "gender" then String.eqb (gender f) ""
  else if String.eqb field "weight" then String.eqb (weight f) ""
  else if String.eqb field "height" then String.eqb (height f) ""
  else if String.eqb field "fitnessLevel" then String.eqb (fitnessLevel f) ""
  else false.

Definition missingFields (f : FormData) : list string :=
  List.filter (isMissing f) requiredFields.

Definition isNaN (v : Number) : bool :=
  match v with NaN => true | _ => false end.

(** The Number as the endpoint reads it in the body of the request, which
    is sent as JSON: [JSON.stringify] writes null for [NaN] and for an
    infinity. *)
Definition inBody (v : Number) : option Z :=
  match v with Num z => Some z | _ => None end.

(** [finalGoals] when [generateWorkoutPlan] has built it. *)
Definition finalGoals (st : State) : list string :=
  let gs := goals (formData st) in
  let gs :=
    if includes "outros" gs then
      let kept := without "outros" gs in
      if String.eqb (trim (otherGoalsText st)) "" then kept
      else (kept ++ ["outros: " +:+ trim (otherGoalsText st)])%list
    else gs in
  match gs with
  | [] => ["saude_geral"]
  | _ => gs
  end.

(** The array [formData.goals] after the call: [finalGoals] is that very
    array unless [filter] made a copy of it, so the [push] calls land in it. *)
Definition goalsAfter (st : State) : list string :=
  if includes "outros" (goals (formData st)) then goals (formData st)
  else finalGoals st.

(** [requestData.userProfile], as the endpoint reads it. *)
Definition userProfile (st : State) : Plan.UserProfile :=
  let f := formData st in
  Plan.mkProfile
    (inBody (parseInt (age f)))
    (Some (gender f))
    (inBody (parseInt (weight f)))
    (inBody (parseInt (height f)))
    (Some (fitnessLevel f))
    (Some (finalGoals st))
    (inBody (if String.eqb (availableDays f) "" then Num 3
             else parseIntOr (availableDays f) 3))
    (inBody (if String.eqb (availableTime f) "" then Num 60
             else parseIntOr (availableTime f) 60))
    (Some (text_or (Some (equipment f)) "peso_corporal"))
    (Some (if String.eqb (limitations f) "outros"
           then "outros: " +:+ text_or (Some (otherLimitationsText st)) "não especificado"
           else text_or (Some (limitations f)) "nenhuma")).

(** What [generateWorkoutPlan] does before it calls the endpoint. *)
Inductive Started :=
| NotSignedIn                              (* toast "Erro de autenticação" *)
| MissingFields (fields : list string)     (* toast "Campos obrigatórios" *)
| InvalidNumbers                           (* toast "Valores inválidos" *)
| Sends (userId : string) (profile : Plan.UserProfile).

Definition start (user : option string) (st : State) : Started :=
  match user with
  | None => NotSignedIn
  | Some uid =>
      match missingFields (formData st) with
      | (_ :: _) as missing => MissingFields missing
      | [] =>
          if isNaN (parseInt (age (formData st)))
             || isNaN (parseInt (height (formData st)))
             || isNaN (parseInt (weight (formData st)))
          then InvalidNumbers
          else Sends uid (userProfile st)
      end
  end.

(** The values the checkboxes of the form can add to [goals]. *)
Definition goalChoices : list string :=
  ["perda_peso"; "hipertrofia"; "condicionamento"; "forca"; "saude_geral"; "outros"].

(** The profile with other goals, the rest as it is. *)
Definition withGoals (gs : option (list string)) (p : Plan.UserProfile) : Plan.UserProfile :=
  Plan.mkProfile (Plan.age p) (Plan.gender p) (Plan.weight p) (Plan.height p)
                 (Plan.fitness_level p) gs (Plan.available_days p)
                 (Plan.session_duration p) (Plan.equipment p) (Plan.limitations p).

(** The goals of the form the table [goalsDescription] of the endpoint
    knows. *)
Definition describedChoices : list string := ["hipertrofia"; "condicionamento"; "forca"].

(** The values the select of the days offers. *)
Definition dayChoices : list string := ["1"; "2"; "3"; "4"; "5"; "6"; "7"].

(** The field the endpoint reads for the integer typed in [text]: that
    integer when it is below 2^53 in size, some number when it is below
    2^1023, and null from 2^1024 on. *)
Definition sentAs (text : string) (field : option Z) : Prop :=
  exists v,
    mathInt text = Some v /\
    (Z.abs v < 2 ^ 53 -> field = Some v) /\
    (Z.abs v < 2 ^ 1023 -> exists z, field = Some z) /\
    (2 ^ 1024 <= Z.abs v -> field = None).

(** A text of [n] digits 9. *)
Fixpoint nines (n : nat) : string :=
  match n with
  | O => ""
  | S n' => String "9" (nines n')
  end.

End Form.


(** ** The stored plan and its progress (WorkoutPlanGenerator.tsx) *)

Module PlanStore.
Import Progress.

(** The [WorkoutPlan] interface of the component. *)
Record WorkoutPlan := mkPlan {
  title : string;
  description : string;
  difficulty_level : string;
  duration_weeks : Z;
  exercises : list Plan.Exercise;
  nutrition_tips : list string
}.

(** [`${exercise.name}_${index}`], the key of a row of the plan in
    [progressMap] and in [plan_progress]. *)
Definition itemIdentifier (exercise : Plan.Exercise) (index : nat) : string :=
  Plan.name exercise +:+ "_" +:+ Js.decimal (Z.of_nat index).

(** The keys of [workoutPlan.exercises.map((exercise, index) => ...)]. *)
Definition itemIdentifiers (plan : WorkoutPlan) : list string :=
  imap (fun index exercise => itemIdentifier exercise index) (exercises plan).

(** The rows [.eq('user_id', userId).eq('plan_id', planId)] selects. *)
Definition ofPlan (userId planId : string) (row : string * string * string * bool) : Prop :=
  row.1.1 = (userId, planId).

#[global] Instance ofPlan_dec userId planId row : Decision (ofPlan userId planId row).
Proof. unfold ofPlan. apply _. Defined.

(** [getPlanProgress] when the query gives no error: every selected row
    is set in a new map. *)
Definition getPlanProgress (userId planId : string) (tbl : Table) : gmap string bool :=
  map_fold (fun key is_completed (progressMap : gmap string bool) =>
              <[key.2 := is_completed]> progressMap)
           ∅ (filter (ofPlan userId planId) tbl).

(** [deletePlanProgress] when the query gives no error. *)
Definition deletePlanProgress (userId planId : string) (tbl : Table) : Table :=
  filter (fun row => ~ ofPlan userId planId row) tbl.

(** The effect [loadProgress]; [throws] tells whether [getPlanProgress]
    threw. *)
Definition loadProgress (ui : Ui) (tbl : Table) (throws : bool) : Ui :=
  match guard ui with
  | Some (userId, currentPlanId) =>
      if throws then toast "Erro ao Carregar Progresso" ui
      else setProgressMap (fun _ => getPlanProgress userId currentPlanId tbl) ui
  | None => setProgressMap (fun _ => ∅) ui
  end.

(** The tables [user_workout_plans] (its columns [user_id] and
    [plan_data]) and [plan_progress]. *)
Record Db := mkDb {
  plans : list (string * WorkoutPlan);
  progress : Table
}.

(** [.from('user_workout_plans').delete().eq('user_id', user.id)] *)
Definition deletePlans (userId : string) (rows : list (string * WorkoutPlan))
  : list (string * WorkoutPlan) :=
  List.filter (fun row => negb (String.eqb (fst row) userId)) rows.

Definition plansOf (userId : string) (db : Db) : list WorkoutPlan :=
  map snd (List.filter (fun row => String.eqb (fst row) userId) (plans db)).

(** [workoutPlan?.title] when it is truthy. *)
Definition oldPlanId (ui : Ui) : option string :=
  match planTitle ui with
  | Some t => if String.eqb t "" then None else Some t
  | None => None
  end.

(** What the three requests of [saveWorkoutPlan] answer. *)
Record SaveWorld := mkSaveWorld {
  deleteError : bool;            (* the delete of the old plan *)
  progressThrows : bool;         (* [deletePlanProgress] *)
  insertError : bool             (* the insert of the new plan *)
}.

(** [saveWorkoutPlan]: the value it returns ([None] for [undefined] and
    [null]), the component and the tables afterwards. *)
Definition saveWorkoutPlan (ui : Ui) (plan : WorkoutPlan) (w : SaveWorld) (db : Db)
  : option WorkoutPlan * Ui * Db :=
  match user ui with
  | None => (None, ui, db)
  | Some userId =>
      let plans1 := if deleteError w then plans db else deletePlans userId (plans db) in
      let failed (progress1 : Table) :=
        (None, toast "Erro ao Salvar Plano" ui, mkDb plans1 progress1) in
      let insert (progress1 : Table) :=
        if insertError w then failed progress1
        else (Some plan, ui, mkDb (plans1 ++ [(userId, plan)]) progress1) in
      match oldPlanId ui with
      | Some old =>
          if progressThrows w then failed (progress db)
          else insert (deletePlanProgress userId old (progress db))
      | None => insert (progress db)
      end
  end.

Inductive Tab := FormTab | PlanTab.

(** What the two requests of [deleteWorkoutPlan] answer. *)
Record DeleteWorld := mkDeleteWorld {
  deleteProgressThrows : bool;
  deletePlanError : bool
}.

(** The component as [deleteWorkoutPlan] sees it: [planTitle] is [None]
    once [setWorkoutPlan(null)] has run. *)
Record Screen := mkScreen {
  ui : Ui;
  activeTab : Tab
}.

Definition setWorkoutPlanNull (u : Ui) : Ui :=
  mkUi (user u) None (progressMap u) (toasts u).

Definition deleteWorkoutPlan (s : Screen) (w : DeleteWorld) (db : Db) : Screen * Db :=
  match guard (ui s) with
  | None => (s, db)
  | Some (userId, planId) =>
      if deleteProgressThrows w
      then (mkScreen (toast "Erro ao Excluir Plano" (ui s)) (activeTab s), db)
      else
        let progress1 := deletePlanProgress userId planId (progress db) in
        let plans1 := if deletePlanError w then plans db else deletePlans userId (plans db) in
        let ui1 := if deletePlanError w then toast "Erro Parcial ao Excluir" (ui s) else ui s in
        (mkScreen
           (toast "Plano Excluído"
              (setProgressMap (fun _ => ∅) (setWorkoutPlanNull ui1)))
           FormTab,
         mkDb plans1 progress1)
  end.

End PlanStore.


(** ** The onboarding checklist (OnboardingChecklist.tsx) *)

Module Onboarding.
Import Js.

(** [OnboardingStep]; the [icon] element is kept by the name of its
    component. *)
Record OnboardingStep := mkStep {
  id : string;
  title : string;
  description : string;
  icon : string;
  action : string;
  completed : bool
}.

(** The initial value of the [steps] state. *)
Definition initialSteps : list OnboardingStep :=
  [ mkStep "complete-profile" "Complete seu Perfil"
           "Adicione informações básicas para personalizar sua experiência"
           "User" "Completar Perfil" false;
    mkStep "first-workout" "Gere seu Primeiro Treino"
           "Crie um plano de treino personalizado com nossa IA"
           "Dumbbell" "Criar Treino" false;
    mkStep "nutrition-plan" "Explore a Nutrição"
           "Descubra dicas alimentares personalizadas"
           "Apple" "Ver Nutrição" false;
    mkStep "record-progress" "Registre seu Progresso"
           "Adicione suas medidas iniciais para acompanhar evolução"
           "TrendingUp" "Registrar Dados" false ].

(** The signed-in user: [user.id] and [user.user_metadata]. *)
Record User := mkUser {
  userId : string;
  user_metadata : option JValue
}.

(** The [data] of the four queries, [None] for [null]. *)
Record Found := mkFound {
  profileData : option JValue;
  workoutPlan : option JValue;
  progressData : option JValue;
  nutritionConversations : option JValue
}.

(** The body of the [switch] of [checkCompletedSteps]. *)
Definition stepCompleted (user : User) (found : Found) (step : OnboardingStep) : bool :=
  if String.eqb (id step) "complete-profile" then
    truthy_opt (opt_get (profileData found) "full_name")
    || truthy_opt (opt_get (profileData found) "age")
    || truthy_opt (opt_get (profileData found) "weight")
    || truthy_opt (opt_get (user_metadata user) "full_name")
  else if String.eqb (id step) "first-workout" then truthy_opt (workoutPlan found)
  else if String.eqb (id step) "nutrition-plan" then truthy_opt (nutritionConversations found)
  else if String.eqb (id step) "record-progress" then truthy_opt (progressData found)
  else completed step.

Definition setCompleted (c : bool) (step : OnboardingStep) : OnboardingStep :=
  mkStep (id step) (title step) (description step) (icon step) (action step) c.

(** [checkCompletedSteps]; [found] is [None] when a query throws. *)
Definition checkCompletedSteps (user : option User) (found : option Found)
           (steps : list OnboardingStep) : list OnboardingStep :=
  match user, found with
  | Some u, Some f => map (fun step => setCompleted (stepCompleted u f step) step) steps
  | _, _ => steps
  end.

(** The tab [handleStepAction] switches to, if any. *)
Definition handleStepAction (step : OnboardingStep) : option string :=
  if String.eqb (id step) "complete-profile" then Some "progress"
  else if String.eqb (id step) "first-workout" then Some "workout"
  else if String.eqb (id step) "nutrition-plan" then Some "nutrition"
  else if String.eqb (id step) "record-progress" then Some "progress"
  else None.

Definition completedSteps (steps : list OnboardingStep) : nat :=
  List.length (List.filter completed steps).

Definition totalSteps (steps : list OnboardingStep) : nat := List.length steps.

Definition isCompleted (steps : list OnboardingStep) : bool :=
  Nat.eqb (completedSteps steps) (totalSteps steps).

(** The four facts the checklist shows, in the order of its steps. *)
Definition facts (user : User) (found : Found) : list bool :=
  map (stepCompleted user found) initialSteps.

(** The steps of the component are the initial ones, some of them ticked. *)
Definition ofTheChecklist (steps : list OnboardingStep) : Prop :=
  map (setCompleted false) steps = initialSteps.

End Onboarding.

(** ** Levels and achievements (GamificationSection) *)

Module Gamification.

Record Achievement := mkAchievement {
  id : string;
  title : string;
  description : string;
  icon : string;
  xpReward : Z;
  unlocked : bool;
  category : string
}.

Definition defaultAchievements : list Achievement :=
  [ mkAchievement "first-workout" "Primeiro Passo" "Complete seu primeiro treino"
                  "Dumbbell" 50 false "workout";
    mkAchievement "streak-3" "Consistência" "Mantenha uma sequência de 3 dias"
                  "Flame" 75 false "consistency";
    mkAchievement "workout-10" "Dedicação" "Complete 10 treinos"
                  "Trophy" 100 false "workout";
    mkAchievement "streak-7" "Força de Vontade" "Sequência de 7 dias consecutivos"
                  "Star" 150 false "consistency";
    mkAchievement "workout-25" "Guerreiro" "Complete 25 treinos"
                  "Medal" 200 false "workout";
    mkAchievement "streak-30" "Imparável" "Mantenha 30 dias de atividade"
                  "Crown" 300 false "consistency" ].

Definition includes (x : string) (l : list string) : bool :=
  existsb (String.eqb x) l.

Definition shouldUnlock (achievementId : string) (newWorkouts newStreak : Z) : bool :=
  String.eqb achievementId "first-workout" && (1 <=? newWorkouts)
  || String.eqb achievementId "streak-3" && (3 <=? newStreak)
  || String.eqb achievementId "workout-10" && (10 <=? newWorkouts)
  || String.eqb achievementId "streak-7" && (7 <=? newStreak)
  || String.eqb achievementId "workout-25" && (25 <=? newWorkouts)
  || String.eqb achievementId "streak-30" && (30 <=? newStreak).

(** The three things the loop over [defaultAchievements] builds: the list
    [newUnlockedAchievements], the sum [xpToAdd] and the toasts. *)
Record Unlocking := mkUnlocking {
  newUnlockedAchievements : list string;
  xpToAdd : Z;
  shown : list string
}.

Definition visit (newWorkouts newStreak : Z) (acc : Unlocking) (achievement : Achievement)
  : Unlocking :=
  if negb (includes (id achievement) (newUnlockedAchievements acc))
     && shouldUnlock (id achievement) newWorkouts newStreak
  then mkUnlocking (newUnlockedAchievements acc ++ [id achievement])
                   (xpToAdd acc + xpReward achievement)
                   (shown acc ++ [title achievement +:+ " (+" +:+
                                  Js.decimal (xpReward achievement) +:+ " XP)"])
  else acc.

Definition unlock (unlockedAchievements : list string) (newWorkouts newStreak : Z)
  : Unlocking :=
  fold_left (visit newWorkouts newStreak) defaultAchievements
            (mkUnlocking unlockedAchievements 0 []).

(** The description of the toast of an achievement, *)
Definition message (a : Achievement) : string :=
  title a +:+ " (+" +:+ Js.decimal (xpReward a) +:+ " XP)".

(** the test of the loop against a list of identifiers, *)
Definition wanted (ids : list string) (newWorkouts newStreak : Z) (a : Achievement) : bool :=
  negb (includes (id a) ids) && shouldUnlock (id a) newWorkouts newStreak.

(** The sum of the rewards of some achievements. *)
Definition rewards (l : list Achievement) : Z :=
  fold_right Z.add 0 (map xpReward l).

(** The achievements of the table that are not in a list of identifiers
    and whose condition holds, *)
Definition fresh (unlockedAchievements : list string) (newWorkouts newStreak : Z)
  : list Achievement :=
  List.filter (fun a => negb (includes (id a) unlockedAchievements)
                        && shouldUnlock (id a) newWorkouts newStreak)
              defaultAchievements.

(** and the rewards of those whose identifier is in a list. *)
Definition earned (ids : list string) : Z :=
  rewards (List.filter (fun a => includes (id a) ids) defaultAchievements).

(** A row of [user_gamification]. A number that is [null] counts as 0 and
    a list that is [null] as the empty list, which is how every use reads
    them ([|| 0], [|| 1], [|| streak], [|| []]); [last_activity_date] is the
    number of the UTC day the date text names, [None] when it is [null]. *)
Record Row := mkRow {
  total_xp : Z;
  current_level : Z;
  current_streak : Z;
  total_workouts_completed : Z;
  achievements_unlocked : list string;
  last_activity_date : option Z
}.

(** The state of the component. *)
Record State := mkState {
  userXP : Z;
  currentStreak : Z;
  totalWorkouts : Z;
  currentLevel : Z;
  achievements : list Achievement;
  unlockedAchievements : list string;
  toasts : list string
}.

Definition initialState : State := mkState 0 0 0 1 [] [] [].

(** [new Date().toISOString().split('T')[0]], as a day number. *)
Definition utcDay (clock : Z) : Z := clock / Streak.msPerDay.

(** [updateGamificationData]. [closure] is the value of
    [unlockedAchievements] in the render the function belongs to, [clock]
    the time of its [new Date()], [failed] tells whether the upsert gave
    an error or threw. It gives the state afterwards and the row written. *)
Definition updateGamificationData (user : bool) (closure : list string)
           (newWorkouts newStreak newXP : Z) (clock : Z) (failed : bool) (st : State)
  : State * option Row :=
  if negb user then (st, None)
  else
    let u := unlock closure newWorkouts newStreak in
    let finalXP := newXP + xpToAdd u in
    let newLevel := Levels.level (Levels.getCurrentLevelData finalXP) in
    let told := (toasts st ++ shown u)%list in
    if failed
    then (mkState (userXP st) (currentStreak st) (totalWorkouts st) (currentLevel st)
                  (achievements st) (unlockedAchievements st) told, None)
    else (mkState finalXP (currentStreak st) (totalWorkouts st) newLevel
                  (achievements st) (newUnlockedAchievements u) told,
          Some (mkRow finalXP newLevel newStreak newWorkouts (newUnlockedAchievements u)
                      (Some (utcDay clock)))).

(** [Math.ceil(diffTime / (1000 * 60 * 60 * 24))] *)
Definition diffDays (today lastActivity : Z) : Z :=
  - ((- Z.abs (today - lastActivity)) / Streak.msPerDay).

(** The [streak] of [loadGamificationData]. *)
Definition streakOf (gamificationData : option Row) (completedItems today : Z) : Z :=
  match gamificationData with
  | Some row =>
      match last_activity_date row with
      | Some day =>
          if diffDays today (day * Streak.msPerDay) <=? 1
          then
            let streak := current_streak row in
            if 0 <? completedItems then Z.min (streak + 1) 30 else streak
          else 0
      | None => if 0 <? completedItems then 1 else 0
      end
  | None => if 0 <? completedItems then 1 else 0
  end.

(** [a || b] on numbers *)
Definition orZ (a b : Z) : Z := if a =? 0 then b else a.

Definition withStatus (stored : list string) (a : Achievement) : Achievement :=
  mkAchievement (id a) (title a) (description a) (icon a) (xpReward a)
                (includes (id a) stored) (category a).

(** [loadGamificationData] when the two queries answer: [gamificationData]
    is the row found, [completedItems] the number of completed rows of
    [plan_progress], [today] the time of [new Date()]. *)
Definition loadGamificationData (user : bool) (closure : list string)
           (gamificationData : option Row) (completedItems today clock : Z)
           (failed : bool) (st : State) : State * option Row :=
  if negb user then (st, None)
  else
    let newWorkouts := completedItems / 3 in
    let streak := streakOf gamificationData completedItems today in
    let shows (stored : list string) (r : State * option Row) :=
      (mkState (userXP (fst r)) (currentStreak (fst r)) (totalWorkouts (fst r))
               (currentLevel (fst r)) (map (withStatus stored) defaultAchievements)
               (unlockedAchievements (fst r)) (toasts (fst r)),
       snd r) in
    match gamificationData with
    | Some row =>
        let st1 := mkState (total_xp row) (orZ (current_streak row) streak)
                           (Z.max (total_workouts_completed row) newWorkouts)
                           (orZ (current_level row) 1)
                           (achievements st) (achievements_unlocked row) (toasts st) in
        shows (achievements_unlocked row)
          (if (total_workouts_completed row <? newWorkouts) || (current_streak row <? streak)
           then updateGamificationData user closure
                  (Z.max (total_workouts_completed row) newWorkouts)
                  (Z.max (current_streak row) streak)
                  (total_xp row) clock failed st1
           else (st1, None))
    | None =>
        let st1 := mkState (userXP st) streak newWorkouts (currentLevel st)
                           (achievements st) [] (toasts st) in
        shows []
          (if (0 <? newWorkouts) || (0 <? streak)
           then updateGamificationData user closure newWorkouts streak 0 clock failed st1
           else (st1, None))
    end.

(** [progressData?.length || 0] for the rows of [plan_progress] of the
    user with [is_completed] true. *)
Definition completedOf (userId : string) (row : string * string * string * bool) : Prop :=
  row.1.1.1 = userId /\ row.2 = true.

#[global] Instance completedOf_dec userId row : Decision (completedOf userId row).
Proof. unfold completedOf. apply _. Defined.

Definition completedItems (userId : string) (tbl : Progress.Table) : Z :=
  Z.of_nat (size (filter (completedOf userId) tbl)).

End Gamification.

(* ================================================================== *)
(** * Part II: the properties *)
(* ================================================================== *)

Module LevelsFacts.
Import Levels.

Example level_at_0 : level (getCurrentLevelData 0) = 1.
Proof. reflexivity. Qed.

Example level_at_299 : level (getCurrentLevelData 299) = 2.
Proof. reflexivity. Qed.

Example next_at_1499 : option_map level (getNextLevel 1499) = Some 6.
Proof. reflexivity. Qed.

(** The scan from the top of the table, case by case. *)
Lemma getCurrentLevelData_cases (xp : Z) :
  (xp < 100 /\ getCurrentLevelData xp = nth 0 levels level0) \/
  (100 <= xp < 300 /\ getCurrentLevelData xp = nth 1 levels level0) \/
  (300 <= xp < 600 /\ getCurrentLevelData xp = nth 2 levels level0) \/
  (600 <= xp < 1000 /\ getCurrentLevelData xp = nth 3 levels level0) \/
  (1000 <= xp < 1500 /\ getCurrentLevelData xp = nth 4 levels level0) \/
  (1500 <= xp /\ getCurrentLevelData xp = nth 5 levels level0).
Proof.
  unfold getCurrentLevelData; simpl.
  destruct (Z.leb_spec 1500 xp); [ right; right; right; right; right; split; [lia|reflexivity] |].
  destruct (Z.leb_spec 1000 xp); [ right; right; right; right; left; split; [lia|reflexivity] |].
  destruct (Z.leb_spec 600 xp); [ right; right; right; left; split; [lia|reflexivity] |].
  destruct (Z.leb_spec 300 xp); [ right; right; left; split; [lia|reflexivity] |].
  destruct (Z.leb_spec 100 xp); [ right; left; split; [lia|reflexivity] |].
  left; split; [lia|].
  destruct (Z.leb_spec 0 xp); reflexivity.
Qed.

(** The scan from the bottom of the table, case by case. *)
Lemma getNextLevel_cases (xp : Z) :
  (xp < 0 /\ getNextLevel xp = Some (nth 0 levels level0)) \/
  (0 <= xp < 100 /\ getNextLevel xp = Some (nth 1 levels level0)) \/
  (100 <= xp < 300 /\ getNextLevel xp = Some (nth 2 levels level0)) \/
  (300 <= xp < 600 /\ getNextLevel xp = Some (nth 3 levels level0)) \/
  (600 <= xp < 1000 /\ getNextLevel xp = Some (nth 4 levels level0)) \/
  (1000 <= xp < 1500 /\ getNextLevel xp = Some (nth 5 levels level0)) \/
  (1500 <= xp /\ getNextLevel xp = None).
Proof.
  unfold getNextLevel; simpl.
  destruct (Z.ltb_spec xp 0); [ left; split; [lia|reflexivity] |].
  destruct (Z.ltb_spec xp 100); [ right; left; split; [lia|reflexivity] |].
  destruct (Z.ltb_spec xp 300); [ right; right; left; split; [lia|reflexivity] |].
  destruct (Z.ltb_spec xp 600); [ right; right; right; left; split; [lia|reflexivity] |].
  destruct (Z.ltb_spec xp 1000);
    [ right; right; right; right; left; split; [lia|reflexivity] |].
  destruct (Z.ltb_spec xp 1500);
    [ right; right; right; right; right; left; split; [lia|reflexivity] |].
  right; right; right; right; right; right; split; [lia|reflexivity].
Qed.

(** Every row of the table, spelled out. *)
Lemma in_levels (l : UserLevel) :
  In l levels ->
  l = nth 0 levels level0 \/ l = nth 1 levels level0 \/ l = nth 2 levels level0 \/
  l = nth 3 levels level0 \/ l = nth 4 levels level0 \/ l = nth 5 levels level0.
Proof. simpl; intuition auto. Qed.

Ltac level_rows H :=
  apply in_levels in H;
  destruct H as [H|[H|[H|[H|[H|H]]]]]; subst; simpl in *.

(** C6. For every non-negative XP value, [getCurrentLevelData] returns the
    row of the table whose threshold is the greatest one not exceeding the
    XP (level 1 from 0, level 2 from 100, level 3 from 300, level 4 from
    600, level 5 from 1000, level 6 from 1500), and [getNextLevel] returns
    the row with the smallest threshold strictly above the XP, or nothing
    when the XP is at least 1500. *)
Theorem level_threshold_lookup (xp : Z) :
  0 <= xp ->
  (let cur := getCurrentLevelData xp in
   In cur levels /\ xpRequired cur <= xp /\
   (forall l, In l levels -> xpRequired l <= xp -> xpRequired l <= xpRequired cur) /\
   (xp < 100 -> level cur = 1) /\
   (100 <= xp < 300 -> level cur = 2) /\
   (300 <= xp < 600 -> level cur = 3) /\
   (600 <= xp < 1000 -> level cur = 4) /\
   (1000 <= xp < 1500 -> level cur = 5) /\
   (1500 <= xp -> level cur = 6)) /\
  (1500 <= xp -> getNextLevel xp = None) /\
  (xp < 1500 ->
   exists nxt, getNextLevel xp = Some nxt /\ In nxt levels /\ xp < xpRequired nxt /\
     forall l, In l levels -> xp < xpRequired l -> xpRequired nxt <= xpRequired l).
Proof.
  intros Hxp. split; [| split].
  - cbv zeta.
    destruct (getCurrentLevelData_cases xp) as [[H E]|[[H E]|[[H E]|[[H E]|[[H E]|[H E]]]]]];
      rewrite E; simpl;
      (split; [tauto|]); (split; [lia|]);
      (split; [intros l Hl Hle; level_rows Hl; lia|]);
      repeat split; intros; lia.
  - intros H.
    destruct (getNextLevel_cases xp) as [[? E]|[[? E]|[[? E]|[[? E]|[[? E]|[[? E]|[? E]]]]]]];
      try lia; exact E.
  - intros H.
    destruct (getNextLevel_cases xp) as [[? E]|[[? E]|[[? E]|[[? E]|[[? E]|[[? E]|[? E]]]]]]];
      try lia; rewrite E; eexists; (split; [reflexivity|]); simpl;
      (split; [tauto|]); (split; [lia|]);
      intros l Hl Hlt; level_rows Hl; lia.
Qed.

Lemma level_threshold_lookup_witness :
  0 <= 450 /\ level (getCurrentLevelData 450) = 3 /\
  (1500 <= 450 -> getNextLevel 450 = None).
Proof.
  split; [lia|].
  destruct (level_threshold_lookup 450) as [(_ & _ & _ & _ & _ & H3 & _) [Hn _]];
    [lia|].
  split; [apply H3; lia | exact Hn].
Defined.

(** C10. [getCurrentLevelData] is total and monotone: for every XP value it
    returns a row of the table, whose level number lies between 1 and 6,
    and a larger XP value never yields a smaller level number. *)
Theorem level_total_monotone :
  (forall xp : Z,
      In (getCurrentLevelData xp) levels /\ 1 <= level (getCurrentLevelData xp) <= 6) /\
  (forall x1 x2 : Z,
      x1 <= x2 -> level (getCurrentLevelData x1) <= level (getCurrentLevelData x2)).
Proof.
  split.
  - intros xp.
    destruct (getCurrentLevelData_cases xp) as [[H E]|[[H E]|[[H E]|[[H E]|[[H E]|[H E]]]]]];
      rewrite E; simpl; split; (tauto || lia).
  - intros x1 x2 Hle.
    destruct (getCurrentLevelData_cases x1) as [[H1 E1]|[[H1 E1]|[[H1 E1]|[[H1 E1]|[[H1 E1]|[H1 E1]]]]]];
    destruct (getCurrentLevelData_cases x2) as [[H2 E2]|[[H2 E2]|[[H2 E2]|[[H2 E2]|[[H2 E2]|[H2 E2]]]]]];
      rewrite E1, E2; simpl; lia.
Qed.

Lemma level_total_monotone_witness :
  250 <= 700 /\ level (getCurrentLevelData 250) <= level (getCurrentLevelData 700).
Proof.
  split; [lia|].
  apply (proj2 level_total_monotone 250 700); lia.
Defined.

End LevelsFacts.

Module ProgressFacts.
Import Progress.

Lemma isCompleted_insert (m : gmap string bool) (k : string) (b : bool) :
  isCompleted (<[k := b]> m) k = b.
Proof. unfold isCompleted. by rewrite lookup_insert_eq. Qed.

Lemma isCompleted_insert_ne (m : gmap string bool) (k j : string) (b : bool) :
  k <> j -> isCompleted (<[k := b]> m) j = isCompleted m j.
Proof. intros Hne. unfold isCompleted. by rewrite lookup_insert_ne. Qed.

(** Writing a row's displayed status into the map changes no displayed status. *)
Lemma isCompleted_restore (m : gmap string bool) (k j : string) (b : bool) :
  isCompleted (<[k := isCompleted m k]> (<[k := b]> m)) j = isCompleted m j.
Proof.
  destruct (decide (k = j)) as [->|Hne].
  - apply isCompleted_insert.
  - by rewrite !isCompleted_insert_ne.
Qed.

Example toggle_then_fail :
  let ui := mkUi (Some "u") (Some "Plano") {[ "Treino A_0" := true ]} [] in
  progressMap (fst (onCheckedChange ui ∅ "Treino A_0" UpsertThrows)) !! "Treino A_0"
  = Some true.
Proof. vm_compute. reflexivity. Qed.

(** C8. A click on a row's checkbox, when a user and a plan are present,
    first writes the toggled status of the row into the progress map and
    leaves the other entries alone; if saving then fails, the entry is
    written back to the status the row displayed, so every row displays
    what it displayed before the click, and the table is untouched; the
    row displays that status again whatever the map had become when the
    failure arrived. Without a user or a plan the click changes nothing. *)
Theorem toggle_rolls_back (ui : Ui) (tbl : Table) (itemIdentifier : string) :
  let shown := isCompleted (progressMap ui) itemIdentifier in
  (forall who, guard ui = Some who ->
     exists ui1,
       optimistic ui itemIdentifier shown = Some ui1 /\
       progressMap ui1 !! itemIdentifier = Some (negb shown) /\
       (forall j, j <> itemIdentifier -> progressMap ui1 !! j = progressMap ui !! j) /\
       onCheckedChange ui tbl itemIdentifier UpsertThrows
       = (settle ui1 itemIdentifier shown UpsertThrows, tbl) /\
       progressMap (settle ui1 itemIdentifier shown UpsertThrows) !! itemIdentifier
       = Some shown /\
       (forall j, isCompleted (progressMap (settle ui1 itemIdentifier shown UpsertThrows)) j
                  = isCompleted (progressMap ui) j) /\
       (forall j, j <> itemIdentifier ->
                  progressMap (settle ui1 itemIdentifier shown UpsertThrows) !! j
                  = progressMap ui !! j) /\
       (forall later,
           isCompleted (progressMap (settle later itemIdentifier shown UpsertThrows))
                       itemIdentifier = shown)) /\
  (guard ui = None ->
     forall r, onCheckedChange ui tbl itemIdentifier r = (ui, tbl)).
Proof.
  intros shown. split.
  - intros who Hg.
    exists (setProgressMap (fun prevMap => <[itemIdentifier := negb shown]> prevMap) ui).
    unfold onCheckedChange, handleProgressChange, optimistic, upsert.
    fold shown. rewrite Hg. destruct who as [uid pid]. simpl.
    split; [reflexivity|].
    split; [apply lookup_insert_eq|].
    split; [intros j Hj; by apply lookup_insert_ne|].
    split; [reflexivity|].
    split; [apply lookup_insert_eq|].
    split; [intros j; apply isCompleted_restore|].
    split; [intros j Hj; by rewrite !lookup_insert_ne|].
    intros later. apply isCompleted_insert.
  - intros Hg r.
    unfold onCheckedChange, handleProgressChange, optimistic. by rewrite Hg.
Qed.

Lemma toggle_rolls_back_witness :
  let ui := mkUi (Some "u") (Some "Plano") ∅ [] in
  guard ui = Some ("u", "Plano") /\
  exists ui1,
    optimistic ui "Treino A_0" false = Some ui1 /\
    progressMap ui1 !! "Treino A_0" = Some true /\
    isCompleted (progressMap (settle ui1 "Treino A_0" false UpsertThrows)) "Treino A_0"
    = false.
Proof.
  split; [reflexivity|].
  destruct (proj1 (toggle_rolls_back (mkUi (Some "u") (Some "Plano") ∅ []) ∅ "Treino A_0")
              ("u", "Plano") eq_refl)
    as (ui1 & H1 & H2 & _ & _ & _ & H3 & _ & _).
  exists ui1. split; [exact H1|]. split; [exact H2|]. exact (H3 "Treino A_0").
Defined.

End ProgressFacts.

Module StreakFacts.
Import Streak Scenarios.

Example date_text : toDateString 0 (noon 20461) = "Thu Jan 08 2026".
Proof. vm_compute. reflexivity. Qed.

Example date_read_back : getTime 0 "Thu Jan 08 2026" = Some (20461 * msPerDay).
Proof. vm_compute. reflexivity. Qed.

(** Texts that happen to sort in calendar order give the streak one expects. *)
Example streak_monday_tuesday :
  uniqueDates 0 (completedRows mondayTuesday "u") = ["Mon Jan 05 2026"; "Tue Jan 06 2026"] /\
  currentStreak (fetchStreakData 0 (noon 20459) mondayTuesday "u") = 2 /\
  statedCurrentStreak 0 (noon 20459) (completedRows mondayTuesday "u") = 2.
Proof. vm_compute. repeat split. Qed.

(** C5. With items completed on Thursday 8 and Friday 9 January 2026, and
    today being that Friday, the dates sort as texts with Friday before
    Thursday; the last of them is then Thursday and the pair in front of it
    is not one day apart, so the component computes a streak of 1, where
    the run of consecutive days ending at the most recent date has length
    2. On the Saturday after, it computes 0, the most recent date being
    yesterday. *)
Theorem streak_thursday_friday :
  uniqueDates 0 (completedRows thursdayFriday "u") = ["Fri Jan 09 2026"; "Thu Jan 08 2026"] /\
  currentStreak (fetchStreakData 0 (noon 20462) thursdayFriday "u") = 1 /\
  statedCurrentStreak 0 (noon 20462) (completedRows thursdayFriday "u") = 2 /\
  currentStreak (fetchStreakData 0 (noon 20463) thursdayFriday "u") = 0 /\
  statedCurrentStreak 0 (noon 20463) (completedRows thursdayFriday "u") = 2.
Proof. vm_compute. repeat split. Qed.

End StreakFacts.

Module PlanFacts.
Import Js Plan.

Example fallback_null_title :
  option_map title (createFallbackPlan None)
  = Some "Plano Periodizado Iniciante - Condicionamento geral".
Proof. vm_compute. reflexivity. Qed.

Example fallback_null_size :
  option_map (fun plan => List.length (exercises plan)) (createFallbackPlan None)
  = Some 144%nat.
Proof. vm_compute. reflexivity. Qed.

(** No key of [goalsDescription] is the name of an inherited member, so
    the description is not a text exactly for those names. *)
Lemma goalDescOf_None (goals : string) :
  goalDescOf goals = None <-> inherited goals = true.
Proof.
  unfold goalDescOf, member, inherited. split.
  - destruct (assoc goals goalsDescription); [discriminate|].
    destruct (existsb (String.eqb goals) inheritedMethods); [reflexivity|].
    destruct (String.eqb goals "__proto__"); [reflexivity | discriminate].
  - intros H. apply orb_true_iff in H. destruct H as [H|H].
    + rewrite H. apply existsb_exists in H. destruct H as (k & Hk & E).
      apply String.eqb_eq in E. subst k.
      unfold inheritedMethods in Hk. cbn [In] in Hk.
      repeat (destruct Hk as [<-|Hk]; [reflexivity|]). destruct Hk.
    + apply String.eqb_eq in H. subst goals. reflexivity.
Qed.

(** The null profile gets the basic plan. *)
Lemma createFallbackPlan_null :
  createFallbackPlan None = Some (planOf "iniciante" "condicionamento geral" 3).
Proof. reflexivity. Qed.

(** The two ways the generator throws, and what it returns otherwise. *)
Lemma createFallbackPlan_cases (userProfile : option UserProfile) :
  let level :=
    text_or (match userProfile with Some p => fitness_level p | None => None end)
            "iniciante" in
  let goals := text_or (firstGoal userProfile) "condicionamento geral" in
  (createFallbackPlan userProfile = None /\
   (maxLength < 48 * Z.max 0 (availableDaysOf userProfile) \/ inherited goals = true)) \/
  (exists goalDesc,
      goalDescOf goals = Some goalDesc /\
      48 * Z.max 0 (availableDaysOf userProfile) <= maxLength /\
      createFallbackPlan userProfile
      = Some (planOf (mapFitnessLevelToDifficulty (Some level)) goalDesc
                     (availableDaysOf userProfile))).
Proof.
  cbv zeta. unfold createFallbackPlan.
  destruct (Z.ltb_spec maxLength (48 * Z.max 0 (availableDaysOf userProfile))) as [Hbig|Hfit].
  - left. split; [reflexivity | now left].
  - destruct (goalDescOf (text_or (firstGoal userProfile) "condicionamento geral"))
      as [goalDesc|] eqn:G.
    + right. exists goalDesc. auto.
    + left. split; [reflexivity|]. right. now apply goalDescOf_None.
Qed.



Lemma dayExercises_three (dayLetter : option string) :
  exists e1 e2 e3, dayExercises dayLetter = [e1; e2; e3].
Proof.
  unfold dayExercises.
  assert (HA : default [] (exercisesFor "A" exercisesByDay)
               = ["Agachamento Livre"; "Flexão de Braço"; "Prancha Isométrica"])
    by reflexivity.
  rewrite HA. unfold exercisesByDay; cbn [exercisesFor].
  repeat (match goal with |- context [String.eqb ?a ?b] => destruct (String.eqb a b) end;
          [eauto|]).
  eauto.
Qed.

Lemma workout_shape (difficultyLevel goalDesc : string) (week day : nat) :
  exists e1 e2 e3,
    dayExercises (nth_error dayLetters day) = [e1; e2; e3] /\
    workout difficultyLevel goalDesc week day =
    [ warmup difficultyLevel week (nth_error dayLetters day);
      mainExercise difficultyLevel goalDesc week (nth_error dayLetters day) e1 0;
      mainExercise difficultyLevel goalDesc week (nth_error dayLetters day) e2 1;
      mainExercise difficultyLevel goalDesc week (nth_error dayLetters day) e3 2 ].
Proof.
  destruct (dayExercises_three (nth_error dayLetters day)) as (e1 & e2 & e3 & E).
  exists e1, e2, e3. split; [exact E|].
  unfold workout. rewrite E. reflexivity.
Qed.








(** C7. The fallback generator is a function of its argument, and of
    three values of it only: equal profiles (null included) give equal
    plans, and so do two profiles that agree on fitness_level, on the first
    element of fitness_goals and on available_days, a null profile counting
    as one where the three are missing. *)
Theorem fallback_deterministic :
  (forall p1 p2 : option UserProfile,
      p1 = p2 -> createFallbackPlan p1 = createFallbackPlan p2) /\
  (forall p1 p2 : option UserProfile,
      relevant p1 = relevant p2 -> createFallbackPlan p1 = createFallbackPlan p2).
Proof.
  split.
  - intros p1 p2 ->. reflexivity.
  - intros p1 p2 H. unfold relevant in H. injection H as H1 H2 H3.
    unfold createFallbackPlan, availableDaysOf. cbv zeta.
    rewrite H1, H2, H3. reflexivity.
Qed.

Lemma fallback_deterministic_witness :
  let p1 := mkProfile (Some 30) (Some "masculino") (Some 80) (Some 180) (Some "ativo")
                      (Some ["forca"; "geral"]) (Some 4) (Some 45) (Some "parque") None in
  let p2 := mkProfile (Some 52) None None None (Some "ativo")
                      (Some ["forca"]) (Some 4) None None (Some "joelho") in
  relevant (Some p1) = relevant (Some p2) /\
  createFallbackPlan (Some p1) = createFallbackPlan (Some p2).
Proof.
  intros p1 p2. split; [reflexivity|].
  apply (proj2 fallback_deterministic (Some p1) (Some p2)). reflexivity.
Defined.

Lemma mapFitnessLevelToDifficulty_valid (fitnessLevel : option string) :
  In (mapFitnessLevelToDifficulty fitnessLevel) Generate.validLevels.
Proof.
  unfold mapFitnessLevelToDifficulty, Generate.validLevels.
  destruct fitnessLevel as [s|]; [|simpl; tauto].
  repeat (match goal with |- context [oneOf ?a ?b] => destruct (oneOf a b) end;
          [simpl; tauto|]).
  simpl; tauto.
Qed.

End PlanFacts.

Module GenerateFacts.
Import Js Plan Generate Scenarios.

Lemma lookup_set_eq (k : string) (v : JValue) (fields : list (string * JValue)) :
  lookup k (set k v fields) = Some v.
Proof.
  induction fields as [|[k' v'] r IH]; cbn [set lookup].
  - now rewrite String.eqb_refl.
  - destruct (String.eqb k k') eqn:E; cbn [lookup].
    + now rewrite String.eqb_refl.
    + now rewrite E.
Qed.

Lemma lookup_set_ne (k k' : string) (v : JValue) (fields : list (string * JValue)) :
  k <> k' -> lookup k (set k' v fields) = lookup k fields.
Proof.
  intros Hne. apply String.eqb_neq in Hne.
  induction fields as [|[k0 v0] r IH]; cbn [set lookup].
  - now rewrite Hne.
  - destruct (String.eqb k' k0) eqn:E; cbn [lookup].
    + apply String.eqb_eq in E. subst k0. now rewrite Hne.
    + now rewrite IH.
Qed.

Lemma includesLevel_valid (v : option JValue) :
  includesLevel v = true -> exists lvl, v = Some (JString lvl) /\ In lvl validLevels.
Proof.
  unfold includesLevel. destruct v as [[| | |s| |]|]; try discriminate.
  intros H. exists s. split; [reflexivity|].
  apply existsb_exists in H. destruct H as (x & Hx & E).
  apply String.eqb_eq in E. now subst.
Qed.

Lemma isArray_items (v : option JValue) :
  isArray v = true -> exists items, v = Some (JArray items).
Proof. destruct v as [[| | | |items|]|]; try discriminate. eauto. Qed.

(** What the inner [try] lets through has a valid level and an array of
    exercises. *)
Lemma acceptPlan_shape (p : UserProfile) (parsed plan : JValue) :
  acceptPlan p parsed = Some plan ->
  exists lvl items,
    get plan "difficulty_level" = Some (JString lvl) /\ In lvl validLevels /\
    get plan "exercises" = Some (JArray items).
Proof.
  unfold acceptPlan. destruct parsed as [| | | | |fields]; try discriminate.
  match goal with
  | |- context [if ?c then ?a else fields] => set (fields' := if c then a else fields)
  end.
  assert (Hlvl : exists lvl, lookup "difficulty_level" fields' = Some (JString lvl)
                             /\ In lvl validLevels).
  { subst fields'.
    destruct (negb (truthy_opt (lookup "difficulty_level" fields))
              || negb (includesLevel (lookup "difficulty_level" fields))) eqn:E.
    - rewrite lookup_set_eq. eexists; split; [reflexivity|].
      apply PlanFacts.mapFitnessLevelToDifficulty_valid.
    - apply orb_false_iff in E. destruct E as [_ E].
      apply negb_false_iff in E. now apply includesLevel_valid. }
  destruct (negb (truthy_opt (lookup "title" fields'))
            || negb (truthy_opt (lookup "exercises" fields'))
            || negb (isArray (lookup "exercises" fields'))) eqn:E; [discriminate|].
  intros [= <-].
  apply orb_false_iff in E. destruct E as [_ E]. apply negb_false_iff in E.
  destruct (isArray_items _ E) as (items & Hitems).
  destruct Hlvl as (lvl & Hl & Hin).
  exists lvl, items. cbn [get].
  rewrite !lookup_set_ne by discriminate.
  auto.
Qed.

(** An answer that lacks the shape is thrown out by the inner [try]. *)
Lemma acceptPlan_lacksShape (p : UserProfile) (parsed : JValue) :
  lacksShape parsed = true -> acceptPlan p parsed = None.
Proof.
  unfold lacksShape, acceptPlan. destruct parsed as [| | | | |fields]; try reflexivity.
  cbn [get].
  match goal with
  | |- context [if ?c then ?a else fields] =>
      set (fix_level := c); set (fields' := if fix_level then a else fields)
  end.
  assert (Ht : lookup "title" fields' = lookup "title" fields).
  { subst fields'. destruct fix_level; [|reflexivity].
    now rewrite lookup_set_ne by discriminate. }
  assert (He : lookup "exercises" fields' = lookup "exercises" fields).
  { subst fields'. destruct fix_level; [|reflexivity].
    now rewrite lookup_set_ne by discriminate. }
  rewrite Ht, He. intros H.
  apply orb_true_iff in H. destruct H as [H|H]; rewrite H.
  - reflexivity.
  - now rewrite !orb_true_r.
Qed.

(** A plan the generator returns carries a valid level and a list of
    exercises. *)
Lemma returned_plan_shape (userProfile : option UserProfile) (plan : WorkoutPlan) :
  createFallbackPlan userProfile = Some plan ->
  exists lvl items,
    get (planJson plan) "difficulty_level" = Some (JString lvl) /\
    In lvl validLevels /\
    get (planJson plan) "exercises" = Some (JArray items).
Proof.
  intros H.
  destruct (PlanFacts.createFallbackPlan_cases userProfile)
    as [[E _]|(goalDesc & _ & _ & E)]; rewrite E in H; [discriminate|].
  injection H as <-.
  exists (mapFitnessLevelToDifficulty
            (Some (text_or (match userProfile with
                            | Some p => fitness_level p
                            | None => None
                            end) "iniciante"))).
  eexists. split; [reflexivity|]. split; [|reflexivity].
  apply PlanFacts.mapFitnessLevelToDifficulty_valid.
Qed.

(** The answer with a fallback plan carries the plan of the profile, or
    the plan for no profile when the generator throws for the profile. *)
Lemma fallback_plan (userProfile : option UserProfile) :
  exists plan,
    fallback userProfile = jsonResponse (planJson plan) /\
    (createFallbackPlan userProfile = Some plan \/
     (createFallbackPlan userProfile = None /\ createFallbackPlan None = Some plan)).
Proof.
  unfold fallback, catchAll. rewrite PlanFacts.createFallbackPlan_null.
  destruct (createFallbackPlan userProfile) as [plan|]; eauto.
Qed.


Example answer_without_key :
  Some (body (handler readsEightWeeks (mkRequest "POST" (Some (Some profile))) None
                      FetchRejects))
  = option_map (fun plan => Some (planJson plan)) (createFallbackPlan (Some profile)).
Proof. reflexivity. Qed.

Example answer_from_model :
  option_map (fun plan => get plan "source")
    (body (handler readsEightWeeks (mkRequest "POST" (Some (Some profile))) (Some "gsk_1")
                   (OkData (completion "{...}"))))
  = Some (Some (JString "groq_api")).
Proof. vm_compute. reflexivity. Qed.

Lemma not_preflight (req : Request) :
  method req <> "OPTIONS" -> String.eqb (method req) "OPTIONS" = false.
Proof. apply String.eqb_neq. Qed.

(** Every answer to a request that is not a preflight is a plan. *)
Lemma handler_cases (parseCleaned : string -> option JValue) (req : Request)
      (groqApiKey : option string) (groq : Groq) :
  method req <> "OPTIONS" ->
  (exists userProfile, handler parseCleaned req groqApiKey groq = fallback userProfile) \/
  (exists p parsed workoutPlan,
      acceptPlan p parsed = Some workoutPlan /\
      handler parseCleaned req groqApiKey groq = jsonResponse workoutPlan).
Proof.
  intros Hm. unfold handler.
  assert (Hc : catchAll = fallback None).
  { unfold fallback, catchAll. now rewrite PlanFacts.createFallbackPlan_null. }
  rewrite !Hc. rewrite (not_preflight _ Hm).
  destruct (json req) as [[p|]|]; [| destruct (keyMissing groqApiKey); eauto | eauto].
  destruct (keyMissing groqApiKey); [eauto|].
  destruct groq as [|code [errorText|]| |data]; eauto.
  destruct data; eauto;
    (destruct (contentOf _) as [| | |content| |]; eauto;
     destruct (blank content); eauto;
     destruct (parseCleaned content) as [parsed|]; eauto;
     destruct (acceptPlan p parsed) as [workoutPlan|] eqn:E; eauto;
     right; eauto).
Qed.





(** What the outer [catch] answers is the plan for no profile, whatever
    the request carried: so it is when the text of an answer that is not OK
    cannot be read, *)
Example not_ok_without_text :
  Some (body (handler readsEightWeeks (mkRequest "POST" (Some (Some profile)))
                      (Some "gsk_1") (NotOk 503 None)))
  = option_map (fun plan => Some (planJson plan)) (createFallbackPlan None) /\
  createFallbackPlan None <> createFallbackPlan (Some profile).
Proof. split; [reflexivity | discriminate]. Qed.

(** and when the generator throws for the profile of the request: with the
    key missing and a first goal named constructor, the answer is the plan
    for no profile, with its 144 entries, and not a plan of the four days
    asked for. *)
Example answer_for_inherited_goal :
  let p := mkProfile (Some 30) None None None (Some "ativo") (Some ["constructor"])
                     (Some 4) None None None in
  let r := handler readsEightWeeks (mkRequest "POST" (Some (Some p))) None FetchRejects in
  createFallbackPlan (Some p) = None /\
  status r = 200 /\
  Some (body r) = option_map (fun plan => Some (planJson plan)) (createFallbackPlan None).
Proof. cbv zeta. split; [reflexivity|]. split; reflexivity. Qed.

End GenerateFacts.

Module FrontendFacts.
Import Js Scenarios.

(** The frontend takes [duration_weeks] from the answer when it is a
    number other than zero. *)
Lemma buildPlan_duration (data : JValue) (n : Z) (plan : Frontend.WorkoutPlan) :
  Frontend.buildPlan (Some data) false = Some plan ->
  get data "duration_weeks" = Some (JNumber n) -> n <> 0 ->
  Frontend.duration_weeks plan = JNumber n.
Proof.
  unfold Frontend.buildPlan. destruct data as [| | | | |fields]; try discriminate.
  cbn [get]. destruct (_ && _); [discriminate|].
  intros [= <-] Hn Hnz. cbn [Frontend.duration_weeks]. rewrite Hn.
  unfold or_else, truthy. apply Z.eqb_neq in Hnz. now rewrite Hnz.
Qed.

(** A fallback plan passes the guards of the frontend. *)
Lemma buildPlan_fallback (userProfile : option Plan.UserProfile) (fallbackPlan : Plan.WorkoutPlan) :
  Plan.createFallbackPlan userProfile = Some fallbackPlan ->
  exists plan,
    Frontend.buildPlan (Some (Plan.planJson fallbackPlan)) false = Some plan.
Proof.
  intros H.
  destruct (PlanFacts.createFallbackPlan_cases userProfile)
    as [[E _]|(goalDesc & _ & _ & E)]; rewrite E in H; [discriminate|].
  injection H as <-.
  unfold Frontend.buildPlan, Plan.planJson. cbn [lookup String.eqb Ascii.eqb Bool.eqb].
  unfold Plan.planOf. cbn [Plan.title truthy_opt truthy String.append].
  cbn [String.eqb negb andb]. eauto.
Qed.

(** C4. The plan createFallbackPlan returns has duration_weeks 12, and the
    plan the frontend builds from an answer, saves and shows carries the
    duration_weeks of that answer whenever it is a number other than zero:
    12 when the answer is a fallback plan. *)
Theorem plan_duration_weeks :
  (forall userProfile fallbackPlan,
      Plan.createFallbackPlan userProfile = Some fallbackPlan ->
      Plan.duration_weeks fallbackPlan = 12) /\
  (forall userProfile,
      exists plan,
        Frontend.generateWorkoutPlan (Generate.fallback userProfile) true = Some plan /\
        Frontend.duration_weeks plan = JNumber 12) /\
  (forall r data n plan saved,
      Frontend.generateWorkoutPlan r saved = Some plan ->
      Generate.body r = Some data ->
      get data "duration_weeks" = Some (JNumber n) -> n <> 0 ->
      Frontend.duration_weeks plan = JNumber n).
Proof.
  split; [| split].
  - intros userProfile fallbackPlan H.
    destruct (PlanFacts.createFallbackPlan_cases userProfile)
      as [[E _]|(goalDesc & _ & _ & E)]; rewrite E in H; [discriminate|].
    injection H as <-. reflexivity.
  - intros userProfile.
    destruct (GenerateFacts.fallback_plan userProfile) as (fallbackPlan & -> & H).
    assert (Hs : exists up, Plan.createFallbackPlan up = Some fallbackPlan)
      by (destruct H as [H|[_ H]]; eauto).
    destruct Hs as (up & Hup).
    destruct (buildPlan_fallback up fallbackPlan Hup) as (plan & E).
    exists plan. unfold Frontend.generateWorkoutPlan, Frontend.invoke.
    cbn [Generate.jsonResponse Generate.status Generate.body Z.leb Z.ltb Z.compare
         Pos.compare Pos.compare_cont andb].
    rewrite E. split; [reflexivity|].
    apply (buildPlan_duration _ 12 _ E); [| lia].
    destruct (PlanFacts.createFallbackPlan_cases up)
      as [[E' _]|(goalDesc & _ & _ & E')]; rewrite E' in Hup; [discriminate|].
    injection Hup as <-. reflexivity.
  - intros r data n plan saved. unfold Frontend.generateWorkoutPlan, Frontend.invoke.
    destruct (_ && _); [| discriminate].
    destruct (Frontend.buildPlan (Generate.body r) false) as [plan'|] eqn:E;
      [| discriminate].
    destruct saved; [| discriminate].
    intros [= <-] Hb. rewrite Hb in E. now apply buildPlan_duration.
Qed.

Lemma plan_duration_weeks_witness :
  let r := Generate.jsonResponse
             (JObject [ ("title", JString "Plano"); ("duration_weeks", JNumber 12);
                        ("exercises", JArray []) ]) in
  exists plan,
    Frontend.generateWorkoutPlan r true = Some plan /\
    Frontend.duration_weeks plan = JNumber 12.
Proof.
  intros r. eexists. split; [reflexivity|].
  eapply (proj2 (proj2 plan_duration_weeks) r _ 12 _ true);
    [reflexivity | reflexivity | reflexivity | lia].
Defined.

(** An answer of the language model that declares eight weeks goes
    through the endpoint and the frontend with its eight weeks: the plan
    saved and shown is not a 12-week plan. *)
Lemma llm_plan_of_eight_weeks :
  let r := Generate.handler readsEightWeeks
             (Generate.mkRequest "POST" (Some (Some profile))) (Some "gsk_1")
             (Generate.OkData (completion "{...}")) in
  exists plan,
    Frontend.generateWorkoutPlan r true = Some plan /\
    Frontend.duration_weeks plan = JNumber 8 /\
    Frontend.duration_weeks plan <> JNumber 12.
Proof.
  cbv zeta. eexists. split; [vm_compute; reflexivity|].
  split; [reflexivity | discriminate].
Qed.

End FrontendFacts.

Module CleanupFacts.
Import Cleanup Scenarios.

Lemma perPage_pos : (0 < perPage)%nat.
Proof. unfold perPage. lia. Qed.

(** The page loop, from page [q + 1] on: it throws, or it appends the
    users not yet read. *)
Lemma fetchPages_reads (w : World) (users : list AuthUser) :
  forall (fuel q : nat) (allUsers : list AuthUser),
    (q * perPage <= List.length users)%nat ->
    (List.length users - q * perPage < fuel)%nat ->
    (fetchPages w users fuel (S q) allUsers = Thrown /\
     exists page, listUsersError w page = true) \/
    fetchPages w users fuel (S q) allUsers
    = AllUsers (allUsers ++ skipn (q * perPage) users)%list.
Proof.
  pose proof perPage_pos as Hpos.
  induction fuel as [|fuel IH]; intros q allUsers Hle Hfuel; [lia|].
  cbn [fetchPages].
  destruct (listUsersError w (S q)) eqn:Herr; [left; eauto|].
  unfold listUsers. replace (S q - 1)%nat with q by lia.
  set (k := (q * perPage)%nat) in *.
  set (rest := skipn k users).
  assert (Hrest : List.length rest = (List.length users - k)%nat)
    by (subst rest; apply List.length_skipn).
  pose proof (List.length_firstn perPage rest) as Hlen.
  destruct (Nat.eqb_spec (List.length (firstn perPage rest)) 0) as [H0|H0].
  - right. f_equal.
    assert (rest = []) as -> by (apply List.length_zero_iff_nil; lia).
    now rewrite app_nil_r.
  - destruct (Nat.ltb_spec (List.length (firstn perPage rest)) perPage) as [Hlt|Hge].
    + right. f_equal. f_equal. apply firstn_all2. lia.
    + specialize (IH (S q) (allUsers ++ firstn perPage rest)%list).
      replace (S q * perPage)%nat with (perPage + k)%nat in IH by (subst k; lia).
      destruct IH as [IH|IH]; [lia | lia | left; exact IH |].
      right. rewrite IH. f_equal.
      rewrite <- app_assoc. f_equal.
      rewrite <- (skipn_skipn perPage k users). fold rest.
      apply firstn_skipn.
Qed.

(** The fuel the handler gives the page loop is enough. *)
Lemma fetchPages_total (w : World) (users : list AuthUser) :
  (fetchPages w users (S (List.length users)) 1 [] = Thrown /\
   exists page, listUsersError w page = true) \/
  fetchPages w users (S (List.length users)) 1 [] = AllUsers users.
Proof.
  destruct (fetchPages_reads w users (S (List.length users)) 0 []) as [H|H];
    [simpl; lia | simpl; lia | left; exact H | right; exact H].
Qed.

Lemma usersToCheck_old (w : World) (db : Db) (now : Z) (users : list AuthUser) (n : Z) :
  usersToCheck w db now = Some (users, n) ->
  forall user, In user users -> created_at user < limitDate now.
Proof.
  unfold usersToCheck, directQuery, filteredUsers.
  destruct (directTable w) as [table|].
  - intros [= <- _] user Hin. apply filter_In in Hin. lia.
  - destruct (fetchPages _ _ _ _ _) as [| |allUsers]; try discriminate.
    intros [= <- _] user Hin. apply filter_In in Hin. lia.
Qed.

(** The loop sends to the deletion block only users it was given. *)
Lemma checkUsers_reached (w : World) (now : Z) (users : list AuthUser) :
  forall (st : Loop) (user : AuthUser),
    In user (reached (fold_left (loopBody w now) users st)) ->
    In user (reached st) \/ In user users.
Proof.
  induction users as [|u users IH]; intros st user Hin; cbn [fold_left] in Hin.
  - now left.
  - apply IH in Hin. destruct Hin as [Hin|Hin]; [| right; now right].
    unfold loopBody in Hin.
    destruct (reachesDeletion w (db_of st) now u).
    + destruct (deletionBlock w (db_of st) u) as [db' counted].
      cbn [reached] in Hin. apply in_app_or in Hin.
      destruct Hin as [Hin|[<-|[]]]; [now left | right; now left].
    + now left.
Qed.

(** C2. Every user that reaches the deletion block was created strictly
    before the reference time minus 48 hours, whether the users came from
    the direct query or from the pages of the admin API; and the page loop
    of the second path ends within its fuel, reading every user when no
    page fails. *)
Theorem deleted_accounts_are_old (w : World) (method : string) (now : Z) (db : Db) :
  (forall user,
      In user (reached (snd (handler w method now db))) ->
      created_at user < now - 48 * 60 * 60 * 1000) /\
  fetchPages w (auth_users db) (S (List.length (auth_users db))) 1 [] <> OutOfFuel /\
  ((forall page, listUsersError w page = false) ->
   fetchPages w (auth_users db) (S (List.length (auth_users db))) 1 []
   = AllUsers (auth_users db)).
Proof.
  split; [| split].
  - intros user. unfold handler.
    destruct (String.eqb method "OPTIONS"); [intros []|].
    destruct (usersToCheck w db now) as [[users total]|] eqn:E; [| intros []].
    cbn [snd]. unfold checkUsers. intros Hin.
    apply checkUsers_reached in Hin. destruct Hin as [[]|Hin].
    apply (usersToCheck_old w db now users total E user Hin).
  - destruct (fetchPages_total w (auth_users db)) as [[H _]|H]; rewrite H; discriminate.
  - intros Hok.
    destruct (fetchPages_total w (auth_users db)) as [[_ [page H]]|H]; [| exact H].
    rewrite Hok in H. discriminate.
Qed.

Lemma deleted_accounts_are_old_witness :
  In caio (reached (snd (handler quiet "POST" (10 * msDay) store))) /\
  created_at caio < 10 * msDay - 48 * 60 * 60 * 1000 /\
  In bia (reached (snd (handler (direct [ana; bia; davi]) "POST" (10 * msDay) store))) /\
  created_at bia < 10 * msDay - 48 * 60 * 60 * 1000.
Proof.
  assert (H1 : In caio (reached (snd (handler quiet "POST" (10 * msDay) store))))
    by (vm_compute; tauto).
  assert (H2 : In bia (reached (snd (handler (direct [ana; bia; davi]) "POST"
                                             (10 * msDay) store))))
    by (vm_compute; tauto).
  split; [exact H1|]. split.
  - exact (proj1 (deleted_accounts_are_old quiet "POST" (10 * msDay) store) caio H1).
  - split; [exact H2|].
    exact (proj1 (deleted_accounts_are_old (direct [ana; bia; davi]) "POST"
                    (10 * msDay) store) bia H2).
Defined.

(** When neither query fails, a user reaches the deletion block only if
    neither of them found exactly one row. *)
Lemma reachesDeletion_row_counts (w : World) (db : Db) (now : Z) (user : AuthUser) :
  activeQueryError w (id user) = None -> anyQueryError w (id user) = None ->
  reachesDeletion w db now user = true ->
  List.length (activeRows db (id user) now) <> 1%nat /\
  List.length (paidRows db (id user)) <> 1%nat.
Proof.
  unfold reachesDeletion, maybeSingle. intros -> ->.
  destruct (activeRows db (id user) now) as [|a [|a' ra]];
    destruct (paidRows db (id user)) as [|b [|b' rb]];
    cbn; try discriminate; intros _; split; lia.
Qed.

(** A user with exactly one row of a paying status is kept. *)
Lemma single_paid_row_is_kept (w : World) (db : Db) (now : Z) (user : AuthUser) :
  activeQueryError w (id user) = None -> anyQueryError w (id user) = None ->
  List.length (paidRows db (id user)) = 1%nat ->
  reachesDeletion w db now user = false.
Proof.
  intros H1 H2 Hone.
  destruct (reachesDeletion w db now user) eqn:E; [| reflexivity].
  destruct (reachesDeletion_row_counts w db now user H1 H2 E) as [_ H]. contradiction.
Qed.

Example running_subscription_is_kept :
  reachesDeletion quiet store (10 * msDay) ana = false.
Proof. reflexivity. Qed.

(** C1. Bia holds two expired subscriptions, so the store has rows of a
    paying status for her; the query for such rows finds two, which
    [maybeSingle] reports as the error PGRST116 with no data; the handler
    passes over that error, finds no data, and deletes her related rows,
    her subscriptions and her account, next to Caio who never paid. *)
Theorem paid_twice_is_deleted :
  let run := handler quiet "POST" (10 * msDay) store in
  paid store "u2" (10 * msDay) = true /\
  List.length (paidRows store "u2") = 2%nat /\
  maybeSingle None (paidRows store "u2") = (None, Some "PGRST116") /\
  reachesDeletion quiet store (10 * msDay) bia = true /\
  fst run = Cleaned 2 3 4 /\
  reached (snd run) = [bia; caio] /\
  auth_users (db_of (snd run)) = [ana; davi] /\
  subscriptions (db_of (snd run)) = [mkSub 1 "u1" "active" (Some (40 * msDay))] /\
  owned (db_of (snd run)) = [("profiles", "u1"); ("profiles", "u4")].
Proof. vm_compute. repeat split. Qed.

End CleanupFacts.

Module StreakCardFacts.
Import Streak StreakCard.

Example days_to_2100 : days_from_civil 2100 1 1 = lastDay.
Proof. reflexivity. Qed.

Lemma currentLoop_runTo (tz : Z) (dates : list string) :
  forall (k : nat) (streak : Z),
    currentLoop tz dates k streak = streak + runTo tz dates k - 1.
Proof.
  induction k as [|i IH]; intros streak; cbn [currentLoop runTo].
  - lia.
  - unfold oneDayApart. replace (S i - 1)%nat with i by lia.
    destruct (is_one _); [rewrite IH|]; lia.
Qed.

Lemma runTo_bounds (tz : Z) (dates : list string) (i : nat) :
  1 <= runTo tz dates i <= Z.of_nat i + 1.
Proof.
  induction i as [|j IH]; cbn [runTo]; [lia|].
  destruct (oneDayApart tz dates (S j)); lia.
Qed.

Lemma bestLoop_bounds (tz : Z) (dates : list string) :
  forall (n i : nat) (best cur : Z),
    cur = runTo tz dates i -> 1 <= cur <= best ->
    best <= bestLoop tz dates (S i) n best cur /\
    runTo tz dates (i + n) <= bestLoop tz dates (S i) n best cur /\
    bestLoop tz dates (S i) n best cur <= Z.max best (cur + Z.of_nat n).
Proof.
  induction n as [|n IH]; intros i best cur Hcur Hb; cbn [bestLoop].
  - rewrite Nat.add_0_r. lia.
  - replace (S i - 1)%nat with i by lia.
    replace (i + S n)%nat with (S i + n)%nat by lia.
    assert (Hrun : runTo tz dates (S i)
                   = if oneDayApart tz dates (S i) then runTo tz dates i + 1 else 1)
      by reflexivity.
    unfold oneDayApart in Hrun. replace (S i - 1)%nat with i in Hrun by lia.
    destruct (is_one (diffDays tz (nth (S i) dates "") (nth i dates ""))).
    + destruct (IH (S i) (Z.max best (cur + 1)) (cur + 1)) as (H1 & H2 & H3); lia.
    + destruct (IH (S i) best 1) as (H1 & H2 & H3); lia.
Qed.

Lemma calculateBestStreak_bounds (tz : Z) (dates : list string) :
  dates <> [] ->
  runTo tz dates (List.length dates - 1) <= calculateBestStreak tz dates
  <= Z.of_nat (List.length dates).
Proof.
  intros Hne. destruct dates as [|d ds]; [contradiction|].
  unfold calculateBestStreak.
  destruct (bestLoop_bounds tz (d :: ds) (List.length (d :: ds) - 1) 0 1 1)
    as (H1 & H2 & H3); [reflexivity | lia |].
  cbn [List.length] in *. replace (S (List.length ds) - 1)%nat with (List.length ds) in * by lia.
  cbn [Nat.add] in H2. lia.
Qed.

Lemma calculateCurrentStreak_runTo (tz now : Z) (dates : list string) :
  calculateCurrentStreak tz now dates = 0 \/
  (dates <> [] /\
   calculateCurrentStreak tz now dates = runTo tz dates (List.length dates - 1)).
Proof.
  destruct dates as [|d ds]; [now left|].
  unfold calculateCurrentStreak.
  destruct (_ && _); [now left|].
  right. split; [discriminate|]. rewrite currentLoop_runTo. lia.
Qed.

Lemma insert_sorted_length (x : string) (l : list string) :
  List.length (insert_sorted x l) = S (List.length l).
Proof.
  induction l as [|y r IH]; cbn [insert_sorted]; [reflexivity|].
  destruct (String.leb x y); cbn [List.length]; [reflexivity | now rewrite IH].
Qed.

Lemma sort_length (l : list string) : List.length (sort l) = List.length l.
Proof.
  unfold sort. induction l as [|x l IH]; cbn [fold_right]; [reflexivity|].
  rewrite insert_sorted_length, IH. reflexivity.
Qed.

Lemma uniq_length (xs : list string) :
  forall seen, (List.length (uniq seen xs) <= List.length xs)%nat.
Proof.
  induction xs as [|x r IH]; intros seen; cbn [uniq]; [lia|].
  destruct (existsb (String.eqb x) seen); cbn [List.length].
  - specialize (IH seen). lia.
  - specialize (IH (x :: seen)). lia.
Qed.

Lemma uniqueDates_length (tz : Z) (progressData : list PlanProgressItem) :
  (List.length (uniqueDates tz progressData) <= List.length progressData)%nat.
Proof.
  unfold uniqueDates. rewrite sort_length.
  etransitivity; [apply uniq_length|]. now rewrite List.length_map.
Qed.

(** X1. The three figures of the streak card are ordered: for every list
    of date texts the current streak is at least 0 and at most the best
    streak, which is at most the number of dates; and in what
    [fetchStreakData] stores, the current streak is at most the best
    streak, which is at most the number of completed items. *)
Theorem streak_figures_ordered (tz now : Z) :
  (forall dates,
      0 <= calculateCurrentStreak tz now dates <= calculateBestStreak tz dates /\
      calculateBestStreak tz dates <= Z.of_nat (List.length dates)) /\
  (forall table uid,
      let data := fetchStreakData tz now table uid in
      0 <= currentStreak data <= bestStreak data /\
      bestStreak data <= totalWorkouts data).
Proof.
  assert (Hlist : forall dates,
             0 <= calculateCurrentStreak tz now dates <= calculateBestStreak tz dates /\
             calculateBestStreak tz dates <= Z.of_nat (List.length dates)).
  { intros dates. destruct dates as [|d ds] eqn:E; [cbn; lia|]. rewrite <- E.
    assert (Hne : dates <> []) by (subst; discriminate).
    pose proof (calculateBestStreak_bounds tz dates Hne) as Hb.
    pose proof (runTo_bounds tz dates (List.length dates - 1)) as Hr.
    destruct (calculateCurrentStreak_runTo tz now dates) as [H0|[_ H1]]; lia. }
  split; [exact Hlist|].
  intros table uid data. subst data. unfold fetchStreakData.
  destruct (completedRows table uid) as [|p ps] eqn:E; [cbn; lia|].
  cbn [currentStreak bestStreak totalWorkouts].
  pose proof (Hlist (uniqueDates tz (p :: ps))) as H.
  pose proof (uniqueDates_length tz (p :: ps)) as Hl. lia.
Qed.

Lemma existsb_eqb_In (x : string) (l : list string) :
  existsb (String.eqb x) l = true <-> In x l.
Proof.
  rewrite existsb_exists. split.
  - intros (y & Hy & E). apply String.eqb_eq in E. now subst.
  - intros H. exists x. split; [exact H | apply String.eqb_refl].
Qed.

Lemma uniq_In (xs : list string) :
  forall seen s, In s (uniq seen xs) <-> In s xs /\ ~ In s seen.
Proof.
  induction xs as [|x r IH]; intros seen s; cbn [uniq].
  - cbn. tauto.
  - destruct (existsb (String.eqb x) seen) eqn:E.
    + apply existsb_eqb_In in E. rewrite IH. cbn [In].
      split; [tauto|]. intros [[<-|H] Hs]; [contradiction | tauto].
    + assert (Hx : ~ In x seen) by (rewrite <- existsb_eqb_In, E; discriminate).
      cbn [In]. rewrite IH. cbn [In].
      destruct (string_dec x s) as [<-|Hne]; [tauto|]. tauto.
Qed.

Lemma uniq_NoDup (xs : list string) : forall seen, List.NoDup (uniq seen xs).
Proof.
  induction xs as [|x r IH]; intros seen; cbn [uniq]; [constructor|].
  destruct (existsb (String.eqb x) seen); [apply IH|].
  constructor; [| apply IH].
  rewrite uniq_In. cbn [In]. tauto.
Qed.

Lemma insert_sorted_In (x s : string) (l : list string) :
  In s (insert_sorted x l) <-> s = x \/ In s l.
Proof.
  induction l as [|y r IH]; cbn [insert_sorted].
  - cbn. intuition congruence.
  - destruct (String.leb x y); cbn [In]; [intuition congruence|].
    rewrite IH. intuition congruence.
Qed.

Lemma insert_sorted_NoDup (x : string) (l : list string) :
  ~ In x l -> List.NoDup l -> List.NoDup (insert_sorted x l).
Proof.
  induction l as [|y r IH]; intros Hx Hnd; cbn [insert_sorted].
  - constructor; [exact Hx | constructor].
  - destruct (String.leb x y); [constructor; assumption|].
    inversion Hnd as [|? ? Hy Hr]; subst.
    constructor.
    + rewrite insert_sorted_In. cbn [In] in Hx. intros [->|H]; tauto.
    + apply IH; [cbn [In] in Hx; tauto | exact Hr].
Qed.

Lemma insert_sorted_Sorted (x : string) (l : list string) :
  Sorted textOrder l -> Sorted textOrder (insert_sorted x l).
Proof.
  induction l as [|y r IH]; intros Hs; cbn [insert_sorted].
  - repeat constructor.
  - destruct (String.leb x y) eqn:E.
    + constructor; [exact Hs | constructor; exact E].
    + inversion Hs as [|? ? Hr Hhd]; subst.
      constructor; [apply IH; exact Hr|].
      assert (Hyx : textOrder y x).
      { destruct (String.leb_total x y) as [H|H]; [congruence | exact H]. }
      destruct r as [|z r']; cbn [insert_sorted].
      * constructor; exact Hyx.
      * destruct (String.leb x z); constructor; [exact Hyx|].
        inversion Hhd; assumption.
Qed.

Lemma sort_facts (l : list string) :
  List.NoDup l ->
  List.NoDup (sort l) /\ Sorted textOrder (sort l) /\ (forall s, In s (sort l) <-> In s l).
Proof.
  unfold sort. induction l as [|x l IH]; intros Hnd; cbn [fold_right].
  - split; [constructor|]. split; [constructor | tauto].
  - inversion Hnd as [|? ? Hx Hl]; subst.
    destruct (IH Hl) as (H1 & H2 & H3).
    split; [| split].
    + apply insert_sorted_NoDup; [now rewrite H3 | exact H1].
    + now apply insert_sorted_Sorted.
    + intros s. rewrite insert_sorted_In, H3. cbn [In]. intuition congruence.
Qed.

(** X2. The list of dates the streaks are computed on has no duplicate,
    is in ascending order of the texts, and holds exactly the date texts of
    the rows it was built from. *)
Theorem uniqueDates_sorted_set (tz : Z) (progressData : list PlanProgressItem) :
  List.NoDup (uniqueDates tz progressData) /\
  Sorted textOrder (uniqueDates tz progressData) /\
  (forall s, In s (uniqueDates tz progressData) <->
             exists p, In p progressData /\ toDateString tz (created_at p) = s).
Proof.
  unfold uniqueDates.
  destruct (sort_facts (uniq [] (map (fun p => toDateString tz (created_at p)) progressData))
              (uniq_NoDup _ []))
    as (H1 & H2 & H3).
  split; [exact H1|]. split; [exact H2|].
  intros s. rewrite H3, uniq_In, in_map_iff. cbn [In].
  split.
  - intros [(p & E & Hp) _]. eauto.
  - intros (p & Hp & E). split; [eauto | tauto].
Qed.

Lemma toDateString_localDay (tz t : Z) :
  toDateString tz t = toDateString 0 (localDay tz t * msPerDay).
Proof.
  unfold toDateString.
  assert (E : localDay 0 (localDay tz t * msPerDay) = localDay tz t).
  { unfold localDay at 1. rewrite Z.add_0_r. apply Z.div_mul. discriminate. }
  now rewrite E.
Qed.

Lemma getTime_zone (tz : Z) (s : string) (t : Z) :
  getTime 0 s = Some t -> getTime tz s = Some (t - tz).
Proof.
  unfold getTime.
  destruct (index_of _ _ _) as [m|]; [|discriminate].
  destruct (number (substring 8 2 s)) as [d|]; [|discriminate].
  destruct (number _) as [y|]; [|discriminate].
  intros [= <-]. f_equal. lia.
Qed.

Lemma readsBackFrom_lastDay : readsBackFrom 0 (Z.to_nat lastDay) = true.
Proof. vm_compute. reflexivity. Qed.

Lemma readsBackFrom_each (n : nat) :
  forall d k, readsBackFrom d n = true -> d <= k < d + Z.of_nat n -> readsBack k = true.
Proof.
  induction n as [|n IH]; intros d k H Hk; [lia|].
  cbn [readsBackFrom] in H. apply andb_true_iff in H. destruct H as [H1 H2].
  destruct (Z.eq_dec k d) as [->|Hne]; [exact H1|].
  apply (IH (d + 1) k H2). lia.
Qed.

Lemma readsBack_in_range (d : Z) :
  0 <= d < lastDay -> getTime 0 (toDateString 0 (d * msPerDay)) = Some (d * msPerDay).
Proof.
  intros Hd.
  assert (H : readsBack d = true).
  { apply (readsBackFrom_each (Z.to_nat lastDay) 0 d readsBackFrom_lastDay).
    rewrite Z2Nat.id by (unfold lastDay; lia). lia. }
  unfold readsBack in H.
  destruct (getTime 0 _) as [t|]; [|discriminate].
  apply Z.eqb_eq in H. now subst.
Qed.

(** X3. For two instants whose local dates lie between 1970-01-01 and
    2099-12-31, the day difference the loops compute from their date texts
    is the difference of their calendar days. *)
Theorem diffDays_calendar (tz a b : Z) :
  0 <= localDay tz a < lastDay -> 0 <= localDay tz b < lastDay ->
  diffDays tz (toDateString tz a) (toDateString tz b)
  = Some (localDay tz a - localDay tz b).
Proof.
  intros Ha Hb. unfold diffDays.
  rewrite (toDateString_localDay tz a), (toDateString_localDay tz b).
  rewrite (getTime_zone tz _ _ (readsBack_in_range _ Ha)).
  rewrite (getTime_zone tz _ _ (readsBack_in_range _ Hb)).
  f_equal.
  replace (localDay tz a * msPerDay - tz - (localDay tz b * msPerDay - tz))
    with ((localDay tz a - localDay tz b) * msPerDay) by lia.
  apply Z.div_mul. discriminate.
Qed.

Lemma diffDays_calendar_witness :
  0 <= localDay 3600000 (Scenarios.noon 20462) < lastDay /\
  0 <= localDay 3600000 (Scenarios.noon 20430) < lastDay /\
  diffDays 3600000 (toDateString 3600000 (Scenarios.noon 20462))
           (toDateString 3600000 (Scenarios.noon 20430)) = Some 32.
Proof.
  assert (Ha : 0 <= localDay 3600000 (Scenarios.noon 20462) < lastDay)
    by (vm_compute; split; [discriminate | reflexivity]).
  assert (Hb : 0 <= localDay 3600000 (Scenarios.noon 20430) < lastDay)
    by (vm_compute; split; [discriminate | reflexivity]).
  split; [exact Ha|]. split; [exact Hb|].
  exact (diffDays_calendar 3600000 _ _ Ha Hb).
Defined.

(** X4. The badge and the message of the streak card change at the same
    thresholds 3, 7, 14, 21 and 30; below 3 the badge is the lowest one and
    the message tells a streak of 0 from the others; and a longer streak
    never gets a lower badge. *)
Theorem badge_and_message_tiers (streak : Z) :
  ((30 <= streak /\ level (getStreakLevel streak) = "Lenda" /\
    getMotivationalMessage streak = "Você é uma inspiração! Continue assim! 🔥") \/
   (21 <= streak < 30 /\ level (getStreakLevel streak) = "Mestre" /\
    getMotivationalMessage streak = "Hábito formado! Você é imparável! ⚡") \/
   (14 <= streak < 21 /\ level (getStreakLevel streak) = "Veterano" /\
    getMotivationalMessage streak = "Duas semanas consecutivas! Incrível! 🚀") \/
   (7 <= streak < 14 /\ level (getStreakLevel streak) = "Campeão" /\
    getMotivationalMessage streak = "Uma semana inteira! Que disciplina! 🏆") \/
   (3 <= streak < 7 /\ level (getStreakLevel streak) = "Iniciante" /\
    getMotivationalMessage streak = "Momentum crescendo! Continue! 💥") \/
   (streak < 3 /\ streak <> 0 /\ level (getStreakLevel streak) = "Começando" /\
    getMotivationalMessage streak = "Bom começo! Mantenha o ritmo! 🎯") \/
   (streak = 0 /\ level (getStreakLevel streak) = "Começando" /\
    getMotivationalMessage streak = "Comece hoje sua jornada! 💪")) /\
  (forall longer, streak <= longer ->
                  rank (getStreakLevel streak) <= rank (getStreakLevel longer)).
Proof.
  split.
  - unfold getStreakLevel, getMotivationalMessage.
    destruct (Z.eqb_spec streak 0) as [->|H0]; [cbn; tauto|].
    destruct (Z.leb_spec 30 streak); [cbn; tauto|].
    destruct (Z.leb_spec 21 streak); [cbn; right; left; repeat split; lia|].
    destruct (Z.leb_spec 14 streak); [cbn; right; right; left; repeat split; lia|].
    destruct (Z.leb_spec 7 streak); [cbn; do 3 right; left; repeat split; lia|].
    destruct (Z.leb_spec 3 streak); [cbn; do 4 right; left; repeat split; lia|].
    cbn. do 5 right. left. repeat split; lia.
  - intros longer Hle. unfold getStreakLevel.
    repeat match goal with
           | |- context [?a <=? ?b] => destruct (Z.leb_spec a b)
           end; cbn; lia.
Qed.

Lemma badge_and_message_tiers_witness :
  12 <= 25 /\ rank (getStreakLevel 12) <= rank (getStreakLevel 25).
Proof.
  split; [lia|]. apply (proj2 (badge_and_message_tiers 12) 25). lia.
Defined.

End StreakCardFacts.

Module CleanupViewFacts.
Import Cleanup CleanupView Scenarios.

Lemma filter_absorb {A} (f g : A -> bool) (l : list A) :
  (forall x, f x = true -> g x = true) ->
  List.filter f (List.filter g l) = List.filter f l.
Proof.
  intros H. induction l as [|a l IH]; [reflexivity|].
  cbn [List.filter]. destruct (g a) eqn:G; cbn [List.filter].
  - now rewrite IH.
  - destruct (f a) eqn:F; [apply H in F; congruence | exact IH].
Qed.

Lemma filter_nil_iff {A} (f : A -> bool) (l : list A) :
  List.filter f l = [] <-> forall x, In x l -> f x = false.
Proof.
  induction l as [|a l IH]; cbn [List.filter In]; [tauto|].
  destruct (f a) eqn:F.
  - split; [discriminate|]. intros H. specialize (H a (or_introl eq_refl)). congruence.
  - rewrite IH. split; [intros H x [<-|Hx]; auto | auto].
Qed.

Lemma eqb_differs (a b uid : string) :
  a <> uid -> String.eqb b uid = true -> negb (String.eqb b a) = true.
Proof.
  intros Hne E. apply String.eqb_eq in E. subst b.
  apply negb_true_iff, String.eqb_neq. congruence.
Qed.

Lemma sameViews_refl (uid : string) (db : Db) : sameViews uid db db.
Proof. repeat split. Qed.

Lemma sameViews_trans (uid : string) (db1 db2 db3 : Db) :
  sameViews uid db1 db2 -> sameViews uid db2 db3 -> sameViews uid db1 db3.
Proof. unfold sameViews. intros (A & B & C) (D & E & F). repeat split; congruence. Qed.

Lemma within_refl (db : Db) : within db db.
Proof. repeat split; auto. Qed.

Lemma within_trans (db1 db2 db3 : Db) : within db1 db2 -> within db2 db3 -> within db1 db3.
Proof. unfold within. intros (A & B & C) (D & E & F). repeat split; auto. Qed.

(** Each deletion removes rows of its user only, and adds none. *)
Lemma deleteOwned_frame (table other uid : string) (db : Db) :
  other <> uid ->
  sameViews uid (deleteOwned table other db) db /\ within (deleteOwned table other db) db.
Proof.
  intros Hne. split.
  - repeat split. unfold ownedBy, deleteOwned. cbn [owned].
    apply filter_absorb. intros r E.
    apply negb_true_iff, andb_false_iff. right.
    apply negb_true_iff. now apply (eqb_differs other (snd r) uid).
  - repeat split; auto. unfold deleteOwned. cbn [owned]. intros r Hr.
    apply filter_In in Hr. tauto.
Qed.

Lemma deleteSubscriptions_frame (other uid : string) (db : Db) :
  other <> uid ->
  sameViews uid (deleteSubscriptions other db) db /\ within (deleteSubscriptions other db) db.
Proof.
  intros Hne. split.
  - repeat split. unfold subscriptionsOf, deleteSubscriptions. cbn [subscriptions].
    apply filter_absorb. intros s E. now apply (eqb_differs other (user_id s) uid).
  - repeat split; auto. unfold deleteSubscriptions. cbn [subscriptions]. intros s Hs.
    apply filter_In in Hs. tauto.
Qed.

Lemma deleteUser_frame (other uid : string) (db : Db) :
  other <> uid ->
  sameViews uid (deleteUser other db) db /\ within (deleteUser other db) db.
Proof.
  intros Hne. split.
  - repeat split. unfold accountsOf, deleteUser. cbn [auth_users].
    apply filter_absorb. intros u E. now apply (eqb_differs other (id u) uid).
  - repeat split; auto. unfold deleteUser. cbn [auth_users]. intros u Hu.
    apply filter_In in Hu. tauto.
Qed.

Lemma run_frame (uid : string) (ops : list (Db -> Db)) :
  (forall op, In op ops -> forall db, sameViews uid (op db) db /\ within (op db) db) ->
  forall db, sameViews uid (run ops db) db /\ within (run ops db) db.
Proof.
  unfold run. induction ops as [|op ops IH]; intros H db; cbn [fold_left].
  - split; [apply sameViews_refl | apply within_refl].
  - destruct (H op (or_introl eq_refl) db) as [S1 W1].
    destruct (IH (fun o Ho => H o (or_intror Ho)) (op db)) as [S2 W2].
    split; [eapply sameViews_trans | eapply within_trans]; eassumption.
Qed.

Lemma attempt_frame (w : World) (other uid : string) (k : nat) (op : Db -> Db) :
  (forall db, sameViews uid (op db) db /\ within (op db) db) ->
  forall db, sameViews uid (attempt w other k op db) db /\ within (attempt w other k op db) db.
Proof.
  intros H db. unfold attempt. destruct (deleteErrorAt w other k); [|apply H].
  split; [apply sameViews_refl | apply within_refl].
Qed.

Lemma relatedDeletes_frame (w : World) (other uid : string) :
  other <> uid ->
  forall op, In op (relatedDeletes w other) ->
             forall db, sameViews uid (op db) db /\ within (op db) db.
Proof.
  intros Hne op Hop. unfold relatedDeletes in Hop. cbn [In] in Hop.
  repeat (destruct Hop as [<-|Hop];
          [ apply attempt_frame; intros db;
            first [ now apply deleteOwned_frame | now apply deleteSubscriptions_frame ] |]).
  contradiction.
Qed.

Lemma deletionBlock_frame (w : World) (db : Db) (user : AuthUser) (uid : string) :
  id user <> uid ->
  sameViews uid (fst (deletionBlock w db user)) db /\
  within (fst (deletionBlock w db user)) db.
Proof.
  intros Hne. unfold deletionBlock.
  assert (Hall : forall db, sameViews uid (run (relatedDeletes w (id user)) db) db /\
                            within (run (relatedDeletes w (id user)) db) db)
    by (apply run_frame, relatedDeletes_frame, Hne).
  assert (Hdel : forall db, sameViews uid (deleteUser (id user) (run (relatedDeletes w (id user)) db)) db /\
                            within (deleteUser (id user) (run (relatedDeletes w (id user)) db)) db).
  { intros d. destruct (Hall d) as [S1 W1].
    destruct (deleteUser_frame (id user) uid (run (relatedDeletes w (id user)) d) Hne) as [S2 W2].
    split; [eapply sameViews_trans | eapply within_trans]; eassumption. }
  destruct (deleteThrowsAt w (id user)) as [k|].
  - destruct (k <? 9)%nat.
    + cbn [fst]. apply run_frame. intros op Hop.
      apply (relatedDeletes_frame w (id user) uid Hne).
      revert Hop. generalize (relatedDeletes w (id user)). clear.
      intros l. revert k. induction l as [|a l IH]; intros [|k]; cbn; try tauto.
      intros [<-|H]; [now left | right; eauto].
    + destruct (deleteAuthError w (id user)); cbn [fst]; auto.
  - destruct (deleteAuthError w (id user)); cbn [fst]; auto.
Qed.

(** The block never adds a row, also for the user it deletes. *)
Lemma deletionBlock_within (w : World) (db : Db) (user : AuthUser) :
  within (fst (deletionBlock w db user)) db.
Proof.
  assert (Hop : forall op, In op (relatedDeletes w (id user)) -> forall d, within (op d) d).
  { intros op H d. unfold relatedDeletes in H. cbn [In] in H.
    repeat (destruct H as [<-|H];
            [ unfold attempt; destruct (deleteErrorAt w (id user) _);
              [ apply within_refl
              | repeat split; auto; cbn; intros x Hx; apply filter_In in Hx; tauto ] |]).
    contradiction. }
  assert (Hrun : forall ops, (forall op, In op ops -> forall d, within (op d) d) ->
                             forall d, within (run ops d) d).
  { unfold run. induction ops as [|op ops IH]; intros H d; cbn [fold_left].
    - apply within_refl.
    - eapply within_trans; [apply IH; intros o Ho; apply H; now right|].
      apply H. now left. }
  assert (Hdel : forall d, within (deleteUser (id user) d) d).
  { intros d. repeat split; auto. cbn. intros x Hx. apply filter_In in Hx. tauto. }
  unfold deletionBlock.
  destruct (deleteThrowsAt w (id user)) as [k|].
  - destruct (k <? 9)%nat.
    + cbn [fst]. apply Hrun. intros op Ho. apply Hop.
      revert Ho. generalize (relatedDeletes w (id user)). clear.
      intros l. revert k. induction l as [|a l IH]; intros [|k]; cbn; try tauto.
      intros [<-|H]; [now left | right; eauto].
    + destruct (deleteAuthError w (id user)); cbn [fst]; auto.
      eapply within_trans; [apply Hdel | apply Hrun, Hop].
  - destruct (deleteAuthError w (id user)); cbn [fst]; auto.
    eapply within_trans; [apply Hdel | apply Hrun, Hop].
Qed.

Lemma loopBody_cases (w : World) (now : Z) (st : Loop) (user : AuthUser) :
  (reachesDeletion w (db_of st) now user = false /\ loopBody w now st user = st) \/
  (reachesDeletion w (db_of st) now user = true /\
   reached (loopBody w now st user) = (reached st ++ [user])%list /\
   db_of (loopBody w now st user) = fst (deletionBlock w (db_of st) user) /\
   deletedCount_of (loopBody w now st user)
   = if snd (deletionBlock w (db_of st) user) then deletedCount_of st + 1
     else deletedCount_of st).
Proof.
  unfold loopBody. destruct (reachesDeletion w (db_of st) now user); [|now left].
  right. destruct (deletionBlock w (db_of st) user) as [db' counted]. auto.
Qed.

Lemma reached_grows (w : World) (now : Z) (users : list AuthUser) :
  forall st u, In u (reached st) -> In u (reached (fold_left (loopBody w now) users st)).
Proof.
  induction users as [|user users IH]; intros st u Hu; cbn [fold_left]; [exact Hu|].
  apply IH. destruct (loopBody_cases w now st user) as [[_ E]|(_ & E & _)]; rewrite E.
  - exact Hu.
  - apply in_or_app. now left.
Qed.

Lemma checkUsers_within (w : World) (now : Z) (users : list AuthUser) :
  forall st, within (db_of (fold_left (loopBody w now) users st)) (db_of st).
Proof.
  induction users as [|user users IH]; intros st; cbn [fold_left].
  - apply within_refl.
  - eapply within_trans; [apply IH|].
    destruct (loopBody_cases w now st user) as [[_ E]|(_ & _ & E & _)]; rewrite E.
    + apply within_refl.
    + apply deletionBlock_within.
Qed.

(** The loop, for a user that is not sent to the deletion block. *)
Lemma checkUsers_frame (w : World) (now : Z) (uid : string) (users : list AuthUser) :
  forall st,
    (forall u, In u (reached (fold_left (loopBody w now) users st)) -> id u <> uid) ->
    sameViews uid (db_of (fold_left (loopBody w now) users st)) (db_of st).
Proof.
  induction users as [|user users IH]; intros st H; cbn [fold_left] in *.
  - apply sameViews_refl.
  - eapply sameViews_trans; [apply IH; exact H|].
    destruct (loopBody_cases w now st user) as [[_ E]|(_ & R & E & _)]; rewrite E.
    + apply sameViews_refl.
    + apply deletionBlock_frame. apply H. apply reached_grows.
      rewrite R. apply in_or_app. right. now left.
Qed.

(** X5. The cleanup never adds a row to the store, and it leaves the
    account, the subscriptions and the owned rows of a user exactly as they
    were unless a user with that id went through the deletion block. *)
Theorem cleanup_leaves_others_alone (w : World) (method : string) (now : Z) (db : Db) :
  within (db_of (snd (handler w method now db))) db /\
  (forall uid,
      (forall u, In u (reached (snd (handler w method now db))) -> id u <> uid) ->
      sameViews uid (db_of (snd (handler w method now db))) db).
Proof.
  unfold handler.
  destruct (String.eqb method "OPTIONS");
    [split; [apply within_refl | intros; apply sameViews_refl]|].
  destruct (usersToCheck w db now) as [[users total]|];
    [| split; [apply within_refl | intros; apply sameViews_refl]].
  cbn [snd]. unfold checkUsers. split.
  - apply (checkUsers_within w now users (mkLoop db 0 [])).
  - intros uid H. apply (checkUsers_frame w now uid users (mkLoop db 0 []) H).
Qed.

Lemma cleanup_leaves_others_alone_witness :
  (forall u, In u (reached (snd (handler quiet "POST" (10 * msDay) store))) -> id u <> "u4") /\
  accountsOf "u4" (db_of (snd (handler quiet "POST" (10 * msDay) store))) = [davi] /\
  ownedBy "u4" (db_of (snd (handler quiet "POST" (10 * msDay) store))) = [("profiles", "u4")].
Proof.
  assert (H : forall u, In u (reached (snd (handler quiet "POST" (10 * msDay) store))) ->
                        id u <> "u4").
  { intros u Hu. vm_compute in Hu. destruct Hu as [<-|[<-|[]]]; discriminate. }
  split; [exact H|].
  destruct (proj2 (cleanup_leaves_others_alone quiet "POST" (10 * msDay) store) "u4" H)
    as (A & _ & O).
  split; [rewrite A | rewrite O]; reflexivity.
Defined.

Lemma checkUsers_counts (w : World) (now : Z) (users : list AuthUser) :
  forall st,
    let st' := fold_left (loopBody w now) users st in
    deletedCount_of st <= deletedCount_of st' /\
    deletedCount_of st' - deletedCount_of st
    <= Z.of_nat (List.length (reached st')) - Z.of_nat (List.length (reached st)) /\
    (List.length (reached st') <= List.length (reached st) + List.length users)%nat.
Proof.
  induction users as [|user users IH]; intros st; cbv zeta;
    cbn [fold_left List.length]; [lia|].
  specialize (IH (loopBody w now st user)). cbv zeta in IH.
  destruct (loopBody_cases w now st user) as [[_ E]|(_ & R & _ & D)].
  - rewrite E in *. lia.
  - rewrite R, D in IH. rewrite List.length_app in IH. cbn [List.length] in IH.
    destruct (snd (deletionBlock w (db_of st) user)); lia.
Qed.

(** X6. The figures of a successful answer are ordered: the number of
    deleted accounts is at least 0 and at most the number of users that
    reached the deletion block, which is at most the number of users
    checked, which is at most the total the answer reports. *)
Theorem cleanup_counts (w : World) (method : string) (now : Z) (db : Db)
        (deletedCount checkedUsers totalUsers : Z) :
  fst (handler w method now db) = Cleaned deletedCount checkedUsers totalUsers ->
  0 <= deletedCount
  <= Z.of_nat (List.length (reached (snd (handler w method now db)))) /\
  Z.of_nat (List.length (reached (snd (handler w method now db)))) <= checkedUsers /\
  checkedUsers <= totalUsers.
Proof.
  unfold handler.
  destruct (String.eqb method "OPTIONS"); [discriminate|].
  destruct (usersToCheck w db now) as [[users total]|] eqn:U; [|discriminate].
  cbn [fst snd]. intros [= <- <- <-]. unfold checkUsers.
  pose proof (checkUsers_counts w now users (mkLoop db 0 [])) as H.
  cbv zeta in H. cbn [deletedCount_of reached List.length] in H.
  split; [lia|]. split; [lia|].
  unfold usersToCheck in U. destruct (directTable w) as [table|].
  - injection U as <- <-. lia.
  - destruct (fetchPages _ _ _ _ _) as [| |allUsers]; try discriminate.
    injection U as <- <-. unfold filteredUsers.
    pose proof (List.filter_length_le (fun user => created_at user <? limitDate now) allUsers).
    lia.
Qed.

Lemma cleanup_counts_witness :
  fst (handler quiet "POST" (10 * msDay) store) = Cleaned 2 3 4 /\
  0 <= 2 <= Z.of_nat (List.length (reached (snd (handler quiet "POST" (10 * msDay) store)))) /\
  3 <= 4.
Proof.
  assert (E : fst (handler quiet "POST" (10 * msDay) store) = Cleaned 2 3 4)
    by (vm_compute; reflexivity).
  split; [exact E|].
  destruct (cleanup_counts quiet "POST" (10 * msDay) store 2 3 4 E) as (H1 & _ & H3).
  split; [exact H1 | exact H3].
Defined.

Lemma activeRows_view (db : Db) (uid : string) (now : Z) :
  activeRows db uid now
  = List.filter (fun s => String.eqb (user_id s) uid && String.eqb (status s) "active"
                          && match expires_at s with Some e => now <=? e | None => false end)
                (subscriptionsOf uid db).
Proof.
  unfold activeRows, subscriptionsOf. symmetry. apply filter_absorb.
  intros s H. apply andb_true_iff in H. destruct H as [H _].
  apply andb_true_iff in H. tauto.
Qed.

Lemma paidRows_view (db : Db) (uid : string) :
  paidRows db uid
  = List.filter (fun s => String.eqb (user_id s) uid
                          && existsb (String.eqb (status s)) ["active"; "expired"; "cancelled"])
                (subscriptionsOf uid db).
Proof.
  unfold paidRows, subscriptionsOf. symmetry. apply filter_absorb.
  intros s H. apply andb_true_iff in H. tauto.
Qed.

Lemma sameViews_rows (uid : string) (db' db : Db) (now : Z) :
  sameViews uid db' db ->
  activeRows db' uid now = activeRows db uid now /\ paidRows db' uid = paidRows db uid.
Proof.
  intros (_ & S & _). rewrite !activeRows_view, !paidRows_view, S. auto.
Qed.

(** An active row that has not expired is a row of a paying status. *)
Lemma activeRows_among_paidRows (db : Db) (uid : string) (now : Z) :
  (List.length (activeRows db uid now) <= List.length (paidRows db uid))%nat.
Proof.
  assert (E : activeRows db uid now
              = List.filter (fun s => String.eqb (user_id s) uid
                                      && String.eqb (status s) "active"
                                      && match expires_at s with
                                         | Some e => now <=? e
                                         | None => false
                                         end)
                            (paidRows db uid)).
  { unfold activeRows, paidRows. symmetry. apply filter_absorb.
    intros s H. apply andb_true_iff in H. destruct H as [H _].
    apply andb_true_iff in H. destruct H as [H1 H2].
    rewrite H1. cbn [andb existsb]. now rewrite H2. }
  rewrite E. apply List.filter_length_le.
Qed.

Lemma blocking_other (code : string) :
  Some code <> Some "PGRST116" -> blocking (Some code) = true.
Proof.
  intros H. cbn [blocking]. apply negb_true_iff, String.eqb_neq. congruence.
Qed.

Lemma single_row_is_kept (w : World) (db : Db) (now : Z) (user : AuthUser) :
  (activeQueryError w (id user) <> Some "PGRST116" /\
   List.length (activeRows db (id user) now) = 1%nat) \/
  (anyQueryError w (id user) <> Some "PGRST116" /\
   List.length (paidRows db (id user)) = 1%nat) ->
  reachesDeletion w db now user = false.
Proof.
  pose proof (activeRows_among_paidRows db (id user) now) as Hle.
  unfold reachesDeletion, maybeSingle.
  intros [[He Hone]|[He Hone]].
  - destruct (activeQueryError w (id user)) as [c|].
    + now rewrite (blocking_other c He).
    + destruct (activeRows db (id user) now) as [|a [|a' ra]]; try discriminate.
      reflexivity.
  - assert (Hany : (let '(anySubscription, anySubError) :=
                      match anyQueryError w (id user) with
                      | Some code => (None, Some code)
                      | None =>
                          match paidRows db (id user) with
                          | [] => (None, None)
                          | [r] => (Some r, None)
                          | _ :: _ :: _ => (None, Some "PGRST116")
                          end
                      end in
                    if blocking anySubError then false
                    else match anySubscription with Some _ => false | None => true end)
                   = false).
    { destruct (anyQueryError w (id user)) as [c|].
      - now rewrite (blocking_other c He).
      - destruct (paidRows db (id user)) as [|b [|b' rb]]; try discriminate.
        reflexivity. }
    destruct (activeQueryError w (id user)) as [c|].
    + destruct (blocking (Some c)); [reflexivity | exact Hany].
    + destruct (activeRows db (id user) now) as [|a [|a' ra]].
      * exact Hany.
      * reflexivity.
      * rewrite Hone in Hle. cbn [List.length] in Hle. lia.
Qed.

Lemma kept_fold (w : World) (now : Z) (db : Db) (uid : string) :
  (forall db' u, sameViews uid db' db -> id u = uid ->
                 reachesDeletion w db' now u = false) ->
  forall users st,
    sameViews uid (db_of st) db ->
    (forall u, In u (reached st) -> id u <> uid) ->
    (forall u, In u (reached (fold_left (loopBody w now) users st)) -> id u <> uid) /\
    sameViews uid (db_of (fold_left (loopBody w now) users st)) db.
Proof.
  intros Hkept. induction users as [|user users IH]; intros st Hs Hr; cbn [fold_left].
  - auto.
  - destruct (loopBody_cases w now st user) as [[_ E]|(D & R & E & _)].
    + rewrite E. now apply IH.
    + assert (Hne : id user <> uid).
      { intros Heq. rewrite (Hkept (db_of st) user Hs Heq) in D. discriminate. }
      apply IH.
      * rewrite E. eapply sameViews_trans; [apply deletionBlock_frame, Hne | exact Hs].
      * intros u Hu. rewrite R in Hu. apply in_app_or in Hu.
        destruct Hu as [Hu|[<-|[]]]; [now apply Hr | exact Hne].
Qed.

(** X7. A user for whom the store holds exactly one running subscription
    (active and not expired), or exactly one row of a paying status, is
    never sent to the deletion block, and the account, subscriptions and
    owned rows of that user are the same after the run, provided the query
    that finds the row does not itself fail with the code PGRST116. *)
Theorem subscriber_is_kept (w : World) (method : string) (now : Z) (db : Db)
        (uid : string) :
  (activeQueryError w uid <> Some "PGRST116" /\
   List.length (activeRows db uid now) = 1%nat) \/
  (anyQueryError w uid <> Some "PGRST116" /\
   List.length (paidRows db uid) = 1%nat) ->
  (forall u, In u (reached (snd (handler w method now db))) -> id u <> uid) /\
  sameViews uid (db_of (snd (handler w method now db))) db.
Proof.
  intros Hrow. unfold handler.
  destruct (String.eqb method "OPTIONS");
    [cbn; split; [tauto | apply sameViews_refl]|].
  destruct (usersToCheck w db now) as [[users total]|];
    [| cbn; split; [tauto | apply sameViews_refl]].
  cbn [snd]. unfold checkUsers.
  apply (kept_fold w now db uid); [| apply sameViews_refl | cbn; tauto].
  intros db' u Hs Hid. apply single_row_is_kept. rewrite Hid.
  destruct (sameViews_rows uid db' db now Hs) as [-> ->]. exact Hrow.
Qed.

Lemma subscriber_is_kept_witness :
  (activeQueryError quiet "u1" <> Some "PGRST116" /\
   List.length (activeRows store "u1" (10 * msDay)) = 1%nat) /\
  accountsOf "u1" (db_of (snd (handler quiet "POST" (10 * msDay) store))) = [ana].
Proof.
  assert (H : activeQueryError quiet "u1" <> Some "PGRST116" /\
              List.length (activeRows store "u1" (10 * msDay)) = 1%nat)
    by (split; [discriminate | reflexivity]).
  split; [exact H|].
  destruct (subscriber_is_kept quiet "POST" (10 * msDay) store "u1" (or_introl H))
    as (_ & A & _).
  rewrite A. reflexivity.
Defined.

Lemma gone_within (uid : string) (db' db : Db) :
  within db' db -> gone uid db -> gone uid db'.
Proof.
  unfold gone, within, accountsOf, subscriptionsOf, clearedRowsOf, ownedBy.
  intros (Wa & Ws & Wo) (Ga & Gs & Go).
  pose proof (proj1 (filter_nil_iff _ _) Ga) as Ga'.
  pose proof (proj1 (filter_nil_iff _ _) Gs) as Gs'.
  pose proof (proj1 (filter_nil_iff _ _) Go) as Go'.
  split; [| split].
  - apply filter_nil_iff. auto.
  - apply filter_nil_iff. auto.
  - apply filter_nil_iff. intros r Hr. apply filter_In in Hr. destruct Hr as [Hr E].
    apply Go'. apply filter_In. auto.
Qed.

(** Without an error the eight deletions are the plain ones. *)
Lemma relatedDeletes_plain (w : World) (uid : string) :
  deletesRows w uid ->
  relatedDeletes w uid
  = [ deleteOwned "ai_conversations" uid; deleteOwned "user_progress" uid;
      deleteOwned "user_workout_plans" uid; deleteOwned "workout_plans" uid;
      deleteOwned "user_profiles" uid; deleteOwned "plan_progress" uid;
      deleteSubscriptions uid; deleteOwned "profiles" uid ].
Proof.
  intros H. unfold relatedDeletes, attempt. now rewrite !H.
Qed.

(** What the eight deletions leave of their user when none answers with
    an error. *)
Lemma relatedDeletes_effect (w : World) (uid : string) (db : Db) :
  deletesRows w uid ->
  auth_users (run (relatedDeletes w uid) db) = auth_users db /\
  subscriptionsOf uid (run (relatedDeletes w uid) db) = [] /\
  clearedRowsOf uid (run (relatedDeletes w uid) db) = [].
Proof.
  intros Hq. rewrite (relatedDeletes_plain w uid Hq).
  unfold run. cbn [fold_left].
  unfold deleteOwned, deleteSubscriptions. cbn [auth_users subscriptions owned].
  split; [reflexivity|]. split.
  - unfold subscriptionsOf. cbn [subscriptions]. apply filter_nil_iff.
    intros s Hs. apply filter_In in Hs. destruct Hs as [_ Hs].
    now apply negb_true_iff in Hs.
  - unfold clearedRowsOf, ownedBy. cbn [owned]. apply filter_nil_iff.
    intros r Hr. apply filter_In in Hr. destruct Hr as [Hr E].
    repeat (apply filter_In in Hr; destruct Hr as [Hr ?]).
    rewrite E in *. unfold clearedTables. cbn [existsb].
    repeat match goal with
           | H : negb (String.eqb (fst r) ?t && true) = true |- _ =>
               destruct (String.eqb (fst r) t); [discriminate H | clear H]
           end.
    reflexivity.
Qed.

(** One deletion and the rows of a table: its own table is emptied for
    the user unless the deletion answers with an error, every other table
    keeps its rows. *)
Lemma rowsIn_attempt (w : World) (uid table table' : string) (k : nat) (db : Db) :
  rowsIn table uid (attempt w uid k (deleteOwned table' uid) db)
  = if String.eqb table table' && negb (deleteErrorAt w uid k) then []
    else rowsIn table uid db.
Proof.
  unfold attempt. destruct (deleteErrorAt w uid k); cbn [negb];
    [now rewrite andb_false_r|]. rewrite andb_true_r.
  unfold rowsIn, deleteOwned. cbn [owned].
  destruct (String.eqb_spec table table') as [->|Hne].
  - apply filter_nil_iff. intros r Hr. apply filter_In in Hr. destruct Hr as [_ Hr].
    now apply negb_true_iff in Hr.
  - apply filter_absorb. intros r E. apply andb_true_iff in E. destruct E as [E1 E2].
    apply String.eqb_eq in E1. apply negb_true_iff, andb_false_iff. left.
    apply String.eqb_neq. congruence.
Qed.

Lemma rowsIn_attempt_subscriptions (w : World) (uid table : string) (k : nat) (db : Db) :
  rowsIn table uid (attempt w uid k (deleteSubscriptions uid) db) = rowsIn table uid db.
Proof. unfold attempt. now destruct (deleteErrorAt w uid k). Qed.

Lemma subscriptionsOf_attempt (w : World) (uid table : string) (k : nat) (db : Db) :
  subscriptionsOf uid (attempt w uid k (deleteOwned table uid) db) = subscriptionsOf uid db.
Proof. unfold attempt. now destruct (deleteErrorAt w uid k). Qed.

Lemma subscriptionsOf_deleted (w : World) (uid : string) (k : nat) (db : Db) :
  subscriptionsOf uid (attempt w uid k (deleteSubscriptions uid) db)
  = if deleteErrorAt w uid k then subscriptionsOf uid db else [].
Proof.
  unfold attempt. destruct (deleteErrorAt w uid k); [reflexivity|].
  unfold subscriptionsOf, deleteSubscriptions. cbn [subscriptions].
  apply filter_nil_iff. intros s Hs. apply filter_In in Hs. destruct Hs as [_ Hs].
  now apply negb_true_iff in Hs.
Qed.

(** X8. In the deletion block, when no call throws, each of the eight
    deletions of related rows counts for itself: the rows of the user in a
    table are gone when the deletion in that table gave no error, and are
    all still there when it gave one, since the block does not read the
    answers. The account and the count follow deleteUser alone: with an
    error from it the accounts stay and the deletion is not counted,
    without one no account with that id is left and the deletion is
    counted, also when rows of the user are still there. When no deletion
    gives an error nothing is left of the user in subscriptions and in the
    seven cleared tables. *)
Theorem deletion_block_effect (w : World) (db : Db) (user : AuthUser) :
  deleteThrowsAt w (id user) = None ->
  let after := deletionBlock w db user in
  (forall k table,
      nth_error relatedTables k = Some table -> table <> "subscriptions" ->
      rowsIn table (id user) (fst after)
      = if deleteErrorAt w (id user) k then rowsIn table (id user) db else []) /\
  subscriptionsOf (id user) (fst after)
  = (if deleteErrorAt w (id user) 6 then subscriptionsOf (id user) db else []) /\
  (deleteAuthError w (id user) = true ->
   auth_users (fst after) = auth_users db /\ snd after = false) /\
  (deleteAuthError w (id user) = false ->
   accountsOf (id user) (fst after) = [] /\ snd after = true) /\
  (deletesRows w (id user) ->
   subscriptionsOf (id user) (fst after) = [] /\ clearedRowsOf (id user) (fst after) = []).
Proof.
  intros Hthrow. cbv zeta. unfold deletionBlock. rewrite Hthrow.
  assert (Hrows : forall k table,
             nth_error relatedTables k = Some table -> table <> "subscriptions" ->
             rowsIn table (id user) (run (relatedDeletes w (id user)) db)
             = if deleteErrorAt w (id user) k then rowsIn table (id user) db else []).
  { intros k table Hk Hne. unfold run, relatedDeletes. cbn [fold_left].
    rewrite rowsIn_attempt, rowsIn_attempt_subscriptions, !rowsIn_attempt.
    unfold relatedTables in Hk.
    do 8 (destruct k as [|k];
          [ injection Hk as <-; try congruence;
            cbn [String.eqb Ascii.eqb Bool.eqb andb];
            repeat match goal with
                   | |- context [deleteErrorAt w (id user) ?n] =>
                       destruct (deleteErrorAt w (id user) n); cbn [negb andb]
                   end; reflexivity |]).
    destruct k; discriminate Hk. }
  assert (Hsubs : subscriptionsOf (id user) (run (relatedDeletes w (id user)) db)
                  = if deleteErrorAt w (id user) 6
                    then subscriptionsOf (id user) db else []).
  { unfold run, relatedDeletes. cbn [fold_left].
    rewrite subscriptionsOf_attempt, subscriptionsOf_deleted.
    rewrite !subscriptionsOf_attempt. reflexivity. }
  assert (Hacc : forall d, accountsOf (id user) (deleteUser (id user) d) = []).
  { intros d. unfold accountsOf, deleteUser. cbn [auth_users]. apply filter_nil_iff.
    intros u Hu. apply filter_In in Hu. destruct Hu as [_ Hu].
    now apply negb_true_iff in Hu. }
  assert (Hauth : auth_users (run (relatedDeletes w (id user)) db) = auth_users db).
  { unfold run, relatedDeletes, attempt. cbn [fold_left].
    repeat match goal with
           | |- context [deleteErrorAt w (id user) ?n] =>
               destruct (deleteErrorAt w (id user) n)
           end; reflexivity. }
  destruct (deleteAuthError w (id user)); cbn [fst snd].
  - split; [exact Hrows|]. split; [exact Hsubs|]. split; [auto|].
    split; [discriminate|]. intros Hq.
    destruct (relatedDeletes_effect w (id user) db Hq) as (_ & Hs & Hc). auto.
  - split; [exact Hrows|]. split; [exact Hsubs|]. split; [discriminate|].
    split; [intros _; split; [apply Hacc | reflexivity]|].
    intros Hq. destruct (relatedDeletes_effect w (id user) db Hq) as (_ & Hs & Hc). auto.
Qed.

Lemma deletion_block_effect_witness :
  let after := deletionBlock refused store bia in
  deleteThrowsAt refused (id bia) = None /\
  rowsIn "plan_progress" "u2" (fst after) = [("plan_progress", "u2")] /\
  rowsIn "profiles" "u2" (fst after) = [] /\
  accountsOf "u2" (fst after) = [] /\
  snd after = true.
Proof.
  intros after.
  destruct (deletion_block_effect refused store bia eq_refl) as (H1 & _ & _ & H4 & _).
  split; [reflexivity|].
  split; [exact (H1 5%nat "plan_progress" eq_refl ltac:(discriminate))|].
  split; [exact (H1 7%nat "profiles" eq_refl ltac:(discriminate))|].
  exact (H4 eq_refl).
Defined.

Lemma deletionBlock_gone (w : World) (db : Db) (user : AuthUser) :
  deleteThrowsAt w (id user) = None -> deleteAuthError w (id user) = false ->
  deletesRows w (id user) ->
  gone (id user) (fst (deletionBlock w db user)) /\ snd (deletionBlock w db user) = true.
Proof.
  intros Ht He Hq. unfold deletionBlock. rewrite Ht, He. cbn [fst snd].
  destruct (relatedDeletes_effect w (id user) db Hq) as (Ha & Hs & Hc).
  split; [|reflexivity]. split; [| split].
  - unfold accountsOf, deleteUser. cbn [auth_users]. apply filter_nil_iff.
    intros u Hu. apply filter_In in Hu. destruct Hu as [_ Hu].
    now apply negb_true_iff in Hu.
  - exact Hs.
  - exact Hc.
Qed.

Lemma unpaid_reaches (w : World) (db db' : Db) (now : Z) (user : AuthUser) :
  within db' db -> paidRows db (id user) = [] ->
  activeQueryError w (id user) = None -> anyQueryError w (id user) = None ->
  reachesDeletion w db' now user = true.
Proof.
  intros (_ & Ws & _) Hpaid Ha Hb.
  assert (Hp : paidRows db' (id user) = []).
  { unfold paidRows in *. apply filter_nil_iff. intros s Hs.
    apply (proj1 (filter_nil_iff _ _) Hpaid). auto. }
  pose proof (activeRows_among_paidRows db' (id user) now) as Hle.
  rewrite Hp in Hle. cbn [List.length] in Hle.
  unfold reachesDeletion, maybeSingle. rewrite Ha, Hb, Hp.
  destruct (activeRows db' (id user) now) as [|a l]; [reflexivity|].
  cbn [List.length] in Hle. lia.
Qed.

Lemma deleted_fold (w : World) (now : Z) (db : Db) (user : AuthUser) :
  paidRows db (id user) = [] ->
  activeQueryError w (id user) = None -> anyQueryError w (id user) = None ->
  deleteThrowsAt w (id user) = None -> deleteAuthError w (id user) = false ->
  deletesRows w (id user) ->
  forall users st,
    within (db_of st) db -> In user users ->
    In user (reached (fold_left (loopBody w now) users st)) /\
    gone (id user) (db_of (fold_left (loopBody w now) users st)).
Proof.
  intros Hpaid Ha Hb Ht He Hq.
  induction users as [|u users IH]; intros st Hw Hin; [destruct Hin|].
  cbn [fold_left]. destruct Hin as [->|Hin].
  - destruct (loopBody_cases w now st user) as [[D _]|(_ & R & E & _)].
    + rewrite (unpaid_reaches w db (db_of st) now user Hw Hpaid Ha Hb) in D. discriminate.
    + split.
      * apply reached_grows. rewrite R. apply in_or_app. right. now left.
      * apply (gone_within (id user) _ (db_of (loopBody w now st user))).
        -- apply checkUsers_within.
        -- rewrite E. now apply deletionBlock_gone.
  - apply IH; [| exact Hin].
    eapply within_trans; [apply (checkUsers_within w now [u] st) | exact Hw].
Qed.

(** X9. An account created more than 48 hours before the run, for which
    the store holds no subscription row of a paying status, is deleted when
    no call fails for it, by throwing or by answering with an error: the
    user reaches the deletion block, and after
    the run no account with that id, no subscription and no row in a
    cleared table is left of it. This holds on the direct path for a user
    the queried relation lists, and on the page path for a user of the
    auth store when no page fails. *)
Theorem unpaid_old_account_is_deleted (w : World) (method : string) (now : Z) (db : Db)
        (user : AuthUser) :
  method <> "OPTIONS" ->
  match directTable w with
  | Some table => In user table
  | None => In user (auth_users db) /\ forall page, listUsersError w page = false
  end ->
  created_at user < now - 48 * 60 * 60 * 1000 ->
  paidRows db (id user) = [] ->
  activeQueryError w (id user) = None -> anyQueryError w (id user) = None ->
  deleteThrowsAt w (id user) = None -> deleteAuthError w (id user) = false ->
  deletesRows w (id user) ->
  In user (reached (snd (handler w method now db))) /\
  gone (id user) (db_of (snd (handler w method now db))).
Proof.
  intros Hm Hlisted Hold Hpaid Ha Hb Ht He Hq.
  unfold handler. apply String.eqb_neq in Hm. rewrite Hm.
  assert (Hf : (created_at user <? limitDate now) = true)
    by (apply Z.ltb_lt; unfold limitDate; lia).
  assert (Hu : exists users total,
             usersToCheck w db now = Some (users, total) /\ In user users).
  { unfold usersToCheck. destruct (directTable w) as [table|].
    - eexists. eexists. split; [reflexivity|].
      unfold directQuery. apply filter_In. auto.
    - destruct Hlisted as [Hin Hok].
      destruct (CleanupFacts.fetchPages_total w (auth_users db)) as [[_ [page H]]|H].
      + rewrite Hok in H. discriminate.
      + rewrite H. eexists. eexists. split; [reflexivity|].
        unfold filteredUsers. apply filter_In. auto. }
  destruct Hu as (users & total & -> & Hin). cbn [snd]. unfold checkUsers.
  apply (deleted_fold w now db user Hpaid Ha Hb Ht He Hq users (mkLoop db 0 []));
    [apply within_refl | exact Hin].
Qed.

Lemma unpaid_old_account_is_deleted_witness :
  In caio (reached (snd (handler quiet "POST" (10 * msDay) store))) /\
  gone "u3" (db_of (snd (handler quiet "POST" (10 * msDay) store))).
Proof.
  apply (unpaid_old_account_is_deleted quiet "POST" (10 * msDay) store caio).
  - discriminate.
  - split; [cbn; tauto | reflexivity].
  - vm_compute. reflexivity.
  - reflexivity.
  - reflexivity.
  - reflexivity.
  - reflexivity.
  - reflexivity.
  - intros k. reflexivity.
Defined.

End CleanupViewFacts.

Module PlanMoreFacts.
Import Js Plan Scenarios.

Example fallback_without_days :
  option_map (fun plan => List.length (exercises plan))
    (createFallbackPlan (Some (mkProfile None None None None None None (Some 0)
                                         None None None)))
  = Some 144%nat.
Proof. vm_compute. reflexivity. Qed.



(** The prescription of an entry: a warm-up, or a main exercise of the
    first four weeks, or one of the later weeks. *)
Lemma workout_prescriptions (difficultyLevel goalDesc : string) (week day : nat) :
  Forall (fun e =>
            (sets e = 1 /\ reps e = "8-10 minutos" /\ rest e = "N/A") \/
            (2 <= sets e <= 4 /\ reps e = "8-10" /\ rest e = "60-90s" /\ (week <= 4)%nat) \/
            (3 <= sets e <= 5 /\ reps e = "10-15" /\ rest e = "60-90s" /\ (4 < week)%nat))
         (workout difficultyLevel goalDesc week day).
Proof.
  destruct (PlanFacts.workout_shape difficultyLevel goalDesc week day)
    as (e1 & e2 & e3 & _ & E).
  rewrite E. unfold warmup, mainExercise. cbv zeta.
  destruct (Nat.leb_spec week 4) as [Hw|Hw];
    (constructor; [left; cbn [sets reps rest]; auto|]);
    do 3 (constructor;
          [right; cbn [sets reps rest];
           first [ left; repeat split; (reflexivity || lia)
                 | right; repeat split; (reflexivity || lia) ] |]);
    constructor.
Qed.

(** X11. Every entry of every plan createFallbackPlan returns is a
    warm-up with 1 set of 8-10 minutes, or a main exercise with 2 to 4 sets
    of 8-10 repetitions, or a main exercise with 3 to 5 sets of 10-15
    repetitions; so the number of sets always lies between 1 and 5. *)
Theorem fallback_prescriptions (userProfile : option UserProfile) (plan : WorkoutPlan) :
  createFallbackPlan userProfile = Some plan ->
  Forall (fun e =>
            1 <= sets e <= 5 /\
            ((sets e = 1 /\ reps e = "8-10 minutos" /\ rest e = "N/A") \/
             (2 <= sets e <= 4 /\ reps e = "8-10" /\ rest e = "60-90s") \/
             (3 <= sets e <= 5 /\ reps e = "10-15" /\ rest e = "60-90s")))
         (exercises plan).
Proof.
  intros H.
  destruct (PlanFacts.createFallbackPlan_cases userProfile)
    as [[E _]|(goalDesc & _ & _ & E)]; rewrite E in H; [discriminate|].
  injection H as <-. cbn [planOf exercises]. unfold allExercises.
  apply List.Forall_flat_map, List.Forall_forall. intros week _.
  unfold weekExercises. apply List.Forall_flat_map, List.Forall_forall. intros day _.
  eapply List.Forall_impl; [| apply workout_prescriptions].
  cbv beta. intros e [H|[H|H]]; split; (lia || tauto).
Qed.

Lemma fallback_prescriptions_witness :
  exists plan,
    createFallbackPlan (Some profile) = Some plan /\
    Forall (fun e => 1 <= sets e <= 5) (exercises plan).
Proof.
  eexists. split; [reflexivity|].
  eapply List.Forall_impl; [| exact (fallback_prescriptions (Some profile) _ eq_refl)].
  cbv beta. intros e H. exact (proj1 H).
Defined.

(** X12. mapFitnessLevelToDifficulty always returns one of the three valid
    levels and maps each of them to itself, so applying it twice changes
    nothing; a missing level gives iniciante. *)
Theorem difficulty_is_valid_and_stable (fitnessLevel : option string) :
  In (mapFitnessLevelToDifficulty fitnessLevel) Generate.validLevels /\
  mapFitnessLevelToDifficulty (Some (mapFitnessLevelToDifficulty fitnessLevel))
  = mapFitnessLevelToDifficulty fitnessLevel /\
  (forall lvl, In lvl Generate.validLevels -> mapFitnessLevelToDifficulty (Some lvl) = lvl) /\
  mapFitnessLevelToDifficulty None = "iniciante".
Proof.
  assert (Hfix : forall lvl, In lvl Generate.validLevels ->
                             mapFitnessLevelToDifficulty (Some lvl) = lvl).
  { intros lvl [<-|[<-|[<-|[]]]]; reflexivity. }
  split; [apply PlanFacts.mapFitnessLevelToDifficulty_valid|].
  split; [apply Hfix, PlanFacts.mapFitnessLevelToDifficulty_valid|].
  split; [exact Hfix | reflexivity].
Qed.

Lemma difficulty_is_valid_and_stable_witness :
  In "avancado" Generate.validLevels /\ mapFitnessLevelToDifficulty (Some "avancado") = "avancado".
Proof.
  assert (H : In "avancado" Generate.validLevels) by (cbn; tauto).
  split; [exact H|].
  exact (proj1 (proj2 (proj2 (difficulty_is_valid_and_stable None))) "avancado" H).
Defined.

End PlanMoreFacts.

Module GenerateMoreFacts.
Import Js Plan Generate Scenarios.

Lemma includesLevel_truthy (v : option JValue) :
  includesLevel v = true -> truthy_opt v = true.
Proof.
  intros H. destruct (GenerateFacts.includesLevel_valid v H) as (lvl & -> & Hin).
  destruct Hin as [<-|[<-|[<-|[]]]]; reflexivity.
Qed.

(** X13. A parsed answer that the endpoint accepts is an object, and the
    plan sent back is that object with source set to groq_api and
    generated_for set to the record of the request; every other key keeps
    its value, title and exercises among them, and difficulty_level is kept
    when it is one of the three valid levels and replaced by the level
    mapped from the profile otherwise. *)
Theorem accepted_plan_fields (p : UserProfile) (parsed plan : JValue) :
  acceptPlan p parsed = Some plan ->
  exists fields fields',
    parsed = JObject fields /\ plan = JObject fields' /\
    lookup "source" fields' = Some (JString "groq_api") /\
    lookup "generated_for" fields' = Some (generatedFor p) /\
    (forall k, k <> "difficulty_level" -> k <> "source" -> k <> "generated_for" ->
               lookup k fields' = lookup k fields) /\
    (includesLevel (lookup "difficulty_level" fields) = true ->
     lookup "difficulty_level" fields' = lookup "difficulty_level" fields) /\
    (includesLevel (lookup "difficulty_level" fields) = false ->
     lookup "difficulty_level" fields'
     = Some (JString (mapFitnessLevelToDifficulty (fitness_level p)))).
Proof.
  unfold acceptPlan. destruct parsed as [| | | | |fields]; try discriminate.
  match goal with
  | |- context [if ?c then ?a else fields] =>
      set (fix_level := c); set (fields1 := if fix_level then a else fields)
  end.
  match goal with
  | |- (if ?c then None else _) = _ -> _ => destruct c; [discriminate|]
  end.
  intros [= <-].
  eexists. eexists. split; [reflexivity|]. split; [reflexivity|].
  split; [| split; [| split; [| split]]].
  - rewrite GenerateFacts.lookup_set_ne by discriminate.
    apply GenerateFacts.lookup_set_eq.
  - apply GenerateFacts.lookup_set_eq.
  - intros k H1 H2 H3. rewrite !GenerateFacts.lookup_set_ne by assumption.
    subst fields1. destruct fix_level; [|reflexivity].
    now rewrite GenerateFacts.lookup_set_ne.
  - intros Hv. rewrite !GenerateFacts.lookup_set_ne by discriminate.
    subst fields1 fix_level. rewrite Hv, (includesLevel_truthy _ Hv). reflexivity.
  - intros Hv. rewrite !GenerateFacts.lookup_set_ne by discriminate.
    subst fields1 fix_level. rewrite Hv, orb_true_r.
    apply GenerateFacts.lookup_set_eq.
Qed.

Lemma accepted_plan_fields_witness :
  exists fields fields',
    eightWeeks = JObject fields /\
    acceptPlan profile eightWeeks = Some (JObject fields') /\
    lookup "source" fields' = Some (JString "groq_api") /\
    lookup "title" fields' = lookup "title" fields.
Proof.
  assert (E : acceptPlan profile eightWeeks
              = Some (JObject
                        (set "generated_for" (generatedFor profile)
                           (set "source" (JString "groq_api")
                              [("title", JString "Plano de 8 semanas");
                               ("difficulty_level", JString "intermediario");
                               ("duration_weeks", JNumber 8);
                               ("exercises", JArray [])]))))
    by reflexivity.
  destruct (accepted_plan_fields profile eightWeeks _ E)
    as (fields & fields' & H1 & H2 & H3 & _ & H5 & _).
  exists fields, fields'. split; [exact H1|]. split; [rewrite E, H2; reflexivity|].
  split; [exact H3|]. apply H5; discriminate.
Defined.

Lemma fallback_source (userProfile : option UserProfile) :
  exists plan,
    body (fallback userProfile) = Some plan /\
    get plan "source" = Some (JString "fallback").
Proof.
  destruct (GenerateFacts.fallback_plan userProfile) as (plan & -> & H).
  exists (planJson plan). split; [reflexivity|].
  assert (Hs : exists up, createFallbackPlan up = Some plan)
    by (destruct H as [H|[_ H]]; eauto).
  destruct Hs as (up & Hup).
  destruct (PlanFacts.createFallbackPlan_cases up)
    as [[E _]|(goalDesc & _ & _ & E)]; rewrite E in Hup; [discriminate|].
  injection Hup as <-. reflexivity.
Qed.

(** X14. Every answer to a request other than a preflight tells where its
    plan comes from: source is fallback or groq_api; and it is groq_api only
    when the request carried a profile, the key is set, and the service
    answered with text that parsed to an object with a title and an array
    of exercises. *)
Theorem answer_source (parseCleaned : string -> option JValue) (req : Request)
        (groqApiKey : option string) (groq : Groq) :
  method req <> "OPTIONS" ->
  exists plan,
    body (handler parseCleaned req groqApiKey groq) = Some plan /\
    (get plan "source" = Some (JString "fallback") \/
     (get plan "source" = Some (JString "groq_api") /\
      unavailable parseCleaned groqApiKey groq = false /\
      (exists p, json req = Some (Some p)) /\
      exists data content parsed,
        groq = OkData data /\ contentOf data = JString content /\
        parseCleaned content = Some parsed /\ lacksShape parsed = false)).
Proof.
  intros Hm. unfold handler, unavailable.
  assert (Hc : catchAll = fallback None).
  { unfold fallback, catchAll. now rewrite PlanFacts.createFallbackPlan_null. }
  rewrite !Hc. rewrite (GenerateFacts.not_preflight _ Hm).
  assert (F : forall up, exists plan,
               body (fallback up) = Some plan /\
               (get plan "source" = Some (JString "fallback") \/
                (get plan "source" = Some (JString "groq_api") /\
                 (keyMissing groqApiKey
                  || match groq with
                     | NotOk _ errorText =>
                         match errorText with Some _ => true | None => false end
                     | OkData JNull => false
                     | OkData data =>
                         match contentOf data with
                         | JString content =>
                             blank content
                             || match parseCleaned content with
                                | None => true
                                | Some parsed => lacksShape parsed
                                end
                         | _ => false
                         end
                     | FetchRejects | OkUnreadable => false
                     end) = false /\
                 (exists p, json req = Some (Some p)) /\
                 exists data content parsed,
                   groq = OkData data /\ contentOf data = JString content /\
                   parseCleaned content = Some parsed /\ lacksShape parsed = false))).
  { intros up. destruct (fallback_source up) as (plan & B & S).
    exists plan. split; [exact B|]. now left. }
  destruct (json req) as [[p|]|]; [| destruct (keyMissing groqApiKey); apply F | apply F].
  destruct (keyMissing groqApiKey); [apply F|]. cbn [orb].
  destruct groq as [|code [errorText|]| |data]; try apply F.
  destruct data; try apply F;
    (destruct (contentOf _) as [| | |content| |] eqn:C; try apply F;
     destruct (blank content); [apply F|]; cbn [orb];
     destruct (parseCleaned content) as [parsed|] eqn:P; [|apply F];
     destruct (acceptPlan p parsed) as [plan|] eqn:A; [|apply F];
     exists plan; split; [reflexivity|]; right;
     destruct (accepted_plan_fields p parsed plan A)
       as (fs & fs' & _ & -> & S & _);
     assert (L : lacksShape parsed = false)
       by (destruct (lacksShape parsed) eqn:L; [|reflexivity];
           rewrite (GenerateFacts.acceptPlan_lacksShape p parsed L) in A; discriminate);
     split; [exact S|]; split; [exact L|]; split; [eauto|];
     eexists; eexists; eexists; repeat split; eauto).
Qed.

Lemma answer_source_witness :
  let req := mkRequest "POST" (Some (Some profile)) in
  method req <> "OPTIONS" /\
  exists plan,
    body (handler readsEightWeeks req (Some "gsk_1") (OkData (completion "{...}")))
    = Some plan /\
    get plan "source" = Some (JString "groq_api").
Proof.
  intros req. assert (Hm : method req <> "OPTIONS") by discriminate.
  split; [exact Hm|].
  destruct (answer_source readsEightWeeks req (Some "gsk_1")
              (OkData (completion "{...}")) Hm) as (plan & B & S).
  exists plan. split; [exact B|].
  destruct S as [S|[S _]]; [| exact S].
  exfalso. revert B S. vm_compute. intros [= <-]. discriminate.
Defined.

End GenerateMoreFacts.

Module FrontendMoreFacts.
Import Js Scenarios FrontendView.

Lemma or_else_truthy (a : option JValue) (d : JValue) :
  truthy d = true -> truthy (or_else a d) = true.
Proof.
  intros Hd. unfold or_else. destruct a as [x|]; [|exact Hd].
  destruct (truthy x) eqn:E; [exact E | exact Hd].
Qed.

Lemma or_else_keeps (x d : JValue) : truthy x = true -> or_else (Some x) d = x.
Proof. intros H. unfold or_else. now rewrite H. Qed.

(** X15. Each field of the plan the frontend builds is taken from the
    answer: title, description, difficulty_level, duration_weeks, exercises
    and nutrition_tips hold the value the answer has under that key when
    that value is truthy, and their default otherwise (in turn Plano de
    Treino Personalizado, Plano gerado com base no seu perfil, iniciante, 8,
    the empty list and the empty list), so none of them is falsy. A plan is
    built exactly when the call reports no error and the answer is an
    object with a truthy title or truthy exercises. *)
Theorem built_plan_has_no_gap (data : option JValue) (functionError : bool) :
  (forall plan,
      Frontend.buildPlan data functionError = Some plan ->
      exists fields,
        data = Some (JObject fields) /\
        takenFrom fields "title" (JString "Plano de Treino Personalizado")
                  (Frontend.title plan) /\
        takenFrom fields "description" (JString "Plano gerado com base no seu perfil")
                  (Frontend.description plan) /\
        takenFrom fields "difficulty_level" (JString "iniciante")
                  (Frontend.difficulty_level plan) /\
        takenFrom fields "duration_weeks" (JNumber 8) (Frontend.duration_weeks plan) /\
        takenFrom fields "exercises" (JArray []) (Frontend.exercises plan) /\
        takenFrom fields "nutrition_tips" (JArray []) (Frontend.nutrition_tips plan) /\
        truthy (Frontend.title plan) = true /\
        truthy (Frontend.description plan) = true /\
        truthy (Frontend.difficulty_level plan) = true /\
        truthy (Frontend.duration_weeks plan) = true /\
        truthy (Frontend.exercises plan) = true /\
        truthy (Frontend.nutrition_tips plan) = true) /\
  ((exists plan, Frontend.buildPlan data functionError = Some plan) <->
   functionError = false /\
   exists fields, data = Some (JObject fields) /\
                  (truthy_opt (lookup "title" fields) = true \/
                   truthy_opt (lookup "exercises" fields) = true)).
Proof.
  assert (T : forall fields k d, takenFrom fields k d (or_else (lookup k fields) d)).
  { intros fields k d. unfold takenFrom, or_else, truthy_opt.
    destruct (lookup k fields) as [x|].
    - destruct (truthy x) eqn:E; split; try discriminate; try reflexivity.
      + intros y [= <-] _. reflexivity.
      + intros y [= <-] H. congruence.
    - split; [discriminate | reflexivity]. }
  unfold Frontend.buildPlan. split.
  - intros plan. destruct functionError; [discriminate|].
    destruct data as [[| | | | |fields]|]; try discriminate.
    destruct (negb (truthy_opt (lookup "title" fields))
              && negb (truthy_opt (lookup "exercises" fields))); [discriminate|].
    intros [= <-]. exists fields. split; [reflexivity|].
    cbn [Frontend.title Frontend.description Frontend.difficulty_level
         Frontend.duration_weeks Frontend.exercises Frontend.nutrition_tips].
    do 6 (split; [apply T|]).
    repeat split; apply or_else_truthy; reflexivity.
  - split.
    + intros (plan & H). destruct functionError; [discriminate|].
      split; [reflexivity|].
      destruct data as [[| | | | |fields]|]; try discriminate.
      exists fields. split; [reflexivity|].
      destruct (negb (truthy_opt (lookup "title" fields))
                && negb (truthy_opt (lookup "exercises" fields))) eqn:G; [discriminate|].
      apply andb_false_iff in G. destruct G as [G|G]; apply negb_false_iff in G; auto.
    + intros (-> & fields & -> & G).
      assert (G' : negb (truthy_opt (lookup "title" fields))
                   && negb (truthy_opt (lookup "exercises" fields)) = false)
        by (destruct G as [G|G]; rewrite G; cbn; [reflexivity | apply andb_false_r]).
      rewrite G'. eauto.
Qed.

Lemma built_plan_has_no_gap_witness :
  exists plan,
    Frontend.buildPlan (Some eightWeeks) false = Some plan /\
    Frontend.title plan = JString "Plano de 8 semanas" /\
    Frontend.duration_weeks plan = JNumber 8 /\
    Frontend.nutrition_tips plan = JArray [].
Proof.
  eexists. split; [reflexivity|].
  destruct (proj1 (built_plan_has_no_gap (Some eightWeeks) false) _ eq_refl)
    as (fields & E & Ht & _ & _ & Hd & _ & Hn & _).
  injection E as <-.
  split; [exact (proj1 Ht _ eq_refl eq_refl)|].
  split; [exact (proj1 Hd _ eq_refl eq_refl) | exact (proj2 Hn eq_refl)].
Defined.

(** X16. The frontend never rejects what the endpoint answers to a request
    other than a preflight: when the save succeeds, the plan it shows has
    the difficulty_level of the answer, one of the three valid levels, and
    the array of exercises of the answer. The empty answer to a preflight
    gives no plan. *)
Theorem frontend_accepts_answer (parseCleaned : string -> option JValue)
        (req : Generate.Request) (groqApiKey : option string) (groq : Generate.Groq) :
  (Generate.method req <> "OPTIONS" ->
   exists body plan lvl items,
     Generate.body (Generate.handler parseCleaned req groqApiKey groq) = Some body /\
     Frontend.generateWorkoutPlan (Generate.handler parseCleaned req groqApiKey groq) true
     = Some plan /\
     get body "difficulty_level" = Some (JString lvl) /\
     Frontend.difficulty_level plan = JString lvl /\ In lvl Generate.validLevels /\
     get body "exercises" = Some (JArray items) /\
     Frontend.exercises plan = JArray items) /\
  (Generate.method req = "OPTIONS" ->
   forall saved,
     Frontend.generateWorkoutPlan (Generate.handler parseCleaned req groqApiKey groq) saved
     = None).
Proof.
  split.
  - intros Hm.
    assert (H : exists body lvl items,
               Generate.handler parseCleaned req groqApiKey groq = Generate.jsonResponse body /\
               get body "difficulty_level" = Some (JString lvl) /\
               In lvl Generate.validLevels /\
               get body "exercises" = Some (JArray items)).
    { destruct (GenerateFacts.handler_cases parseCleaned req groqApiKey groq Hm)
        as [(up & E) | (p & parsed & plan & A & E)]; rewrite E.
      - destruct (GenerateFacts.fallback_plan up) as (fallbackPlan & -> & H).
        assert (Hs : exists up', Plan.createFallbackPlan up' = Some fallbackPlan)
          by (destruct H as [H|[_ H]]; eauto).
        destruct Hs as (up' & Hup).
        destruct (GenerateFacts.returned_plan_shape up' fallbackPlan Hup)
          as (lvl & items & H1 & H2 & H3).
        exists (Plan.planJson fallbackPlan), lvl, items. auto.
      - destruct (GenerateFacts.acceptPlan_shape p parsed plan A)
          as (lvl & items & H1 & H2 & H3).
        exists plan, lvl, items. auto. }
    destruct H as (body & lvl & items & -> & Hl & Hin & He).
    destruct body as [| | | | |fields]; try discriminate.
    cbn [get] in Hl, He.
    assert (Hlt : truthy (JString lvl) = true)
      by (destruct Hin as [<-|[<-|[<-|[]]]]; reflexivity).
    exists (JObject fields). eexists. exists lvl, items.
    split; [reflexivity|]. split.
    + unfold Frontend.generateWorkoutPlan, Frontend.invoke, Generate.jsonResponse.
      cbn [Generate.status Generate.body Z.leb Z.ltb Z.compare Pos.compare
           Pos.compare_cont andb].
      unfold Frontend.buildPlan. rewrite He. cbn [truthy_opt truthy negb andb].
      rewrite andb_false_r. reflexivity.
    + cbn [get Frontend.difficulty_level Frontend.exercises].
      rewrite Hl, He. rewrite (or_else_keeps _ _ Hlt).
      repeat split; auto.
  - intros Hm saved. unfold Generate.handler. rewrite Hm. reflexivity.
Qed.

Lemma frontend_accepts_answer_witness :
  let req := Generate.mkRequest "POST" (Some (Some profile)) in
  Generate.method req <> "OPTIONS" /\
  exists plan,
    Frontend.generateWorkoutPlan
      (Generate.handler readsEightWeeks req None Generate.FetchRejects) true = Some plan /\
    Frontend.difficulty_level plan = JString "intermediario".
Proof.
  intros req. assert (Hm : Generate.method req <> "OPTIONS") by discriminate.
  split; [exact Hm|].
  destruct (proj1 (frontend_accepts_answer readsEightWeeks req None Generate.FetchRejects) Hm)
    as (body & plan & lvl & items & B & G & L & D & _).
  exists plan. split; [exact G|]. rewrite D. f_equal.
  revert B L. cbn. intros [= <-]. cbn. intros [= <-]. reflexivity.
Defined.

End FrontendMoreFacts.

Module FormFacts.
Import Js JsText Form.

Example parseInt_samples :
  map parseInt [" 42px"; "0x1A"; "-7"; ""; "abc"; "1e3"; "12.5"; "0x"; "-0"]
  = [Num 42; Num 26; Num (-7); NaN; NaN; Num 1; Num 12; NaN; Num 0].
Proof. vm_compute. reflexivity. Qed.

(** Beyond 2^53 the digits are rounded, to the even neighbour halfway, and
    309 digits 9 are beyond every double. *)
Example parseInt_rounds :
  map parseInt ["9007199254740992"; "9007199254740993"; "9007199254740995";
                "-9007199254740995"; nines 309; "-" +:+ nines 309]
  = [Num 9007199254740992; Num 9007199254740992; Num 9007199254740996;
     Num (-9007199254740996); Infinity false; Infinity true] /\
  (exists z, parseInt (nines 308) = Num z /\ z <> 10 ^ 308 - 1).
Proof.
  split; [vm_compute; reflexivity|].
  eexists. split; [vm_compute; reflexivity | vm_compute; discriminate].
Qed.

(** An integer below 2^53 in size is a double. *)
Lemma toNumber_exact (x : Z) : Z.abs x < 2 ^ 53 -> toNumber x = Num x.
Proof.
  intros H. unfold toNumber.
  assert (L : Z.log2 (Z.abs x) - 52 <= 0).
  { destruct (Z.eq_dec (Z.abs x) 0) as [E|E]; [rewrite E; cbn; lia|].
    assert (Z.log2 (Z.abs x) < 53) by (apply Z.log2_lt_pow2; lia). lia. }
  destruct (Z.leb_spec (Z.log2 (Z.abs x) - 52) 0); [reflexivity | lia].
Qed.

(** The double nearest to an integer, in units of 2^shift. *)
Lemma rounded_bounds (m : Z) :
  52 < Z.log2 m ->
  let ulp := 2 ^ (Z.log2 m - 52) in
  let q := m / ulp in
  let q' := if (ulp <? 2 * (m mod ulp)) || ((2 * (m mod ulp) =? ulp) && Z.odd q)
            then q + 1 else q in
  2 ^ Z.log2 m <= q' * ulp <= 2 ^ (Z.log2 m + 1).
Proof.
  intros He ulp q q'.
  assert (Hm : 0 < m) by (destruct m; try lia; cbn in He; lia).
  destruct (Z.log2_spec m Hm) as [Lo Hi].
  assert (Hu : 0 < ulp) by (apply Z.pow_pos_nonneg; lia).
  assert (E1 : 2 ^ Z.log2 m = 2 ^ 52 * ulp).
  { unfold ulp. rewrite <- Z.pow_add_r by lia. f_equal. lia. }
  assert (E2 : 2 ^ (Z.log2 m + 1) = 2 ^ 53 * ulp).
  { unfold ulp. rewrite <- Z.pow_add_r by lia. f_equal. lia. }
  rewrite <- Z.add_1_r in Hi.
  assert (Q1 : 2 ^ 52 <= q).
  { apply Z.div_le_lower_bound; [exact Hu|]. rewrite Z.mul_comm, <- E1. exact Lo. }
  assert (Q2 : q < 2 ^ 53).
  { apply Z.div_lt_upper_bound; [exact Hu|]. rewrite Z.mul_comm, <- E2. exact Hi. }
  assert (Q3 : q <= q' <= q + 1) by (unfold q'; destruct (_ || _); lia).
  rewrite E1, E2. split; apply Z.mul_le_mono_nonneg_r; lia.
Qed.

(** An integer of 2^1024 or more in size is beyond every double. *)
Lemma toNumber_infinite (x : Z) :
  2 ^ 1024 <= Z.abs x -> toNumber x = Infinity (x <? 0).
Proof.
  intros H.
  assert (Hm : 0 < Z.abs x) by (assert (0 < 2 ^ 1024) by (apply Z.pow_pos_nonneg; lia); lia).
  assert (He : 1024 <= Z.log2 (Z.abs x)) by (apply Z.log2_le_pow2; assumption).
  assert (B := rounded_bounds (Z.abs x)). cbv zeta in B.
  unfold toNumber.
  destruct (Z.leb_spec (Z.log2 (Z.abs x) - 52) 0); [lia|].
  specialize (B ltac:(lia)).
  assert (P : 2 ^ 1024 <= 2 ^ Z.log2 (Z.abs x)) by (apply Z.pow_le_mono_r; lia).
  match goal with |- (if ?c then _ else _) = _ => destruct c eqn:C end; [reflexivity|].
  apply Z.leb_gt in C. exfalso. apply (Z.lt_irrefl (2 ^ 1024)).
  eapply Z.le_lt_trans; [| exact C]. eapply Z.le_trans; [exact P | exact (proj1 B)].
Qed.

(** An integer below 2^1023 in size rounds to a double. *)
Lemma toNumber_finite (x : Z) :
  Z.abs x < 2 ^ 1023 -> exists z, toNumber x = Num z.
Proof.
  intros H.
  assert (B := rounded_bounds (Z.abs x)). cbv zeta in B.
  unfold toNumber.
  destruct (Z.leb_spec (Z.log2 (Z.abs x) - 52) 0); [eauto|].
  specialize (B ltac:(lia)).
  assert (Hm : 0 < Z.abs x) by (destruct (Z.abs x) eqn:E; try lia; cbn in *; lia).
  assert (He : Z.log2 (Z.abs x) < 1023) by (apply Z.log2_lt_pow2; assumption).
  assert (P : 2 ^ (Z.log2 (Z.abs x) + 1) <= 2 ^ 1023) by (apply Z.pow_le_mono_r; lia).
  assert (P' : 2 ^ 1023 < 2 ^ 1024) by (apply Z.pow_lt_mono_r; lia).
  match goal with |- exists z, (if ?c then _ else _) = _ => destruct c eqn:C end; [|eauto].
  apply Z.leb_le in C. exfalso. apply (Z.lt_irrefl (2 ^ 1024)).
  eapply Z.le_lt_trans; [exact C|]. eapply Z.le_lt_trans; [exact (proj2 B)|].
  eapply Z.le_lt_trans; [exact P | exact P'].
Qed.

Lemma parseInt_NaN (s : string) : parseInt s = NaN <-> mathInt s = None.
Proof.
  unfold parseInt. destruct (mathInt s) as [x|]; [|tauto].
  split; [|discriminate]. unfold toNumber.
  destruct (_ <=? _); [discriminate|]. destruct (_ <=? _); discriminate.
Qed.

(** What the endpoint reads of a number [parseInt] found. *)
Lemma parseInt_sentAs (s : string) : parseInt s <> NaN -> sentAs s (inBody (parseInt s)).
Proof.
  intros H. unfold sentAs, parseInt in *. destruct (mathInt s) as [v|]; [|congruence].
  exists v. split; [reflexivity|]. split; [| split].
  - intros Hv. now rewrite toNumber_exact.
  - intros Hv. destruct (toNumber_finite v Hv) as (z & ->). now exists z.
  - intros Hv. now rewrite toNumber_infinite.
Qed.

(** [parseInt(s) || d] is never 0, and is beyond the doubles only for an
    integer of 2^1023 or more. *)
Lemma parseIntOr_sent (s : string) (d : Z) :
  d <> 0 ->
  inBody (parseIntOr s d) <> Some 0 /\
  (inBody (parseIntOr s d) = None ->
   exists v, mathInt s = Some v /\ 2 ^ 1023 <= Z.abs v).
Proof.
  intros Hd. unfold parseIntOr, parseInt.
  destruct (mathInt s) as [v|]; [| split; [cbn; congruence | discriminate]].
  destruct (toNumber v) as [|z|negative] eqn:E.
  - split; [cbn; congruence | discriminate].
  - destruct (Z.eqb_spec z 0); split; cbn; try congruence; discriminate.
  - split; [discriminate|]. intros _. exists v. split; [reflexivity|].
    destruct (Z.le_gt_cases (2 ^ 1023) (Z.abs v)) as [?|Hlt]; [assumption|].
    destruct (toNumber_finite v Hlt) as (z & Hz). congruence.
Qed.

Example trim_samples : map trim ["  a b  "; "   "; "x"] = ["a b"; ""; "x"].
Proof. vm_compute. reflexivity. Qed.

Lemma includes_In (g : string) (gs : list string) : includes g gs = true <-> In g gs.
Proof.
  unfold includes. rewrite existsb_exists. split.
  - intros (x & Hx & E). apply String.eqb_eq in E. now subst.
  - intros H. exists g. split; [exact H | apply String.eqb_refl].
Qed.

Lemma without_In (goal g : string) (gs : list string) :
  In g (without goal gs) <-> In g gs /\ g <> goal.
Proof.
  unfold without. rewrite filter_In, negb_true_iff, String.eqb_neq. tauto.
Qed.

Lemma without_absent (goal : string) (gs : list string) :
  ~ In goal gs -> without goal gs = gs.
Proof.
  intros H. unfold without. induction gs as [|g gs IH]; [reflexivity|].
  cbn [List.filter]. cbn [In] in H.
  destruct (String.eqb_spec g goal) as [->|Hne]; [tauto|].
  cbn [negb]. rewrite IH; tauto.
Qed.

Lemma text_or_nonempty (s : option string) (d : string) : d <> "" -> text_or s d <> "".
Proof.
  intros Hd. unfold text_or. destruct s as [x|]; [|exact Hd].
  destruct (String.eqb_spec x ""); assumption.
Qed.

Lemma finalGoals_facts (st : State) :
  finalGoals st <> [] /\ ~ In "outros" (finalGoals st).
Proof.
  unfold finalGoals.
  set (gs := if includes "outros" (goals (formData st)) then _ else _).
  assert (H : ~ In "outros" gs).
  { subst gs. destruct (includes "outros" (goals (formData st))) eqn:E.
    - destruct (String.eqb (trim (otherGoalsText st)) "").
      + rewrite without_In. tauto.
      + intros H. apply in_app_or in H. destruct H as [H|[H|[]]].
        * apply without_In in H. tauto.
        * discriminate H.
    - rewrite <- includes_In, E. discriminate. }
  destruct gs as [|g gs']; [split; [discriminate|] | split; [discriminate | exact H]].
  cbn [In]. intros [E|[]]. discriminate E.
Qed.

(** X17. Whenever generateWorkoutPlan gets as far as calling the endpoint,
    this is the profile the endpoint reads. Age, weight and height are what
    parseInt makes of the typed text, which begins with an integer: that
    very integer when it is below 2^53 in size, some number when it is
    below 2^1023, and null from 2^1024 on, where parseInt gives an infinity.
    Gender and fitness level are not empty, the list of goals is not empty
    and never holds the bare value outros, and equipment and limitations
    are not empty. The days per week and the session duration are never 0,
    and are null only for a typed integer of 2^1023 or more; an empty days
    field sends 3, and a choice of the select sends that number, between 1
    and 7. *)
Theorem request_is_complete (user : option string) (st : State) (uid : string)
        (p : Plan.UserProfile) :
  start user st = Sends uid p ->
  user = Some uid /\
  sentAs (age (formData st)) (Plan.age p) /\
  sentAs (weight (formData st)) (Plan.weight p) /\
  sentAs (height (formData st)) (Plan.height p) /\
  (exists g, Plan.gender p = Some g /\ g <> "") /\
  (exists l, Plan.fitness_level p = Some l /\ l <> "") /\
  (exists gs, Plan.fitness_goals p = Some gs /\ gs <> [] /\ ~ In "outros" gs) /\
  (Plan.available_days p <> Some 0 /\
   (Plan.available_days p = None ->
    exists v, mathInt (availableDays (formData st)) = Some v /\ 2 ^ 1023 <= Z.abs v) /\
   (availableDays (formData st) = "" -> Plan.available_days p = Some 3) /\
   (In (availableDays (formData st)) dayChoices ->
    exists d, Plan.available_days p = Some d /\ 1 <= d <= 7 /\
              mathInt (availableDays (formData st)) = Some d)) /\
  (Plan.session_duration p <> Some 0 /\
   (Plan.session_duration p = None ->
    exists v, mathInt (availableTime (formData st)) = Some v /\ 2 ^ 1023 <= Z.abs v) /\
   (availableTime (formData st) = "" -> Plan.session_duration p = Some 60)) /\
  (exists e, Plan.equipment p = Some e /\ e <> "") /\
  (exists l, Plan.limitations p = Some l /\ l <> "").
Proof.
  unfold start. destruct user as [u|]; [|discriminate].
  destruct (missingFields (formData st)) as [|m ms] eqn:M; [|discriminate].
  destruct (isNaN (parseInt (age (formData st)))) eqn:A; [discriminate|].
  destruct (isNaN (parseInt (height (formData st)))) eqn:H; [discriminate|].
  destruct (isNaN (parseInt (weight (formData st)))) eqn:W; [discriminate|].
  cbn [orb]. intros [= <- <-].
  assert (N : forall v, isNaN v = false -> v <> NaN) by (intros v Hv ->; discriminate Hv).
  apply N in A, H, W.
  unfold missingFields, requiredFields in M. cbn [List.filter] in M.
  unfold isMissing in M. cbn [String.eqb Ascii.eqb Bool.eqb] in M.
  destruct (String.eqb_spec (age (formData st)) ""); [discriminate|].
  destruct (String.eqb_spec (gender (formData st)) "") as [|Hg]; [discriminate|].
  destruct (String.eqb_spec (weight (formData st)) ""); [discriminate|].
  destruct (String.eqb_spec (height (formData st)) ""); [discriminate|].
  destruct (String.eqb_spec (fitnessLevel (formData st)) "") as [|Hl]; [discriminate|].
  destruct (finalGoals_facts st) as [G1 G2].
  unfold userProfile. cbn [Plan.age Plan.weight Plan.height Plan.gender Plan.fitness_level
                           Plan.fitness_goals Plan.available_days Plan.session_duration
                           Plan.equipment Plan.limitations].
  split; [reflexivity|].
  split; [now apply parseInt_sentAs|].
  split; [now apply parseInt_sentAs|].
  split; [now apply parseInt_sentAs|].
  split; [eexists; split; [reflexivity | exact Hg]|].
  split; [eexists; split; [reflexivity | exact Hl]|].
  split; [eexists; split; [reflexivity | split; assumption]|].
  split; [| split; [| split]].
  - split; [| split; [| split]].
    + destruct (String.eqb (availableDays (formData st)) "");
        [discriminate | apply parseIntOr_sent; discriminate].
    + destruct (String.eqb (availableDays (formData st)) "");
        [discriminate | apply parseIntOr_sent; discriminate].
    + intros ->. reflexivity.
    + unfold dayChoices. cbn [In].
      intros [E|[E|[E|[E|[E|[E|[E|[]]]]]]]]; rewrite <- E; vm_compute;
        eexists; (split; [reflexivity|]); (split; [|reflexivity]);
        split; discriminate.
  - split; [| split].
    + destruct (String.eqb (availableTime (formData st)) "");
        [discriminate | apply parseIntOr_sent; discriminate].
    + destruct (String.eqb (availableTime (formData st)) "");
        [discriminate | apply parseIntOr_sent; discriminate].
    + intros ->. reflexivity.
  - eexists. split; [reflexivity|]. apply text_or_nonempty. discriminate.
  - eexists. split; [reflexivity|].
    destruct (String.eqb (limitations (formData st)) "outros");
      [discriminate | apply text_or_nonempty; discriminate].
Qed.

Lemma request_is_complete_witness :
  let st := mkState (mkForm "30" "feminino" "62" (nines 400) "iniciante" ["outros"]
                            "" "4" "" "")
                    "   " "" in
  exists p,
    start (Some "u") st = Sends "u" p /\
    Plan.age p = Some 30 /\
    Plan.height p = None /\
    Plan.fitness_goals p = Some ["saude_geral"] /\
    exists d, Plan.available_days p = Some d /\ 1 <= d <= 7.
Proof.
  intros st.
  assert (S : start (Some "u") st = Sends "u" (userProfile st)) by (vm_compute; reflexivity).
  exists (userProfile st). split; [exact S|].
  destruct (request_is_complete (Some "u") st "u" _ S)
    as (_ & (a & A1 & A2 & _) & _ & (h & H1 & _ & _ & H4) & _ & _ & _
        & (_ & _ & _ & D4) & _).
  split; [| split; [| split; [reflexivity|]]].
  - vm_compute in A1. injection A1 as <-. apply A2. vm_compute. reflexivity.
  - apply H4. vm_compute in H1. injection H1 as <-. vm_compute. discriminate.
  - destruct D4 as (d & D1 & D2 & _); [cbn; tauto|]. exists d. split; assumption.
Defined.

(** X18. generateWorkoutPlan calls the endpoint exactly when a user is
    signed in, the fields age, gender, weight, height and fitness level are
    not empty, and age, height and weight begin with a number. The list of
    goals plays no part in it: the field goals is never reported missing,
    and with no goal ticked the request carries the goal saude_geral. *)
Theorem generation_starts_iff (user : option string) (st : State) :
  ((exists uid p, start user st = Sends uid p) <->
   (user <> None /\
    age (formData st) <> "" /\ gender (formData st) <> "" /\
    weight (formData st) <> "" /\ height (formData st) <> "" /\
    fitnessLevel (formData st) <> "" /\
    parseInt (age (formData st)) <> NaN /\
    parseInt (height (formData st)) <> NaN /\
    parseInt (weight (formData st)) <> NaN)) /\
  ~ In "goals" (missingFields (formData st)) /\
  (goals (formData st) = [] ->
   forall uid p, start user st = Sends uid p ->
                 Plan.fitness_goals p = Some ["saude_geral"]).
Proof.
  split; [| split].
  - unfold start, missingFields, requiredFields. cbn [List.filter].
    unfold isMissing. cbn [String.eqb Ascii.eqb Bool.eqb].
    destruct user as [u|]; [| split; [intros (? & ? & ?); discriminate | tauto]].
    destruct (String.eqb_spec (age (formData st)) "");
      [split; [intros (? & ? & ?); discriminate | tauto]|].
    destruct (String.eqb_spec (gender (formData st)) "");
      [split; [intros (? & ? & ?); discriminate | tauto]|].
    destruct (String.eqb_spec (weight (formData st)) "");
      [split; [intros (? & ? & ?); discriminate | tauto]|].
    destruct (String.eqb_spec (height (formData st)) "");
      [split; [intros (? & ? & ?); discriminate | tauto]|].
    destruct (String.eqb_spec (fitnessLevel (formData st)) "");
      [split; [intros (? & ? & ?); discriminate | tauto]|].
    destruct (parseInt (age (formData st)));
      [split; [intros (? & ? & ?); discriminate | tauto] | |];
      (destruct (parseInt (height (formData st)));
       [split; [intros (? & ? & ?); discriminate | tauto] | |]);
      (destruct (parseInt (weight (formData st)));
       [split; [intros (? & ? & ?); discriminate | tauto] | |]);
      cbn [isNaN orb]; (split; [| eauto]);
      intros _; repeat split; (assumption || discriminate).
  - unfold missingFields. rewrite filter_In. intros [_ H]. discriminate H.
  - intros Hg uid p. unfold start.
    destruct user as [u|]; [|discriminate].
    destruct (missingFields (formData st)); [|discriminate].
    destruct (_ || _); [discriminate|]. intros [= _ <-].
    unfold userProfile, finalGoals. cbn [Plan.fitness_goals]. rewrite Hg. reflexivity.
Qed.

Lemma generation_starts_iff_witness :
  let st := mkState (mkForm "30" "feminino" "62" "168" "iniciante" [] "" "" "" "") "" "" in
  goals (formData st) = [] /\
  exists p, start (Some "u") st = Sends "u" p /\ Plan.fitness_goals p = Some ["saude_geral"].
Proof.
  intros st. split; [reflexivity|]. eexists. split; [reflexivity|].
  exact (proj2 (proj2 (generation_starts_iff (Some "u") st)) eq_refl "u" _ eq_refl).
Defined.

(** X19. Ticking a goal appends it and unticking removes every occurrence
    of it; either way the other goals stay, in their order. Ticking and
    then unticking a goal that was not in the list gives the list back.
    Unticking outros also empties the text that describes it; no other field
    of the form changes. *)
Theorem goal_toggle (goal : string) (st : State) :
  goals (formData (handleGoalChange goal true st)) = (goals (formData st) ++ [goal])%list /\
  ~ In goal (goals (formData (handleGoalChange goal false st))) /\
  without goal (goals (formData (handleGoalChange goal true st)))
  = without goal (goals (formData st)) /\
  without goal (goals (formData (handleGoalChange goal false st)))
  = without goal (goals (formData st)) /\
  (forall other checked,
      other <> goal ->
      without goal (goals (formData (handleGoalChange goal checked st)))
      = without goal (goals (formData st)) /\
      (In other (goals (formData (handleGoalChange goal checked st)))
       <-> In other (goals (formData st)))) /\
  (~ In goal (goals (formData st)) ->
   goals (formData (handleGoalChange goal false (handleGoalChange goal true st)))
   = goals (formData st)) /\
  otherGoalsText (handleGoalChange goal false st)
  = (if String.eqb goal "outros" then "" else otherGoalsText st) /\
  otherGoalsText (handleGoalChange goal true st) = otherGoalsText st /\
  (forall checked,
      setGoals (goals (formData st)) (formData (handleGoalChange goal checked st))
      = formData st /\
      otherLimitationsText (handleGoalChange goal checked st) = otherLimitationsText st).
Proof.
  assert (Hww : forall gs, without goal (without goal gs) = without goal gs).
  { intros gs. unfold without. apply CleanupViewFacts.filter_absorb. auto. }
  assert (Hwa : forall gs, without goal (gs ++ [goal]) = without goal gs).
  { intros gs. unfold without. rewrite List.filter_app. cbn [List.filter].
    rewrite String.eqb_refl. cbn [negb]. apply app_nil_r. }
  unfold handleGoalChange. cbn [formData goals setGoals otherGoalsText otherLimitationsText].
  split; [reflexivity|].
  split; [rewrite without_In; tauto|].
  split; [apply Hwa|]. split; [apply Hww|].
  split; [| split; [| split; [reflexivity | split; [reflexivity|]]]].
  - intros other checked Hne. destruct checked; cbn [formData goals setGoals].
    + split; [apply Hwa|]. rewrite in_app_iff. cbn [In]. intuition congruence.
    + split; [apply Hww|]. rewrite without_In. tauto.
  - intros Habs. rewrite Hwa. now apply without_absent.
  - intros checked. destruct (formData st); destruct checked; split; reflexivity.
Qed.

Lemma goal_toggle_witness :
  let st := mkState (mkForm "" "" "" "" "" ["forca"] "" "" "" "") "maratona" "" in
  ~ In "outros" (goals (formData st)) /\
  goals (formData (handleGoalChange "outros" false (handleGoalChange "outros" true st)))
  = ["forca"].
Proof.
  intros st.
  assert (H : ~ In "outros" (goals (formData st)))
    by (cbn; intros [H|[]]; discriminate H).
  split; [exact H|].
  destruct (goal_toggle "outros" st) as (_ & _ & _ & _ & _ & R & _).
  exact (R H).
Defined.


Lemma handleGoalChange_choices (goal : string) (checked : bool) (st : State) :
  In goal goalChoices ->
  List.Forall (fun g => In g goalChoices) (goals (formData st)) ->
  List.Forall (fun g => In g goalChoices) (goals (formData (handleGoalChange goal checked st))).
Proof.
  intros Hg H. rewrite List.Forall_forall in *. intros g.
  unfold handleGoalChange. destruct checked; cbn [formData goals setGoals].
  - rewrite in_app_iff. cbn [In]. intros [Hin|[<-|[]]]; [now apply H | exact Hg].
  - rewrite without_In. intros [Hin _]. now apply H.
Qed.

Lemma finalGoals_In (st : State) (g : string) :
  In g (finalGoals st) ->
  (In g (goals (formData st)) /\ g <> "outros")
  \/ g = "outros: " +:+ trim (otherGoalsText st)
  \/ g = "saude_geral".
Proof.
  unfold finalGoals.
  set (gs := if includes "outros" (goals (formData st)) then _ else _).
  assert (H : forall x, In x gs ->
                        (In x (goals (formData st)) /\ x <> "outros")
                        \/ x = "outros: " +:+ trim (otherGoalsText st)).
  { subst gs. intros x. destruct (includes "outros" (goals (formData st))) eqn:E.
    - destruct (String.eqb (trim (otherGoalsText st)) "").
      + rewrite without_In. tauto.
      + rewrite in_app_iff, without_In. cbn [In]. intros [?|[<-|[]]]; tauto.
    - intros Hx. left. split; [exact Hx|]. intros ->.
      apply includes_In in Hx. congruence. }
  destruct gs as [|g0 gs'].
  - cbn [In]. intros [<-|[]]. tauto.
  - intros Hg. destruct (H g Hg); tauto.
Qed.

Lemma undescribed_goal_plan (p : Plan.UserProfile) (g : string) (rest : list string) :
  Plan.fitness_goals p = Some (g :: rest) ->
  Js.member g Plan.goalsDescription = Js.Missing ->
  Plan.createFallbackPlan (Some p) = Plan.createFallbackPlan (Some (withGoals None p)).
Proof.
  intros Hg Ha. unfold Plan.createFallbackPlan, Plan.availableDaysOf, Plan.firstGoal.
  cbn [withGoals Plan.fitness_level Plan.fitness_goals Plan.available_days].
  rewrite Hg. cbn [nth_error].
  assert (E : Plan.goalDescOf (text_or (Some g) "condicionamento geral")
              = Plan.goalDescOf (text_or None "condicionamento geral")).
  { unfold text_or at 1. destruct (String.eqb g ""); [reflexivity|].
    unfold Plan.goalDescOf. now rewrite Ha. }
  rewrite E. reflexivity.
Qed.

(** X20. The goals the form can send and the table of goal descriptions
    of the fall-back generator share three keys only. When every ticked goal
    is one of the checkboxes of the form, the first goal of the request is
    either hipertrofia, condicionamento or forca, or it is perda_peso,
    saude_geral or a free text, for which the table has no entry: the
    fall-back plan is then the plan of a profile that states no goal. *)
Theorem form_goal_in_fallback (user : option string) (st : State) (uid : string)
        (p : Plan.UserProfile) :
  start user st = Sends uid p ->
  List.Forall (fun g => In g goalChoices) (goals (formData st)) ->
  exists g rest,
    Plan.fitness_goals p = Some (g :: rest) /\
    ((In g describedChoices /\ Js.assoc g Plan.goalsDescription <> None)
     \/ (~ In g describedChoices /\
         Js.assoc g Plan.goalsDescription = None /\
         Plan.createFallbackPlan (Some p)
         = Plan.createFallbackPlan (Some (withGoals None p)))).
Proof.
  intros Hs Hall.
  assert (Hp : Plan.fitness_goals p = Some (finalGoals st)).
  { unfold start in Hs. destruct user; [|discriminate].
    destruct (missingFields (formData st)); [|discriminate].
    destruct (_ || _); [discriminate|]. injection Hs as _ <-. reflexivity. }
  destruct (finalGoals_facts st) as [Hne _].
  destruct (finalGoals st) as [|g rest] eqn:E; [congruence|]. clear Hne.
  exists g, rest. split; [exact Hp|].
  assert (Hin : In g (finalGoals st)) by (rewrite E; now left).
  assert (Hcases : In g describedChoices \/
                   (~ In g describedChoices /\
                    Js.member g Plan.goalsDescription = Js.Missing)).
  { destruct (finalGoals_In st g Hin) as [[Hg Hno]|[->| ->]].
    - rewrite List.Forall_forall in Hall. specialize (Hall g Hg).
      unfold goalChoices in Hall. cbn [In] in Hall.
      destruct Hall as [<-|[<-|[<-|[<-|[<-|[<-|[]]]]]]].
      + right. split; [|reflexivity]. cbn. intuition discriminate.
      + left. cbn. tauto.
      + left. cbn. tauto.
      + left. cbn. tauto.
      + right. split; [|reflexivity]. cbn. intuition discriminate.
      + congruence.
    - right. split; [|reflexivity]. cbn. intuition discriminate.
    - right. split; [|reflexivity]. cbn. intuition discriminate. }
  destruct Hcases as [Hd|[Hn Ha]].
  - left. split; [exact Hd|].
    unfold describedChoices in Hd. cbn [In] in Hd.
    destruct Hd as [<-|[<-|[<-|[]]]]; discriminate.
  - right. split; [exact Hn|].
    split; [unfold Js.member in Ha; now destruct (Js.assoc g Plan.goalsDescription)|].
    exact (undescribed_goal_plan p g rest Hp Ha).
Qed.

Lemma form_goal_in_fallback_witness :
  let st := mkState (mkForm "30" "feminino" "62" "168" "iniciante" ["perda_peso"; "forca"]
                            "" "4" "" "") "" "" in
  exists p,
    start (Some "u") st = Sends "u" p /\
    Plan.fitness_goals p = Some ["perda_peso"; "forca"] /\
    Plan.createFallbackPlan (Some p) = Plan.createFallbackPlan (Some (withGoals None p)).
Proof.
  intros st. eexists. split; [reflexivity|]. split; [reflexivity|].
  assert (Hall : List.Forall (fun g => In g goalChoices) (goals (formData st))).
  { repeat constructor; cbn; tauto. }
  destruct (form_goal_in_fallback (Some "u") st "u" _ eq_refl Hall)
    as (g & rest & Hg & [[Hd _]|(_ & _ & Hplan)]).
  - injection Hg as <- _. cbn in Hd. exfalso. intuition discriminate.
  - exact Hplan.
Defined.

End FormFacts.

Module PlanStoreFacts.
Import Progress PlanStore.

Lemma fold_rows_lookup (userId planId : string) (m : gmap (string * string * string) bool) :
  (forall key b, m !! key = Some b -> key.1 = (userId, planId)) ->
  forall item,
    map_fold (fun key is_completed (progressMap : gmap string bool) =>
                <[key.2 := is_completed]> progressMap) ∅ m !! item
    = m !! (userId, planId, item).
Proof.
  apply (map_fold_weak_ind
           (fun (r : gmap string bool) (m : gmap (string * string * string) bool) =>
              (forall key b, m !! key = Some b -> key.1 = (userId, planId)) ->
              forall item, r !! item = m !! (userId, planId, item))).
  - intros _ item. now rewrite !lookup_empty.
  - intros key b m' r Hnone IH Hkeys item.
    assert (Hk : key.1 = (userId, planId))
      by (apply (Hkeys key b); apply lookup_insert_eq).
    assert (Hm : forall k x, m' !! k = Some x -> k.1 = (userId, planId)).
    { intros k x Hx. apply (Hkeys k x). rewrite lookup_insert_ne; [exact Hx|].
      intros ->. congruence. }
    destruct key as [[u p] i]. cbn in Hk. injection Hk as -> ->. cbn [snd].
    destruct (decide (i = item)) as [->|Hne].
    + now rewrite !lookup_insert_eq.
    + rewrite !lookup_insert_ne by congruence. now apply IH.
Qed.

Lemma getPlanProgress_lookup (userId planId : string) (tbl : Table) (item : string) :
  getPlanProgress userId planId tbl !! item = tbl !! (userId, planId, item).
Proof.
  unfold getPlanProgress. rewrite (fold_rows_lookup userId planId).
  - destruct (tbl !! (userId, planId, item)) as [b|] eqn:E.
    + apply map_lookup_filter_Some. split; [exact E | reflexivity].
    + apply map_lookup_filter_None. now left.
  - intros key b H. apply map_lookup_filter_Some in H. exact (proj2 H).
Qed.

Lemma getPlanProgress_insert (userId planId item : string) (b : bool) (tbl : Table) :
  getPlanProgress userId planId (<[(userId, planId, item) := b]> tbl)
  = <[item := b]> (getPlanProgress userId planId tbl).
Proof.
  apply map_eq. intros i. rewrite getPlanProgress_lookup. unfold Table in *.
  destruct (decide (item = i)) as [->|Hne].
  - now rewrite !lookup_insert_eq.
  - rewrite !lookup_insert_ne by congruence. now rewrite getPlanProgress_lookup.
Qed.

Lemma getPlanProgress_insert_other (u p userId planId item : string) (b : bool)
      (tbl : Table) :
  (u, p) <> (userId, planId) ->
  getPlanProgress u p (<[(userId, planId, item) := b]> tbl) = getPlanProgress u p tbl.
Proof.
  intros Hne. apply map_eq. intros i. rewrite !getPlanProgress_lookup. unfold Table in *.
  apply lookup_insert_ne. congruence.
Qed.

Lemma deletePlanProgress_lookup (userId planId : string) (tbl : Table)
      (u p i : string) :
  deletePlanProgress userId planId tbl !! (u, p, i)
  = if decide ((u, p) = (userId, planId)) then None else tbl !! (u, p, i).
Proof.
  unfold deletePlanProgress. destruct (decide ((u, p) = (userId, planId))) as [E|Hne].
  - apply map_lookup_filter_None. right. intros x _ H. apply H. exact E.
  - destruct (tbl !! (u, p, i)) as [b|] eqn:Hb.
    + apply map_lookup_filter_Some. split; [exact Hb | exact Hne].
    + apply map_lookup_filter_None. now left.
Qed.

Lemma getPlanProgress_deleted (userId planId : string) (tbl : Table) :
  getPlanProgress userId planId (deletePlanProgress userId planId tbl) = ∅.
Proof.
  apply map_eq. intros i.
  rewrite getPlanProgress_lookup, deletePlanProgress_lookup, lookup_empty.
  now rewrite decide_True.
Qed.

Lemma getPlanProgress_deleted_other (u p userId planId : string) (tbl : Table) :
  (u, p) <> (userId, planId) ->
  getPlanProgress u p (deletePlanProgress userId planId tbl) = getPlanProgress u p tbl.
Proof.
  intros Hne. apply map_eq. intros i.
  rewrite !getPlanProgress_lookup, deletePlanProgress_lookup.
  now rewrite decide_False.
Qed.

Lemma isCompleted_after_insert (m : gmap string bool) (item i : string) (b : bool) :
  isCompleted (<[item := b]> m) i = if decide (item = i) then b else isCompleted m i.
Proof.
  unfold isCompleted. destruct (decide (item = i)) as [->|Hne].
  - now rewrite lookup_insert_eq.
  - now rewrite lookup_insert_ne.
Qed.

(** X21. When the statuses on display are those of the rows of the plan
    in plan_progress, as after loadProgress, they still are after a click
    on a checkbox, whether the upsert succeeds or throws; the user and the
    plan on display stay, and the rows of every other user or plan are as
    before. *)
Theorem display_follows_table (ui : Ui) (tbl : Table) (userId planId item : string)
        (r : Upsert) :
  guard ui = Some (userId, planId) ->
  (forall i, isCompleted (progressMap ui) i
             = isCompleted (getPlanProgress userId planId tbl) i) ->
  let after := onCheckedChange ui tbl item r in
  (forall i, isCompleted (progressMap (fst after)) i
             = isCompleted (getPlanProgress userId planId (snd after)) i) /\
  guard (fst after) = Some (userId, planId) /\
  (forall u p, (u, p) <> (userId, planId) ->
               getPlanProgress u p (snd after) = getPlanProgress u p tbl).
Proof.
  intros Hg Hagree. cbv zeta.
  unfold onCheckedChange, handleProgressChange, optimistic, upsert. rewrite Hg.
  destruct r; cbn [fst snd settle].
  - split; [| split].
    + intros i. cbn [setProgressMap progressMap].
      rewrite getPlanProgress_insert, !isCompleted_after_insert.
      destruct (decide (item = i)); [reflexivity | apply Hagree].
    + exact Hg.
    + intros u p Hne. now apply getPlanProgress_insert_other.
  - split; [| split].
    + intros i. cbn [setProgressMap progressMap toast].
      rewrite !isCompleted_after_insert.
      destruct (decide (item = i)) as [->|]; apply Hagree.
    + exact Hg.
    + reflexivity.
Qed.

Lemma display_follows_table_witness :
  let ui := loadProgress (mkUi (Some "u") (Some "Plano A") ∅ [])
                         (<[("u", "Plano A", "Agachamento_0") := true]> ∅) false in
  let tbl : Table := <[("u", "Plano A", "Agachamento_0") := true]> ∅ in
  let after := onCheckedChange ui tbl "Prancha_1" UpsertThrows in
  guard ui = Some ("u", "Plano A") /\
  isCompleted (progressMap (fst after)) "Prancha_1"
  = isCompleted (getPlanProgress "u" "Plano A" (snd after)) "Prancha_1".
Proof.
  intros ui tbl after. split; [reflexivity|].
  refine (proj1 (display_follows_table ui tbl "u" "Plano A" "Prancha_1" UpsertThrows
                   eq_refl _) "Prancha_1").
  intros i. reflexivity.
Defined.

(** X22. What updateItemProgress writes, getPlanProgress reads back:
    after a click whose upsert succeeded, loading the progress of the plan
    gives the earlier rows with the clicked item at its new status. After
    deletePlanProgress the plan loads with no item at all, while every
    other user or plan loads as before. When the load throws, the map on
    display stays as it is. *)
Theorem progress_round_trip (ui : Ui) (tbl : Table) (userId planId : string) :
  guard ui = Some (userId, planId) ->
  (forall item currentStatus,
      progressMap (loadProgress ui (upsert ui item currentStatus UpsertOk tbl) false)
      = <[item := negb currentStatus]> (progressMap (loadProgress ui tbl false))) /\
  progressMap (loadProgress ui (deletePlanProgress userId planId tbl) false) = ∅ /\
  (forall u p, (u, p) <> (userId, planId) ->
               getPlanProgress u p (deletePlanProgress userId planId tbl)
               = getPlanProgress u p tbl) /\
  progressMap (loadProgress ui tbl true) = progressMap ui.
Proof.
  intros Hg. unfold loadProgress, upsert. rewrite Hg.
  cbn [setProgressMap progressMap toast].
  split; [| split; [| split]].
  - intros item cur. apply getPlanProgress_insert.
  - apply getPlanProgress_deleted.
  - intros u p. apply getPlanProgress_deleted_other.
  - reflexivity.
Qed.

Lemma progress_round_trip_witness :
  let ui := mkUi (Some "u") (Some "Plano A") ∅ [] in
  progressMap (loadProgress ui (upsert ui "Prancha_1" false UpsertOk ∅) false)
  !! "Prancha_1" = Some true.
Proof.
  intros ui.
  rewrite (proj1 (progress_round_trip ui ∅ "u" "Plano A" eq_refl) "Prancha_1" false).
  apply lookup_insert_eq.
Defined.

Lemma uint_digits (d : Decimal.uint) :
  ~ In "_"%char (list_ascii_of_string (NilZero.string_of_uint d)).
Proof.
  assert (H : forall u, ~ In "_"%char (list_ascii_of_string (NilEmpty.string_of_uint u))).
  { induction u; simpl; [tauto | intros [E|H]; [discriminate E | tauto] ..]. }
  destruct d; simpl; intros [E|Hin]; try discriminate E; try contradiction;
    exact (H _ Hin).
Qed.

Lemma decimal_digits (n : nat) :
  ~ In "_"%char (list_ascii_of_string (Js.decimal (Z.of_nat n))).
Proof.
  unfold Js.decimal. destruct (Z.of_nat n) eqn:E; [| | lia]; apply uint_digits.
Qed.

Lemma decimal_inj (n m : nat) :
  Js.decimal (Z.of_nat n) = Js.decimal (Z.of_nat m) -> n = m.
Proof.
  unfold Js.decimal. intros H.
  assert (Hnn : forall z, Z.to_int z <> Decimal.Pos Decimal.Nil
                          /\ Z.to_int z <> Decimal.Neg Decimal.Nil).
  { intros z. destruct z as [|p|p]; cbn; split; try discriminate;
      intros E; injection E as E; revert E; apply DecimalPos.Unsigned.to_uint_nonnil. }
  pose proof (NilZero.isi _ (proj1 (Hnn (Z.of_nat n))) (proj2 (Hnn (Z.of_nat n)))) as H1.
  pose proof (NilZero.isi _ (proj1 (Hnn (Z.of_nat m))) (proj2 (Hnn (Z.of_nat m)))) as H2.
  rewrite H in H1. rewrite H1 in H2. injection H2 as H2.
  apply DecimalZ.to_int_inj in H2. lia.
Qed.

Lemma list_ascii_append (a b : string) :
  list_ascii_of_string (a +:+ b) = (list_ascii_of_string a ++ list_ascii_of_string b)%list.
Proof. induction a as [|c a IH]; [reflexivity|]. simpl. f_equal. exact IH. Qed.

Lemma suffix_after_mark (a b x y : list ascii) :
  ~ In "_"%char x -> ~ In "_"%char y ->
  (a ++ "_"%char :: x)%list = (b ++ "_"%char :: y)%list -> x = y.
Proof.
  intros Hx Hy. revert b. induction a as [|c a IH]; intros [|d b] E; simpl in E.
  - now injection E.
  - exfalso. injection E as _ E. apply Hx. rewrite E.
    apply in_or_app. right. now left.
  - exfalso. injection E as _ E. apply Hy. rewrite <- E.
    apply in_or_app. right. now left.
  - injection E as _ E. now apply IH with b.
Qed.

Lemma suffix_after_underscore (a b x y : string) :
  ~ In "_"%char (list_ascii_of_string x) ->
  ~ In "_"%char (list_ascii_of_string y) ->
  a +:+ "_" +:+ x = b +:+ "_" +:+ y -> x = y.
Proof.
  intros Hx Hy E. apply (f_equal list_ascii_of_string) in E.
  rewrite !list_ascii_append in E. simpl in E.
  apply suffix_after_mark in E; [| assumption ..].
  rewrite <- (string_of_list_ascii_of_string x), <- (string_of_list_ascii_of_string y).
  now rewrite E.
Qed.

Lemma itemIdentifier_index (e e' : Plan.Exercise) (i j : nat) :
  itemIdentifier e i = itemIdentifier e' j -> i = j.
Proof.
  unfold itemIdentifier. intros E. apply decimal_inj.
  eapply suffix_after_underscore; [apply decimal_digits | apply decimal_digits | exact E].
Qed.

(** X23. No two rows of a plan share an item identifier, even when two
    exercises have the same name. So a click on the checkbox of one row
    changes the status on display of that row only, whatever the upsert
    answers. *)
Theorem rows_have_their_own_status (plan : WorkoutPlan) :
  NoDup (itemIdentifiers plan) /\
  forall (ui : Ui) (tbl : Table) (r : Upsert) (i j : nat) (ei ej : Plan.Exercise),
    exercises plan !! i = Some ei ->
    exercises plan !! j = Some ej ->
    i <> j ->
    isCompleted (progressMap (fst (onCheckedChange ui tbl (itemIdentifier ei i) r)))
                (itemIdentifier ej j)
    = isCompleted (progressMap ui) (itemIdentifier ej j).
Proof.
  split.
  - apply NoDup_alt. intros i j x. unfold itemIdentifiers.
    rewrite !list_lookup_imap.
    destruct (exercises plan !! i) as [ei|]; [|discriminate].
    destruct (exercises plan !! j) as [ej|]; [|discriminate].
    cbn. intros [= <-] [= E]. symmetry. exact (itemIdentifier_index _ _ _ _ E).
  - intros ui tbl r i j ei ej _ _ Hne.
    assert (Hid : itemIdentifier ei i <> itemIdentifier ej j)
      by (intros E; apply Hne; exact (itemIdentifier_index _ _ _ _ E)).
    unfold onCheckedChange, handleProgressChange, optimistic.
    destruct (guard ui); [|reflexivity].
    destruct r; cbn [fst settle setProgressMap progressMap toast];
      rewrite !isCompleted_after_insert, ?decide_False by exact Hid; reflexivity.
Qed.


Lemma rows_have_their_own_status_witness :
  let e := Plan.mkExercise "Prancha" 3 "10-15" "60-90s" "" in
  let plan := mkPlan "Plano A" "" "iniciante" 12 [e; e] [] in
  itemIdentifiers plan = ["Prancha_0"; "Prancha_1"] /\ NoDup (itemIdentifiers plan).
Proof.
  intros e plan. split; [reflexivity|].
  exact (proj1 (rows_have_their_own_status plan)).
Defined.

Lemma plansOf_deleted (userId : string) (rows : list (string * WorkoutPlan)) (t : Table) :
  plansOf userId (mkDb (deletePlans userId rows) t) = [].
Proof.
  unfold plansOf, deletePlans. cbn [plans].
  induction rows as [|[u p] rows IH]; [reflexivity|].
  cbn [List.filter fst]. destruct (String.eqb u userId) eqn:E; cbn [negb]; [exact IH|].
  cbn [List.filter fst]. rewrite E. exact IH.
Qed.

Lemma plansOf_deleted_other (other userId : string) (db : Db) (t : Table) :
  other <> userId ->
  plansOf other (mkDb (deletePlans userId (plans db)) t) = plansOf other db.
Proof.
  intros Hne. unfold plansOf, deletePlans. cbn [plans]. f_equal.
  apply CleanupViewFacts.filter_absorb. intros [u p]. cbn [fst].
  intros E. apply String.eqb_eq in E. subst u.
  apply negb_true_iff, String.eqb_neq. exact Hne.
Qed.

Lemma plansOf_app (userId : string) (rows rows' : list (string * WorkoutPlan)) (t : Table) :
  plansOf userId (mkDb (rows ++ rows') t)
  = (plansOf userId (mkDb rows t) ++ plansOf userId (mkDb rows' t))%list.
Proof. unfold plansOf. cbn [plans]. now rewrite List.filter_app, List.map_app. Qed.

Lemma plansOf_table (userId : string) (rows : list (string * WorkoutPlan)) (t t' : Table) :
  plansOf userId (mkDb rows t) = plansOf userId (mkDb rows t').
Proof. reflexivity. Qed.

Lemma plansOf_one (userId u : string) (plan : WorkoutPlan) (t : Table) :
  plansOf userId (mkDb [(u, plan)] t) = if String.eqb u userId then [plan] else [].
Proof. unfold plansOf. cbn. now destruct (String.eqb u userId). Qed.

(** X24. saveWorkoutPlan returns the plan exactly when a user is signed
    in, the insert gives no error and deletePlanProgress, if there is a plan
    on display, does not throw; it returns nothing otherwise. The stored
    plans of the user are afterwards the old ones, kept only when their
    delete failed, followed by the new plan when it was returned: a save
    whose insert fails after the delete succeeded leaves the user without a
    stored plan. The plans of other users are never touched, the progress of
    the plan on display is emptied once its deletion is reached and does not
    throw, and the progress of every other user or plan stays. *)
Theorem save_outcome (ui : Ui) (plan : WorkoutPlan) (w : SaveWorld) (db : Db) :
  let out := saveWorkoutPlan ui plan w db in
  let saved := fst (fst out) in
  let db' := snd out in
  (saved = Some plan <->
   user ui <> None /\ insertError w = false /\
   (oldPlanId ui = None \/ progressThrows w = false)) /\
  (saved = Some plan \/ saved = None) /\
  (forall userId,
      user ui = Some userId ->
      plansOf userId db'
      = ((if deleteError w then plansOf userId db else []) ++
         match saved with Some p => [p] | None => [] end)%list) /\
  (forall other, user ui <> Some other -> plansOf other db' = plansOf other db) /\
  (forall userId old,
      user ui = Some userId -> oldPlanId ui = Some old -> progressThrows w = false ->
      getPlanProgress userId old (progress db') = ∅) /\
  (forall u p,
      (Some u, Some p) <> (user ui, oldPlanId ui) ->
      getPlanProgress u p (progress db') = getPlanProgress u p (progress db)).
Proof.
  cbv zeta. unfold saveWorkoutPlan.
  destruct (user ui) as [userId|] eqn:U.
  2:{ cbn [fst snd]. repeat split; congruence || tauto. }
  assert (Hplans : forall t,
             plansOf userId
               (mkDb (if deleteError w then plans db else deletePlans userId (plans db)) t)
             = if deleteError w then plansOf userId db else []).
  { intros t. destruct (deleteError w); [reflexivity | apply plansOf_deleted]. }
  assert (Hothers : forall other t,
             Some userId <> Some other ->
             plansOf other
               (mkDb (if deleteError w then plans db else deletePlans userId (plans db)) t)
             = plansOf other db).
  { intros other t Hne. destruct (deleteError w); [reflexivity|].
    apply plansOf_deleted_other. congruence. }
  assert (Hone : forall other t, Some userId <> Some other ->
                                 plansOf other (mkDb [(userId, plan)] t) = []).
  { intros other t Hne. rewrite plansOf_one.
    destruct (String.eqb_spec userId other); [congruence | reflexivity]. }
  destruct (oldPlanId ui) as [old|] eqn:O;
    [destruct (progressThrows w) eqn:T|]; destruct (insertError w) eqn:I;
    cbn [fst snd progress];
    (split; [split; [discriminate || (intros _; repeat split; (congruence || tauto))
                    | intros (_ & H1 & [H2|H2]); congruence] |]);
    (split; [tauto|]);
    (split; [intros u [= <-];
             rewrite ?plansOf_app, ?Hplans, ?plansOf_one, ?String.eqb_refl, ?app_nil_r;
             reflexivity |]);
    (split; [intros other Hne;
             rewrite ?plansOf_app, ?Hothers, ?Hone, ?app_nil_r by exact Hne;
             reflexivity |]);
    (split; [intros u o [= <-] [= <-] HT; try discriminate HT;
             apply getPlanProgress_deleted |]);
    intros u p Hne; try reflexivity;
    apply getPlanProgress_deleted_other; congruence.
Qed.

Lemma save_outcome_witness :
  let ui := mkUi (Some "u") (Some "Plano A") ∅ [] in
  let old := mkPlan "Plano A" "" "iniciante" 12 [] [] in
  let new := mkPlan "Plano B" "" "iniciante" 12 [] [] in
  let db := mkDb [("u", old); ("v", old)] (<[("u", "Plano A", "Prancha_1") := true]> ∅) in
  let out := saveWorkoutPlan ui new (mkSaveWorld false false true) db in
  user ui = Some "u" /\ fst (fst out) = None /\ plansOf "u" (snd out) = [].
Proof.
  intros ui old new db out. split; [reflexivity|]. split; [reflexivity|].
  destruct (save_outcome ui new (mkSaveWorld false false true) db) as (_ & _ & H & _).
  exact (H "u" eq_refl).
Defined.

(** X25. deleteWorkoutPlan does nothing without a user or a plan on
    display. When deletePlanProgress throws, the tables, the plan on
    display, its progress and the tab stay. Otherwise the progress of the
    plan is emptied, the screen goes back to the form with no plan and no
    progress and ends on the toast Plano Excluído, also when the delete of
    the plan gave an error, in which case the plans the user has stored are
    all still there. The plans of other users and the progress of every
    other user or plan stay. *)
Theorem delete_outcome (s : Screen) (w : DeleteWorld) (db : Db) :
  let out := deleteWorkoutPlan s w db in
  (guard (ui s) = None -> out = (s, db)) /\
  (forall userId planId,
      guard (ui s) = Some (userId, planId) ->
      (deleteProgressThrows w = true ->
       snd out = db /\
       planTitle (ui (fst out)) = planTitle (ui s) /\
       progressMap (ui (fst out)) = progressMap (ui s) /\
       activeTab (fst out) = activeTab s) /\
      (deleteProgressThrows w = false ->
       planTitle (ui (fst out)) = None /\
       progressMap (ui (fst out)) = ∅ /\
       activeTab (fst out) = FormTab /\
       last (toasts (ui (fst out))) = Some "Plano Excluído" /\
       getPlanProgress userId planId (progress (snd out)) = ∅ /\
       plansOf userId (snd out)
       = (if deletePlanError w then plansOf userId db else []))) /\
  (forall other, user (ui s) <> Some other -> plansOf other (snd out) = plansOf other db) /\
  (forall u p,
      guard (ui s) <> Some (u, p) ->
      getPlanProgress u p (progress (snd out)) = getPlanProgress u p (progress db)).
Proof.
  cbv zeta. unfold deleteWorkoutPlan.
  destruct (guard (ui s)) as [[userId planId]|] eqn:G.
  2:{ repeat split; try reflexivity; intros; discriminate. }
  assert (U : user (ui s) = Some userId).
  { unfold guard in G. destruct (user (ui s)); [|discriminate].
    destruct (planTitle (ui s)); [|discriminate].
    destruct (String.eqb s1 ""); [discriminate|]. congruence. }
  destruct (deleteProgressThrows w) eqn:T.
  - cbn [fst snd]. split; [discriminate|]. split; [| split; reflexivity].
    intros u p [= <- <-]. split; [| discriminate]. intros _. repeat split.
  - cbn [fst snd progress]. split; [discriminate|]. split; [| split].
    + intros u p [= <- <-]. split; [discriminate|]. intros _.
      split; [reflexivity|]. split; [reflexivity|]. split; [reflexivity|].
      split; [cbn [ui toast toasts]; apply last_snoc|].
      split; [apply getPlanProgress_deleted|].
      destruct (deletePlanError w); [reflexivity | apply plansOf_deleted].
    + intros other Hne. destruct (deletePlanError w); [reflexivity|].
      apply plansOf_deleted_other. congruence.
    + intros u p Hne. apply getPlanProgress_deleted_other. congruence.
Qed.

Lemma delete_outcome_witness :
  let s := mkScreen (mkUi (Some "u") (Some "Plano A") ∅ []) PlanTab in
  let old := mkPlan "Plano A" "" "iniciante" 12 [] [] in
  let db := mkDb [("u", old)] ∅ in
  let out := deleteWorkoutPlan s (mkDeleteWorld false true) db in
  guard (ui s) = Some ("u", "Plano A") /\
  planTitle (ui (fst out)) = None /\
  last (toasts (ui (fst out))) = Some "Plano Excluído" /\
  plansOf "u" (snd out) = [old].
Proof.
  intros s old db out. split; [reflexivity|].
  destruct (delete_outcome s (mkDeleteWorld false true) db) as (_ & H & _).
  destruct (proj2 (H "u" "Plano A" eq_refl) eq_refl) as (H1 & _ & _ & H4 & _ & H6).
  split; [exact H1|]. split; [exact H4 | exact H6].
Defined.

End PlanStoreFacts.

Module OnboardingFacts.
Import Js Onboarding.

Lemma checklist_shape (steps : list OnboardingStep) :
  ofTheChecklist steps ->
  exists c1 c2 c3 c4,
    steps = [ setCompleted c1 (nth 0 initialSteps (mkStep "" "" "" "" "" false));
              setCompleted c2 (nth 1 initialSteps (mkStep "" "" "" "" "" false));
              setCompleted c3 (nth 2 initialSteps (mkStep "" "" "" "" "" false));
              setCompleted c4 (nth 3 initialSteps (mkStep "" "" "" "" "" false)) ].
Proof.
  unfold ofTheChecklist, initialSteps.
  destruct steps as [|[i1 t1 d1 n1 a1 c1] [|[i2 t2 d2 n2 a2 c2] [|[i3 t3 d3 n3 a3 c3]
                    [|[i4 t4 d4 n4 a4 c4] [|s5 rest]]]]]; try discriminate.
  cbn. intros H. injection H as -> -> -> -> -> -> -> -> -> -> -> -> -> -> -> -> -> -> -> ->.
  exists c1, c2, c3, c4. reflexivity.
Qed.

(** X26. The steps of the checklist are always the four initial ones, in
    their order. After checkCompletedSteps with a signed-in user, each step
    is ticked exactly when its query found something (for the profile: a
    name, an age or a weight in the row, or a name in the metadata of the
    user), whatever it was before, so a step is unticked again when its row
    is gone; the count of completed steps is the number of these four facts
    that hold, and the checklist is complete exactly when all four do.
    Without a user, or when a query throws, the steps stay as they are. *)
Theorem checklist_follows_queries (user : User) (found : Found)
        (steps : list OnboardingStep) :
  ofTheChecklist steps ->
  let steps' := checkCompletedSteps (Some user) (Some found) steps in
  ofTheChecklist steps' /\
  map completed steps' = facts user found /\
  steps' = checkCompletedSteps (Some user) (Some found) initialSteps /\
  totalSteps steps' = 4%nat /\
  completedSteps steps' = List.length (List.filter (fun b => b) (facts user found)) /\
  (isCompleted steps' = true <-> List.Forall (fun b => b = true) (facts user found)) /\
  checkCompletedSteps None (Some found) steps = steps /\
  checkCompletedSteps (Some user) None steps = steps.
Proof.
  intros H. destruct (checklist_shape steps H) as (c1 & c2 & c3 & c4 & ->).
  cbv zeta. unfold facts, isCompleted, completedSteps, totalSteps.
  cbn [checkCompletedSteps map initialSteps nth setCompleted Onboarding.id title
       description icon action completed].
  unfold stepCompleted.
  cbn [Onboarding.id completed String.eqb Ascii.eqb Bool.eqb].
  set (p := truthy_opt (opt_get (profileData found) "full_name") || _ || _ || _).
  set (w := truthy_opt (workoutPlan found)).
  set (n := truthy_opt (nutritionConversations found)).
  set (g := truthy_opt (progressData found)).
  split; [reflexivity|]. split; [reflexivity|]. split; [reflexivity|].
  split; [reflexivity|].
  split; [destruct p, w, n, g; reflexivity|].
  split; [| split; reflexivity].
  destruct p, w, n, g; cbn; split; intros Hx; try discriminate Hx;
    try (repeat constructor);
    repeat match goal with
           | Hf : List.Forall _ (_ :: _) |- _ => inversion Hf; clear Hf; subst
           end; congruence.
Qed.

Lemma checklist_follows_queries_witness :
  let user := mkUser "u" None in
  let found := mkFound (Some (JObject [("age", JNumber 30)])) None None None in
  let ticked := checkCompletedSteps (Some user)
                  (Some (mkFound None (Some (JObject [])) None None)) initialSteps in
  ofTheChecklist ticked /\
  map completed (checkCompletedSteps (Some user) (Some found) ticked)
  = [true; false; false; false].
Proof.
  intros user found ticked.
  assert (H : ofTheChecklist ticked) by reflexivity.
  split; [exact H|].
  exact (proj1 (proj2 (checklist_follows_queries user found ticked H))).
Defined.

End OnboardingFacts.

Module GamificationFacts.
Import Gamification.

Lemma listed_In (x : string) (l : list string) : includes x l = true <-> In x l.
Proof.
  unfold includes. rewrite existsb_exists. split.
  - intros (y & Hy & E). apply String.eqb_eq in E. now subst.
  - intros H. exists x. split; [exact H | apply String.eqb_refl].
Qed.

Lemma includes_app (x : string) (l l' : list string) :
  includes x (l ++ l') = includes x l || includes x l'.
Proof. unfold includes. apply existsb_app. Qed.

Lemma includes_other (x y : string) (l : list string) :
  x <> y -> includes x (l ++ [y]) = includes x l.
Proof.
  intros Hne. rewrite includes_app. cbn.
  destruct (String.eqb_spec x y); [contradiction|]. now rewrite !orb_false_r.
Qed.

Lemma fold_visit (newWorkouts newStreak : Z) (l : list Achievement) :
  List.NoDup (map id l) ->
  forall acc,
    fold_left (visit newWorkouts newStreak) l acc
    = mkUnlocking
        (newUnlockedAchievements acc
         ++ map id (List.filter (wanted (newUnlockedAchievements acc) newWorkouts newStreak) l))
        (xpToAdd acc
         + rewards (List.filter (wanted (newUnlockedAchievements acc) newWorkouts newStreak) l))
        (shown acc
         ++ map message
              (List.filter (wanted (newUnlockedAchievements acc) newWorkouts newStreak) l)).
Proof.
  induction l as [|a l IH]; intros Hnd acc.
  - cbn. rewrite !app_nil_r, Z.add_0_r. now destruct acc.
  - cbn [map] in Hnd. apply List.NoDup_cons_iff in Hnd. destruct Hnd as [Hnotin Hnd].
    cbn [fold_left List.filter]. rewrite (IH Hnd).
    destruct (wanted (newUnlockedAchievements acc) newWorkouts newStreak a) eqn:C.
    + assert (V : visit newWorkouts newStreak acc a
                  = mkUnlocking (newUnlockedAchievements acc ++ [id a])
                                (xpToAdd acc + xpReward a)
                                (shown acc ++ [message a])).
      { unfold visit. unfold wanted in C. rewrite C. reflexivity. }
      rewrite V. cbn [newUnlockedAchievements xpToAdd shown].
      assert (E : List.filter (wanted (newUnlockedAchievements acc ++ [id a])
                                      newWorkouts newStreak) l
                  = List.filter (wanted (newUnlockedAchievements acc)
                                        newWorkouts newStreak) l).
      { apply List.filter_ext_in. intros b Hb. unfold wanted.
        rewrite includes_other; [reflexivity|].
        intros Eid. apply Hnotin. rewrite <- Eid. now apply List.in_map. }
      rewrite E. cbn [map]. unfold rewards. cbn [map fold_right].
      rewrite <- !List.app_assoc. cbn [app]. f_equal. lia.
    + assert (V : visit newWorkouts newStreak acc a = acc).
      { unfold visit. unfold wanted in C. rewrite C. reflexivity. }
      rewrite V. reflexivity.
Qed.

Lemma defaultAchievements_ids :
  List.NoDup (map id defaultAchievements).
Proof.
  cbn. repeat (constructor; [cbn; intuition discriminate|]). constructor.
Qed.

Lemma unlock_eq (old : list string) (newWorkouts newStreak : Z) :
  unlock old newWorkouts newStreak
  = mkUnlocking (old ++ map id (fresh old newWorkouts newStreak))
                (rewards (fresh old newWorkouts newStreak))
                (map message (fresh old newWorkouts newStreak)).
Proof.
  unfold unlock. rewrite (fold_visit _ _ _ defaultAchievements_ids).
  cbn [newUnlockedAchievements xpToAdd shown]. reflexivity.
Qed.

Lemma rewards_filter_bounds (f : Achievement -> bool) (l : list Achievement) :
  List.Forall (fun a => 0 <= xpReward a) l ->
  0 <= rewards (List.filter f l) <= rewards l.
Proof.
  unfold rewards. induction 1 as [|a l Ha _ IH]; [cbn; lia|].
  cbn [List.filter]. destruct (f a); cbn [map fold_right]; lia.
Qed.

Lemma rewards_nonneg : List.Forall (fun a => 0 <= xpReward a) defaultAchievements.
Proof. repeat constructor; cbn; lia. Qed.

Lemma fresh_after (old : list string) (newWorkouts newStreak : Z) :
  fresh (old ++ map id (fresh old newWorkouts newStreak)) newWorkouts newStreak = [].
Proof.
  unfold fresh at 1.
  assert (H : forall l,
             (forall a, In a l -> In a defaultAchievements) ->
             List.filter (fun a => negb (includes (id a)
                                           (old ++ map id (fresh old newWorkouts newStreak)))
                                   && shouldUnlock (id a) newWorkouts newStreak) l = []).
  { induction l as [|a l IH]; intros Hl; [reflexivity|].
    cbn [List.filter]. rewrite IH by (intros b Hb; apply Hl; now right).
    destruct (negb _ && _) eqn:C; [|reflexivity]. exfalso.
    apply andb_true_iff in C. destruct C as [C1 C2].
    apply negb_true_iff in C1. rewrite includes_app in C1.
    apply orb_false_iff in C1. destruct C1 as [C1 C3].
    assert (Hin : In (id a) (map id (fresh old newWorkouts newStreak))).
    { apply List.in_map. unfold fresh. apply List.filter_In. split; [apply Hl; now left|].
      now rewrite C1, C2. }
    apply listed_In in Hin. congruence. }
  apply H. auto.
Qed.

Lemma NoDup_map_filter (f : Achievement -> bool) (l : list Achievement) :
  List.NoDup (map id l) -> List.NoDup (map id (List.filter f l)).
Proof.
  induction l as [|a l IH]; [intros _; constructor|].
  cbn [map]. intros H. apply List.NoDup_cons_iff in H. destruct H as [Hn H].
  cbn [List.filter]. destruct (f a); [|now apply IH].
  cbn [map]. apply List.NoDup_cons_iff. split; [|now apply IH].
  intros Hin. apply Hn. apply List.in_map_iff in Hin. destruct Hin as (b & Eb & Hb).
  apply List.filter_In in Hb. rewrite <- Eb. apply List.in_map. tauto.
Qed.

(** X27. The loop of updateGamificationData appends to the list it
    starts from, in the order of the table, the achievements that are not
    yet in it and whose condition holds, adds up their rewards and shows one
    toast for each. The sum lies between 0 and 875. A list without
    repetition stays so, and running the loop again on its own result
    unlocks nothing and adds no XP. *)
Theorem unlock_characterised (old : list string) (newWorkouts newStreak : Z) :
  let u := unlock old newWorkouts newStreak in
  let new := fresh old newWorkouts newStreak in
  newUnlockedAchievements u = (old ++ map id new)%list /\
  xpToAdd u = rewards new /\
  0 <= xpToAdd u <= 875 /\
  List.length (shown u) = List.length new /\
  (List.NoDup old -> List.NoDup (newUnlockedAchievements u)) /\
  unlock (newUnlockedAchievements u) newWorkouts newStreak
  = mkUnlocking (newUnlockedAchievements u) 0 [].
Proof.
  cbv zeta. rewrite unlock_eq. cbn [newUnlockedAchievements xpToAdd shown].
  split; [reflexivity|]. split; [reflexivity|]. split; [| split; [| split]].
  - pose proof (rewards_filter_bounds
                  (fun a => negb (includes (id a) old)
                            && shouldUnlock (id a) newWorkouts newStreak)
                  defaultAchievements rewards_nonneg) as H.
    unfold fresh. change (rewards defaultAchievements) with 875 in H. exact H.
  - apply List.length_map.
  - intros Hnd. apply List.NoDup_app; [exact Hnd | |].
    + apply NoDup_map_filter, defaultAchievements_ids.
    + intros x Hx Hin. apply List.in_map_iff in Hin. destruct Hin as (a & <- & Ha).
      unfold fresh in Ha. apply List.filter_In in Ha. destruct Ha as [_ Ha].
      apply andb_true_iff in Ha. destruct Ha as [Ha _]. apply negb_true_iff in Ha.
      apply listed_In in Hx. congruence.
  - rewrite unlock_eq, fresh_after. cbn. now rewrite app_nil_r.
Qed.


Lemma NoDup_map_inj (l : list Achievement) (a b : Achievement) :
  List.NoDup (map id l) -> In a l -> In b l -> id a = id b -> a = b.
Proof.
  induction l as [|c l IH]; [intros _ []|].
  cbn [map]. intros H. apply List.NoDup_cons_iff in H. destruct H as [Hn H].
  intros [->|Ha] [->|Hb] E.
  - reflexivity.
  - exfalso. apply Hn. rewrite E. now apply List.in_map.
  - exfalso. apply Hn. rewrite <- E. now apply List.in_map.
  - now apply IH.
Qed.

Lemma includes_fresh (old : list string) (newWorkouts newStreak : Z) (a : Achievement) :
  In a defaultAchievements ->
  includes (id a) (map id (fresh old newWorkouts newStreak))
  = wanted old newWorkouts newStreak a.
Proof.
  intros Ha. destruct (wanted old newWorkouts newStreak a) eqn:W.
  - apply listed_In, List.in_map. unfold fresh. apply List.filter_In. split; assumption.
  - destruct (includes (id a) (map id (fresh old newWorkouts newStreak))) eqn:I;
      [|reflexivity].
    apply listed_In, List.in_map_iff in I. destruct I as (b & Eb & Hb).
    unfold fresh in Hb. apply List.filter_In in Hb. destruct Hb as [Hb Wb].
    rewrite (NoDup_map_inj _ _ _ defaultAchievements_ids Hb Ha Eb) in Wb.
    unfold wanted in W. congruence.
Qed.

Lemma rewards_split (p q r : Achievement -> bool) (l : list Achievement) :
  (forall a, In a l -> p a = q a || r a) ->
  (forall a, In a l -> q a = true -> r a = false) ->
  rewards (List.filter p l) = rewards (List.filter q l) + rewards (List.filter r l).
Proof.
  unfold rewards. induction l as [|a l IH]; intros Hp Hd; [reflexivity|].
  cbn [List.filter]. rewrite (Hp a) by now left.
  specialize (IH (fun b Hb => Hp b (or_intror Hb)) (fun b Hb => Hd b (or_intror Hb))).
  pose proof (Hd a (or_introl eq_refl)) as Hda.
  destruct (q a); [rewrite Hda by reflexivity|]; cbn [orb];
    [| destruct (r a)]; cbn [map fold_right]; lia.
Qed.

Lemma earned_after (old : list string) (newWorkouts newStreak : Z) :
  earned (old ++ map id (fresh old newWorkouts newStreak))
  = earned old + rewards (fresh old newWorkouts newStreak).
Proof.
  unfold earned.
  change (rewards (fresh old newWorkouts newStreak))
    with (rewards (List.filter (wanted old newWorkouts newStreak) defaultAchievements)).
  apply rewards_split.
  - intros a Ha. rewrite includes_app, (includes_fresh _ _ _ _ Ha). reflexivity.
  - intros a _ H. unfold wanted. rewrite H. reflexivity.
Qed.

Lemma earned_bounds (ids : list string) : 0 <= earned ids <= 875.
Proof.
  exact (rewards_filter_bounds (fun a => includes (id a) ids) defaultAchievements
           rewards_nonneg).
Qed.

Lemma level_below_1000 (xp : Z) :
  xp < 1000 -> Levels.level (Levels.getCurrentLevelData xp) <= 4.
Proof.
  intros H.
  destruct (LevelsFacts.getCurrentLevelData_cases xp)
    as [[? E]|[[? E]|[[? E]|[[? E]|[[? E]|[? E]]]]]]; rewrite E; cbn; lia.
Qed.

(** X28. When updateGamificationData writes its row, the XP of the row
    exceed the rewards of the achievements of the row by as much as the XP
    it was given exceed the rewards of the list it started from; the level
    of the row is the level of its XP, and the state takes the XP, the level
    and the list of the row. So when the XP given are the rewards of the
    starting list, the XP of the row are the rewards of its achievements, at
    most 875, and its level is at most 4; when the starting list is empty
    the rewards of every achievement whose condition holds are added to the
    given XP, whether they were counted before or not. When the upsert
    fails nothing is written and XP, level and list stay, though the toasts
    were shown. *)
Theorem update_xp_account (closure : list string) (newWorkouts newStreak newXP clock : Z)
        (st : State) :
  let out := updateGamificationData true closure newWorkouts newStreak newXP clock false st in
  let lost := updateGamificationData true closure newWorkouts newStreak newXP clock true st in
  (exists row,
      snd out = Some row /\
      total_xp row - earned (achievements_unlocked row) = newXP - earned closure /\
      current_level row = Levels.level (Levels.getCurrentLevelData (total_xp row)) /\
      current_streak row = newStreak /\
      total_workouts_completed row = newWorkouts /\
      last_activity_date row = Some (utcDay clock) /\
      userXP (fst out) = total_xp row /\
      currentLevel (fst out) = current_level row /\
      unlockedAchievements (fst out) = achievements_unlocked row /\
      (newXP = earned closure ->
       total_xp row = earned (achievements_unlocked row) /\
       total_xp row <= 875 /\ current_level row <= 4) /\
      (closure = [] ->
       total_xp row
       = newXP + rewards (List.filter
                            (fun a => shouldUnlock (id a) newWorkouts newStreak)
                            defaultAchievements))) /\
  snd lost = None /\
  userXP (fst lost) = userXP st /\
  currentLevel (fst lost) = currentLevel st /\
  unlockedAchievements (fst lost) = unlockedAchievements st /\
  toasts (fst lost) = toasts (fst out).
Proof.
  cbv zeta. unfold updateGamificationData. cbn [negb fst snd].
  rewrite unlock_eq. cbn [newUnlockedAchievements xpToAdd shown].
  split; [| repeat split].
  eexists. split; [reflexivity|].
  cbn [total_xp achievements_unlocked current_level current_streak
       total_workouts_completed last_activity_date userXP currentLevel
       unlockedAchievements].
  rewrite earned_after.
  split; [lia|]. do 7 (split; [reflexivity|]). split.
  - intros ->.
    pose proof (earned_bounds (closure ++ map id (fresh closure newWorkouts newStreak))) as B.
    rewrite earned_after in B.
    split; [reflexivity|]. split; [lia|]. apply level_below_1000. lia.
  - intros ->. reflexivity.
Qed.

Lemma update_xp_account_witness :
  let out := updateGamificationData true ["first-workout"] 10 0 50 0 false initialState in
  50 = earned ["first-workout"] /\
  exists row, snd out = Some row /\ total_xp row = earned (achievements_unlocked row).
Proof.
  intros out. split; [reflexivity|].
  destruct (update_xp_account ["first-workout"] 10 0 50 0 initialState)
    as [(row & Hrow & _ & _ & _ & _ & _ & _ & _ & _ & H & _) _].
  exists row. split; [exact Hrow|]. exact (proj1 (H eq_refl)).
Defined.

Lemma diffDays_le_1 (today lastActivity : Z) :
  (diffDays today lastActivity <=? 1) = true
  <-> Z.abs (today - lastActivity) <= Streak.msPerDay.
Proof.
  unfold diffDays, Streak.msPerDay. rewrite Z.leb_le.
  split; intros H; Z.div_mod_to_equations; lia.
Qed.

Lemma streakOf_same_day (row : Row) (completedItems today day : Z) :
  last_activity_date row = Some day ->
  utcDay today = day ->
  streakOf (Some row) completedItems today
  = if 0 <? completedItems then Z.min (current_streak row + 1) 30 else current_streak row.
Proof.
  intros Hd Hday. unfold streakOf. rewrite Hd.
  assert (H : (diffDays today (day * Streak.msPerDay) <=? 1) = true).
  { apply diffDays_le_1. unfold utcDay, Streak.msPerDay in *.
    Z.div_mod_to_equations. lia. }
  rewrite H. reflexivity.
Qed.

Lemma streakOf_later (row : Row) (completedItems today day : Z) :
  last_activity_date row = Some day ->
  (day + 1) * Streak.msPerDay < today ->
  streakOf (Some row) completedItems today = 0.
Proof.
  intros Hd Hlate. unfold streakOf. rewrite Hd.
  destruct (diffDays today (day * Streak.msPerDay) <=? 1) eqn:H; [|reflexivity].
  apply diffDays_le_1 in H. unfold Streak.msPerDay in *. lia.
Qed.

Lemma streakOf_bounds (row : Row) (completedItems today : Z) :
  0 <= current_streak row ->
  0 <= streakOf (Some row) completedItems today.
Proof.
  intros H. unfold streakOf. destruct (last_activity_date row).
  - destruct (_ <=? 1); [|lia]. destruct (0 <? completedItems); lia.
  - destruct (0 <? completedItems); lia.
Qed.

(** X29. loadGamificationData on a stored row. The totals on display are
    the larger of the stored workouts and a third of the completed items,
    and the achievements on display carry the stored list. Whatever the
    load writes has at least the stored streak, workouts and XP, and the UTC
    day of the write as its last activity. When the last activity is the UTC
    day of the load, an item is completed and the stored streak is below 30,
    the load writes the stored streak plus one: every load of that day adds
    a day. When more than a day has passed since the end of the last
    activity day, the computed streak is 0, the stored streak stays on
    display and stays in whatever is written. *)
Theorem load_streak_and_totals (closure : list string) (row : Row)
        (items today clock : Z) (failed : bool) (st : State) :
  let out := loadGamificationData true closure (Some row) items today clock failed st in
  totalWorkouts (fst out) = Z.max (total_workouts_completed row) (items / 3) /\
  achievements (fst out) = map (withStatus (achievements_unlocked row)) defaultAchievements /\
  (forall written,
      snd out = Some written ->
      current_streak row <= current_streak written /\
      total_workouts_completed row <= total_workouts_completed written /\
      items / 3 <= total_workouts_completed written /\
      total_xp row <= total_xp written /\
      last_activity_date written = Some (utcDay clock)) /\
  (forall day,
      last_activity_date row = Some day -> utcDay today = day ->
      0 < items -> current_streak row < 30 -> failed = false ->
      exists written,
        snd out = Some written /\ current_streak written = current_streak row + 1) /\
  (forall day,
      last_activity_date row = Some day -> (day + 1) * Streak.msPerDay < today ->
      0 <= current_streak row ->
      currentStreak (fst out) = current_streak row /\
      forall written, snd out = Some written ->
                      current_streak written = current_streak row).
Proof.
  cbv zeta. unfold loadGamificationData. cbn [negb fst snd].
  set (streak := streakOf (Some row) items today).
  set (go := (total_workouts_completed row <? items / 3) || (current_streak row <? streak)).
  assert (Hout : forall written,
             snd (if go
                  then updateGamificationData true closure
                         (Z.max (total_workouts_completed row) (items / 3))
                         (Z.max (current_streak row) streak) (total_xp row) clock failed
                         (mkState (total_xp row) (orZ (current_streak row) streak)
                                  (Z.max (total_workouts_completed row) (items / 3))
                                  (orZ (current_level row) 1) (achievements st)
                                  (achievements_unlocked row) (toasts st))
                  else (mkState (total_xp row) (orZ (current_streak row) streak)
                                (Z.max (total_workouts_completed row) (items / 3))
                                (orZ (current_level row) 1) (achievements st)
                                (achievements_unlocked row) (toasts st), None))
             = Some written ->
             go = true /\ failed = false /\
             written = mkRow (total_xp row
                              + rewards (fresh closure
                                           (Z.max (total_workouts_completed row) (items / 3))
                                           (Z.max (current_streak row) streak)))
                             (Levels.level
                                (Levels.getCurrentLevelData
                                   (total_xp row
                                    + rewards (fresh closure
                                                 (Z.max (total_workouts_completed row)
                                                        (items / 3))
                                                 (Z.max (current_streak row) streak)))))
                             (Z.max (current_streak row) streak)
                             (Z.max (total_workouts_completed row) (items / 3))
                             (closure ++ map id (fresh closure
                                                   (Z.max (total_workouts_completed row)
                                                          (items / 3))
                                                   (Z.max (current_streak row) streak)))
                             (Some (utcDay clock))).
  { intros written. destruct go; [|discriminate].
    unfold updateGamificationData. cbn [negb]. rewrite unlock_eq.
    cbn [newUnlockedAchievements xpToAdd shown].
    destruct failed; cbn [snd]; [discriminate|]. intros [= <-]. auto. }
  split; [| split; [| split; [| split]]].
  - destruct go; [|reflexivity].
    unfold updateGamificationData. cbn [negb]. destruct failed; reflexivity.
  - reflexivity.
  - intros written Hw. apply Hout in Hw. destruct Hw as (_ & _ & ->).
    cbn [current_streak total_workouts_completed total_xp last_activity_date].
    pose proof (proj1 (rewards_filter_bounds
                  (fun a => negb (includes (id a) closure)
                            && shouldUnlock (id a)
                                 (Z.max (total_workouts_completed row) (items / 3))
                                 (Z.max (current_streak row) streak))
                  defaultAchievements rewards_nonneg)) as B.
    unfold fresh. repeat split; lia.
  - intros day Hd Hday Hitems Hcs ->.
    assert (Hs : streak = current_streak row + 1).
    { subst streak. rewrite (streakOf_same_day row items today day Hd Hday).
      destruct (Z.ltb_spec 0 items); lia. }
    assert (Hgo : go = true).
    { subst go. apply orb_true_iff. right. apply Z.ltb_lt. lia. }
    rewrite Hgo. unfold updateGamificationData. cbn [negb snd].
    eexists. split; [reflexivity|]. cbn [current_streak]. lia.
  - intros day Hd Hlate Hcs.
    assert (Hs : streak = 0) by (subst streak; now apply streakOf_later with day).
    split.
    + assert (E : orZ (current_streak row) streak = current_streak row).
      { unfold orZ. destruct (Z.eqb_spec (current_streak row) 0); lia. }
      destruct go; [|exact E].
      unfold updateGamificationData. cbn [negb]. destruct failed; exact E.
    + intros written Hw. apply Hout in Hw. destruct Hw as (_ & _ & ->).
      cbn [current_streak]. lia.
Qed.

Lemma load_streak_and_totals_witness :
  let row := mkRow 50 1 1 1 ["first-workout"] (Some 20000) in
  let today := 20000 * Streak.msPerDay + 5000 in
  let out := loadGamificationData true [] (Some row) 4 today today false initialState in
  utcDay today = 20000 /\
  exists written, snd out = Some written /\ current_streak written = 2.
Proof.
  intros row today out. split; [reflexivity|].
  destruct (load_streak_and_totals [] row 4 today today false initialState)
    as (_ & _ & _ & H & _).
  destruct (H 20000 eq_refl eq_refl ltac:(lia) ltac:(cbn; lia) eq_refl) as (w & Hw & Hs).
  exists w. split; [exact Hw | exact Hs].
Defined.

Lemma completedItems_insert (userId : string) (key : string * string * string) (b : bool)
      (tbl : Progress.Table) :
  completedItems userId (<[key := b]> tbl)
  = completedItems userId tbl
    - (if decide (key.1.1 = userId /\ tbl !! key = Some true) then 1 else 0)
    + (if decide (key.1.1 = userId /\ b = true) then 1 else 0).
Proof.
  unfold completedItems, Progress.Table in *. rewrite map_filter_insert.
  assert (Hlook : filter (completedOf userId) tbl !! key
                  = if decide (key.1.1 = userId /\ tbl !! key = Some true)
                    then Some true else None).
  { destruct (decide (key.1.1 = userId /\ tbl !! key = Some true)) as [[H1 H2]|Hn].
    - apply map_lookup_filter_Some. split; [exact H2 | split; [exact H1 | reflexivity]].
    - apply map_lookup_filter_None. destruct (tbl !! key) as [x|] eqn:E; [|now left].
      right. intros y [= <-] [H1 H2]. cbn in H1, H2. subst x. tauto. }
  assert (Hpos : filter (completedOf userId) tbl !! key <> None ->
                 (0 < size (filter (completedOf userId) tbl))%nat).
  { intros Hne. destruct (filter (completedOf userId) tbl !! key) as [x|] eqn:E;
      [|congruence].
    pose proof (map_size_delete key (filter (completedOf userId) tbl)) as Hs.
    rewrite E in Hs.
    destruct (size (filter (completedOf userId) tbl)) eqn:Z0; [|lia].
    apply map_size_empty_inv in Z0. rewrite Z0, lookup_empty in E. discriminate. }
  destruct (decide (completedOf userId (key, b))) as [[H1 H2]|Hn]; cbn in *.
  - rewrite map_size_insert, Hlook.
    rewrite (decide_True (P := key.1.1 = userId /\ b = true)) by tauto.
    destruct (decide (key.1.1 = userId /\ tbl !! key = Some true)); cbn; lia.
  - rewrite map_filter_delete, map_size_delete, Hlook.
    rewrite (decide_False (P := key.1.1 = userId /\ b = true)) by exact Hn.
    destruct (decide (key.1.1 = userId /\ tbl !! key = Some true)) as [Hy|Hy]; cbn; [|lia].
    assert (Hne : filter (completedOf userId) tbl !! key <> None).
    { apply not_eq_None_Some. exists true. apply map_lookup_filter_Some.
      destruct Hy as [Hy1 Hy2]. split; [exact Hy2 | split; [exact Hy1 | reflexivity]]. }
    specialize (Hpos Hne). lia.
Qed.

(** X30. The completed rows of plan_progress that loadGamificationData
    counts follow the clicks of the plan: an upsert that succeeds changes
    the count of the user by one when the status of the item changes between
    completed and not, and leaves it otherwise; the count of every other
    user stays. Deleting the progress of a plan never raises the count, and
    the count is never negative. *)
Theorem clicks_feed_the_count (ui : Progress.Ui) (tbl : Progress.Table)
        (userId planId item : string) (currentStatus : bool) :
  Progress.guard ui = Some (userId, planId) ->
  let tbl' := Progress.upsert ui item currentStatus Progress.UpsertOk tbl in
  completedItems userId tbl'
  = completedItems userId tbl
    - (if decide (tbl !! (userId, planId, item) = Some true) then 1 else 0)
    + (if currentStatus then 0 else 1) /\
  (forall other, other <> userId -> completedItems other tbl' = completedItems other tbl) /\
  completedItems userId (PlanStore.deletePlanProgress userId planId tbl)
  <= completedItems userId tbl /\
  0 <= completedItems userId tbl.
Proof.
  intros Hg. cbv zeta. unfold Progress.upsert. rewrite Hg.
  split; [| split; [| split]].
  - rewrite completedItems_insert. cbn [fst snd].
    destruct (decide (tbl !! (userId, planId, item) = Some true)) as [Hy|Hn].
    + rewrite (decide_True (P := userId = userId /\ _)) by tauto.
      destruct currentStatus; cbn [negb].
      * rewrite decide_False by (intros [_ H]; discriminate H). lia.
      * rewrite decide_True by tauto. lia.
    + rewrite (decide_False (P := userId = userId /\ _)) by tauto.
      destruct currentStatus; cbn [negb].
      * rewrite decide_False by (intros [_ H]; discriminate H). lia.
      * rewrite decide_True by tauto. lia.
  - intros other Hne. rewrite completedItems_insert. cbn [fst snd].
    rewrite !decide_False by (intros [H _]; congruence). lia.
  - unfold completedItems, PlanStore.deletePlanProgress, Progress.Table in *.
    rewrite map_filter_comm. apply inj_le, map_size_filter.
  - unfold completedItems. lia.
Qed.

Lemma clicks_feed_the_count_witness :
  let ui := Progress.mkUi (Some "u") (Some "Plano A") ∅ [] in
  Progress.guard ui = Some ("u", "Plano A") /\
  completedItems "u" (Progress.upsert ui "Prancha_1" false Progress.UpsertOk ∅) = 1.
Proof.
  intros ui. split; [reflexivity|].
  rewrite (proj1 (clicks_feed_the_count ui ∅ "u" "Plano A" "Prancha_1" false eq_refl)).
  reflexivity.
Defined.

End GamificationFacts.
